(** * XDCC download server: the transfer engine and the API front-end

    A shallow embedding of the two JavaScript modules of the repository:

    - [Axdcc]: the [Request] class of [lib/axdcc.js] (one XDCC transfer:
      CTCP negotiation, DCC data channel with its 4-byte acknowledgements,
      partial-file handling, kill);
    - [Server]: the parts of [server.js] that couple a transfer to the API
      client that asked for it (the [activeDownloads] map, the [xdccHandlers],
      the logger's progress line and the configuration flags).

    JavaScript numbers are modelled by [Z]: every number the engine handles
    is an integer (byte counts, ports, parsed decimal fields), and doubles
    are exact on integers below 2^53.  A value that may also be [undefined]
    or [NaN] is a [jsnum].  Callbacks that Node runs later (fs.stat,
    fs.unlink, fs.rename, stream 'open', socket events, timers) are inputs
    of a step function; what a handler does to the outside world is the list
    of [Action]s the step returns.  Console and log-file lines are left out,
    with the fields that only feed them ([startTime], [lastReceivedBytes]);
    the logger's progress line is modelled in [Server]. *)

From stdpp Require Import gmap strings list pretty.
From Equations Require Import Equations.
From Stdlib Require Import ZArith Lia Ascii.

Local Open Scope Z_scope.

(** ** JavaScript values *)

(** A number-valued slot: a property that was never assigned reads
    [undefined]; arithmetic on [undefined] and [parseInt(undefined)] give
    [NaN]. *)
Inductive jsnum : Type :=
| JUndef
| JNaN
| JNum (z : Z).

(** [v + n] / [v += n] for a number [n]. *)
Definition js_add (v : jsnum) (n : Z) : jsnum :=
  match v with
  | JNum z => JNum (z + n)
  | JUndef | JNaN => JNaN
  end.

(** [a === b] on number slots: [NaN] equals nothing, [undefined] only itself. *)
Definition js_strict_eq (a b : jsnum) : bool :=
  match a, b with
  | JNum x, JNum y => x =? y
  | JUndef, JUndef => true
  | _, _ => false
  end.

(** [a === b] where [a] is a possibly undefined string property and [b] a string. *)
Definition js_str_eq (a : option string) (b : string) : bool :=
  match a with
  | Some x => String.eqb x b
  | None => false
  end.

(** Template-literal rendering [`${v}`]. *)
Definition tmpl_num (v : jsnum) : string :=
  match v with
  | JNum z => pretty z
  | JNaN => "NaN"
  | JUndef => "undefined"
  end.

Definition tmpl_str (v : option string) : string :=
  match v with
  | Some s => s
  | None => "undefined"
  end.

(** Truthiness of a number slot and of a string slot. *)
Definition truthy_num (v : jsnum) : bool :=
  match v with
  | JNum z => negb (z =? 0)
  | JUndef | JNaN => false
  end.

Definition truthy_str (v : option string) : bool :=
  match v with
  | Some s => negb (String.eqb s "")
  | None => false
  end.

(** [ToInt32]: the conversion the bitwise operators apply to their operands. *)
Definition ToInt32 (n : Z) : Z :=
  let m := n mod 2 ^ 32 in
  if 2 ^ 31 <=? m then m - 2 ^ 32 else m.

(** [n >> k] (sign-propagating shift) and [a & b] on integers. *)
Definition js_sar (n k : Z) : Z := Z.shiftr (ToInt32 n) k.
Definition js_and (a b : Z) : Z := ToInt32 (Z.land (ToInt32 a) (ToInt32 b)).

(** A Buffer: a list of octets, each in 0..255. *)
Definition Buffer : Type := list Z.

(** ** One turn of the event loop

    A handler runs to completion: it reads and writes the fields of its
    object and performs effects in order.  [Turn St Act A] is state passing
    over [St] with the list of effects [Act] performed so far. *)

Definition Turn (St Act A : Type) : Type := St -> A * St * list Act.

#[global] Instance Turn_ret {St Act} : MRet (Turn St Act) :=
  fun A x s => (x, s, []).
#[global] Instance Turn_bind {St Act} : MBind (Turn St Act) :=
  fun A B f m s =>
    let '(x, s1, a1) := m s in
    let '(y, s2, a2) := f x s1 in
    (y, s2, a1 ++ a2).

Definition get {St Act A : Type} (f : St -> A) : Turn St Act A :=
  fun s => (f s, s, []).
Definition put {St Act : Type} (f : St -> St) : Turn St Act unit :=
  fun s => (tt, f s, []).
Definition act {St Act : Type} (a : Act) : Turn St Act unit :=
  fun s => (tt, s, [a]).
Definition done_ {St Act : Type} : Turn St Act unit := mret tt.

(** The state and the effects of running a handler. *)
Definition exec {St Act : Type} (m : Turn St Act unit) (s : St)
  : St * list Act :=
  let '(_, s', acts) := m s in (s', acts).

(** ** Pure helpers of [lib/axdcc.js] *)

Module Wire.

(** [_intToIP(n)]: the four octets, most significant first ([unshift]
    prepends, so the last one pushed is the first of the array). *)
Definition octets (n : Z) : list Z :=
  [ js_and (js_sar n 24) 255;
    js_and (js_sar n 16) 255;
    js_and (js_sar n 8) 255;
    js_and n 255 ].

(** [Array.prototype.join('.')] on numbers. *)
Fixpoint join_dot (l : list Z) : string :=
  match l with
  | [] => ""
  | [x] => pretty x
  | x :: rest => pretty x +:+ "." +:+ join_dot rest
  end.

Definition _intToIP (n : Z) : string := join_dot (octets n).

(** Modelled from the spec: the integer form of an IPv4 address, which the
    sending bot computes and the repository never does: "the peer IPv4
    address encoded as a decimal 32-bit integer, big-endian octet order". *)
Definition ip_to_int (a b c d : Z) : Z :=
  a * 2 ^ 24 + b * 2 ^ 16 + c * 2 ^ 8 + d.

(** The dotted-decimal text of an address. *)
Definition dotted (a b c d : Z) : string :=
  pretty a +:+ "." +:+ pretty b +:+ "." +:+ pretty c +:+ "." +:+ pretty d.

(** The largest value of the 32-bit acknowledgement, [0xFFFFFFFF]. *)
Definition ACK_MAX : Z := 4294967295.

Lemma ack_wrap_decreases (ack : Z) :
  ACK_MAX < ack ->
  (Z.to_nat ((ack - (ACK_MAX + 1)) / (ACK_MAX + 1))
   < Z.to_nat (ack / (ACK_MAX + 1)))%nat.
Proof.
  unfold ACK_MAX. intros H.
  change (4294967295 + 1) with 4294967296.
  assert (E : ack / 4294967296 = (ack - 4294967296) / 4294967296 + 1).
  { rewrite <- Z.div_add by lia. f_equal. lia. }
  assert (0 <= (ack - 4294967296) / 4294967296) by (apply Z.div_pos; lia).
  lia.
Qed.

(** [while (ack > 0xFFFFFFFF) { ack -= 0xFFFFFFFF + 1; }]
    The loop runs [ack / 2^32] times, which is the measure. *)
Equations ack_wrap (ack : Z) : Z by wf (Z.to_nat (ack / (ACK_MAX + 1))) lt :=
  ack_wrap ack with Z_lt_dec ACK_MAX ack => {
    | left _ := ack_wrap (ack - (ACK_MAX + 1));
    | right _ := ack }.
Next Obligation. apply ack_wrap_decreases. assumption. Qed.

(** The loop on a slot: [NaN > 0xFFFFFFFF] is false, so no iteration. *)
Definition ack_loop (ack : jsnum) : jsnum :=
  match ack with
  | JNum z => JNum (ack_wrap z)
  | other => other
  end.

(** [sendBuffer.writeUInt32BE(v, 0)].  Node throws a RangeError when the
    value is outside 0..0xFFFFFFFF ([None] here); [NaN] passes the range
    check and is stored as zero octets. *)
Definition writeUInt32BE (v : jsnum) : option Buffer :=
  match v with
  | JNum z =>
      if (z <? 0) || (ACK_MAX <? z) then None
      else Some [ Z.land (Z.shiftr z 24) 255;
                  Z.land (Z.shiftr z 16) 255;
                  Z.land (Z.shiftr z 8) 255;
                  Z.land z 255 ]
  | JUndef | JNaN => Some [0; 0; 0; 0]
  end.

(** Reading a 4-octet big-endian frame back, as the peer does. *)
Definition readUInt32BE (b : Buffer) : option Z :=
  match b with
  | [b3; b2; b1; b0] => Some (b3 * 2 ^ 24 + b2 * 2 ^ 16 + b1 * 2 ^ 8 + b0)
  | _ => None
  end.

(** [downloadDir.replace(/[\/\\]$/, '')]: drop one trailing separator. *)
Fixpoint strip_trailing_sep (s : string) : string :=
  match s with
  | EmptyString => EmptyString
  | String c EmptyString =>
      if Ascii.eqb c "/"%char || Ascii.eqb c "\"%char then EmptyString else s
  | String c rest => String c (strip_trailing_sep rest)
  end.

End Wire.

(** ** The [Request] class of [lib/axdcc.js] *)

Module Axdcc.

(** [this.args], after the constructor merged the defaults
    ([progressInterval: 1], [resume: true], [verbose: false]). *)
Record Args : Type := mkArgs {
  nick : string;
  pack : string;
  path : string;
  resume : bool;
  progressInterval : Z;
  verbose : bool
}.

(** A pack object.  [this.pack_info] starts as the empty object [{}] and is
    reset to a new [{}] after kill, so every property may read [undefined]. *)
Record Pack : Type := mkPack {
  command : option string;
  filename : option string;
  ip : option string;
  port : jsnum;
  filesize : jsnum;
  resumepos : jsnum;
  location : option string
}.

Definition empty_object : Pack :=
  mkPack None None None JUndef JUndef JUndef None.

Definition set_command (v : option string) (p : Pack) : Pack :=
  mkPack v (filename p) (ip p) (port p) (filesize p) (resumepos p) (location p).
Definition set_resumepos (v : jsnum) (p : Pack) : Pack :=
  mkPack (command p) (filename p) (ip p) (port p) (filesize p) v (location p).
Definition set_location (v : option string) (p : Pack) : Pack :=
  mkPack (command p) (filename p) (ip p) (port p) (filesize p) (resumepos p) v.

(** The capture groups of
    [/DCC (\w+) "?'?(.+?)'?"? (\d+) (\d+)(?: (\d+))?/], the three numeric
    groups already through [parseInt(_, 10)]; the fifth group is optional. *)
Record DccParams : Type := mkParams {
  p_command : string;
  p_filename : string;
  p_ip : Z;
  p_port : Z;
  p_size : option Z
}.

(** *** The parser of DCC messages

    [message.match(parser)] for the regular expression above, written as
    the backtracking search the engine performs: the pattern is tried at
    every position from the left; at a position the optional quotes are
    tried present first, the lazy group of the file name grows by one
    character whenever what follows it fails, and the runs of digits are
    greedy.  Characters are the octets of the message. *)

(** The classes [\d], [\w] and [.] (any character but a line end). *)
Definition is_digit (c : ascii) : bool :=
  (48 <=? nat_of_ascii c)%nat && (nat_of_ascii c <=? 57)%nat.
Definition is_word (c : ascii) : bool :=
  is_digit c
  || (65 <=? nat_of_ascii c)%nat && (nat_of_ascii c <=? 90)%nat
  || (97 <=? nat_of_ascii c)%nat && (nat_of_ascii c <=? 122)%nat
  || (nat_of_ascii c =? 95)%nat.
Definition is_dot (c : ascii) : bool :=
  negb ((nat_of_ascii c =? 10)%nat || (nat_of_ascii c =? 13)%nat).

(** A greedy run of a class: the longest prefix in it, and the rest. *)
Fixpoint span (p : ascii -> bool) (s : string) : string * string :=
  match s with
  | String c rest =>
      if p c then let '(taken, tl) := span p rest in (String c taken, tl)
      else (EmptyString, s)
  | EmptyString => (EmptyString, EmptyString)
  end.

(** [parseInt(digits, 10)] on a run of digits. *)
Fixpoint parse_digits (acc : Z) (digits : string) : Z :=
  match digits with
  | String c rest =>
      parse_digits (acc * 10 + (Z.of_nat (nat_of_ascii c) - 48)) rest
  | EmptyString => acc
  end.
Definition parseInt (digits : string) : Z := parse_digits 0 digits.

(** An optional character: what is left of the input for each way to
    match, the one that takes the character first. *)
Definition optional (c : ascii) (s : string) : list string :=
  match s with
  | String c' rest => if Ascii.eqb c' c then [rest; s] else [s]
  | EmptyString => [s]
  end.

Definition first_success {A B : Type} (f : A -> option B) (l : list A)
  : option B :=
  foldr (fun x later => match f x with Some y => Some y | None => later end)
    None l.

(** A space and a greedy run of at least one digit.  The run is never
    given back: what follows it in the pattern is a space, the end of the
    pattern, or an optional group. *)
Definition space_digits (s : string) : option (string * string) :=
  match s with
  | String c rest =>
      if Ascii.eqb c " "%char then
        match span is_digit rest with
        | (EmptyString, _) => None
        | (digits, tl) => Some (digits, tl)
        end
      else None
  | EmptyString => None
  end.

(** Groups 3, 4 and 5: two numbers and an optional third. *)
Definition numbers (s : string) : option (Z * Z * option Z) :=
  match space_digits s with
  | Some (g3, s1) =>
      match space_digits s1 with
      | Some (g4, s2) =>
          Some (parseInt g3, parseInt g4,
                match space_digits s2 with
                | Some (g5, _) => Some (parseInt g5)
                | None => None
                end)
      | None => None
      end
  | None => None
  end.

Definition dquote : ascii := ascii_of_nat 34.
Definition squote : ascii := ascii_of_nat 39.

(** What follows the file name: an optional single quote, an optional
    double quote, then the numbers. *)
Definition after_name (s : string) : option (Z * Z * option Z) :=
  first_success numbers
    (concat (map (optional dquote) (optional squote s))).

(** Group 2 and what follows it: the lazy group takes one more character
    each time the rest fails to match. *)
Fixpoint lazy_name (name s : string)
  : option (string * (Z * Z * option Z)) :=
  match s with
  | String c rest =>
      if is_dot c then
        let name' := name +:+ String c EmptyString in
        match after_name rest with
        | Some groups => Some (name', groups)
        | None => lazy_name name' rest
        end
      else None
  | EmptyString => None
  end.

Fixpoint strip (prefix s : string) : option string :=
  match prefix, s with
  | EmptyString, _ => Some s
  | String a p, String b rest => if Ascii.eqb a b then strip p rest else None
  | String _ _, EmptyString => None
  end.

(** The whole pattern at the start of [s]. *)
Definition match_here (s : string) : option DccParams :=
  match strip "DCC " s with
  | Some s1 =>
      match span is_word s1 with
      | (EmptyString, _) => None
      | (cmd, s2) =>
          match strip " " s2 with
          | Some s3 =>
              first_success
                (fun start =>
                   match lazy_name EmptyString start with
                   | Some (name, (g3, g4, g5)) =>
                       Some (mkParams cmd name g3 g4 g5)
                   | None => None
                   end)
                (concat (map (optional squote) (optional dquote s3)))
          | None => None
          end
      end
  | None => None
  end.

(** [message.match(parser)]: the leftmost position where the pattern
    matches. *)
Fixpoint dcc_match (message : string) : option DccParams :=
  match match_here message with
  | Some groups => Some groups
  | None =>
      match message with
      | String _ rest => dcc_match rest
      | EmptyString => None
      end
  end.
Arguments dcc_match : simpl never.

(** The second argument of a [dlerror]: a message string, or the [Error]
    object of a socket or stream failure. *)
Inductive ErrValue : Type :=
| ErrText (s : string)
| ErrObject (message : string).

(** What the request emits to its listeners.  Listeners run inside [emit]
    and only read the pack, so the event carries the pack's properties as
    they are at that moment; the [dlerror] of a malformed message passes
    [null]. *)
Inductive Event : Type :=
| connect (pk : Pack)
| progress (pk : Pack) (received : jsnum)
| complete (pk : Pack)
| dlerror (pk : option Pack) (e : ErrValue).

(** Effects on the IRC client, the file system, the write stream, the DCC
    socket and the timers.  [d] numbers the calls of [_download]: each has
    its own stream, socket and counters. *)
Inductive Action : Type :=
| Emit (e : Event)
| Say (to text : string)
| Ctcp (to type text : string)
| ClientOn
| ClientRemoveListener
| MkdirSync (dir : string)
| FsStat (file : string)
| FsUnlink (file : string)
| FsRename (from to : string)
| CreateWriteStream (d : nat) (file : string)
| StreamWrite (d : nat) (data : Buffer)
| StreamEnd (d : nat)
| NetConnect (d : nat) (to_port : jsnum) (host : option string)
| ConnSetTimeout (d : nat) (ms : Z)
| ConnWrite (d : nat) (data : Buffer)
| ConnDestroy (d : nat)
| SetInterval (d : nat) (ms : Z)
| ClearInterval (d : nat)
| SetTimeout (ms : Z)
| Throw (what : string).

(** Answers of the synchronous file-system calls of [createDirectory]. *)
Record SyncFs : Type := mkSyncFs {
  dir_exists : bool;
  mkdir_error : option string
}.

(** The arguments of the [fs.stat] callback: an error, or [stats]. *)
Inductive StatResult : Type :=
| StatErr
| StatOk (isFile : bool) (size : Z).

(** Everything that can make code of the request run. *)
Inductive Input : Type :=
| Start
| Cancel
| Kill
| CtcpPrivmsg (sender target message : string) (fs : SyncFs)
| StatDone (op : nat) (r : StatResult)
| UnlinkDone (op : nat) (err : option string)
| StreamOpen (d : nat)
| StreamError (d : nat) (message : string)
| Connected (d : nat)
| Data (d : nat) (data : Buffer)
| End (d : nat)
| RenameDone (d : nat) (err : option string)
| ConnError (d : nat) (message : string)
| ConnTimeout (d : nat)
| Tick (d : nat)
| GraceTimeout.

(** The closure of one [_download(pack)] call: the captured pack object
    and, once the stream is open, [received] and [ack]. *)
Record Download : Type := mkDownload {
  d_pack : nat;
  d_open : bool;
  received : jsnum;
  ack : jsnum;
  d_timer : bool;
  d_renames : nat
}.

(** An asynchronous [fs.stat] or [fs.unlink] whose callback has not run. *)
Inductive FsOp : Type :=
| StatPending (filePath : string)
| UnlinkPending
| OpDone.

(** The fields of a [Request], the heap of pack objects it created
    ([pack_info] and the downloads refer to them by index), its closures,
    and the state of its own listeners. *)
Record Request : Type := mkRequest {
  finished : bool;
  handlerBound : bool;
  subscribed : bool;
  intervalId : option nat;
  pack_info : nat;
  heap : list Pack;
  downloads : list Download;
  fsops : list FsOp;
  start_armed : bool;
  cancel_armed : bool;
  listeners : bool;
  grace_pending : bool
}.

(** [new Request(client, args)]. *)
Definition new_request : Request :=
  mkRequest false false false None 0 [empty_object] [] [] true true true false.

Definition set_finished (v : bool) (s : Request) : Request :=
  mkRequest v (handlerBound s) (subscribed s) (intervalId s) (pack_info s)
    (heap s) (downloads s) (fsops s) (start_armed s) (cancel_armed s)
    (listeners s) (grace_pending s).
Definition set_handlerBound (v : bool) (s : Request) : Request :=
  mkRequest (finished s) v (subscribed s) (intervalId s) (pack_info s)
    (heap s) (downloads s) (fsops s) (start_armed s) (cancel_armed s)
    (listeners s) (grace_pending s).
Definition set_subscribed (v : bool) (s : Request) : Request :=
  mkRequest (finished s) (handlerBound s) v (intervalId s) (pack_info s)
    (heap s) (downloads s) (fsops s) (start_armed s) (cancel_armed s)
    (listeners s) (grace_pending s).
Definition set_intervalId (v : option nat) (s : Request) : Request :=
  mkRequest (finished s) (handlerBound s) (subscribed s) v (pack_info s)
    (heap s) (downloads s) (fsops s) (start_armed s) (cancel_armed s)
    (listeners s) (grace_pending s).
Definition set_pack_info (v : nat) (s : Request) : Request :=
  mkRequest (finished s) (handlerBound s) (subscribed s) (intervalId s) v
    (heap s) (downloads s) (fsops s) (start_armed s) (cancel_armed s)
    (listeners s) (grace_pending s).
Definition set_heap (v : list Pack) (s : Request) : Request :=
  mkRequest (finished s) (handlerBound s) (subscribed s) (intervalId s)
    (pack_info s) v (downloads s) (fsops s) (start_armed s) (cancel_armed s)
    (listeners s) (grace_pending s).
Definition set_downloads (v : list Download) (s : Request) : Request :=
  mkRequest (finished s) (handlerBound s) (subscribed s) (intervalId s)
    (pack_info s) (heap s) v (fsops s) (start_armed s) (cancel_armed s)
    (listeners s) (grace_pending s).
Definition set_fsops (v : list FsOp) (s : Request) : Request :=
  mkRequest (finished s) (handlerBound s) (subscribed s) (intervalId s)
    (pack_info s) (heap s) (downloads s) v (start_armed s) (cancel_armed s)
    (listeners s) (grace_pending s).
Definition set_start_armed (v : bool) (s : Request) : Request :=
  mkRequest (finished s) (handlerBound s) (subscribed s) (intervalId s)
    (pack_info s) (heap s) (downloads s) (fsops s) v (cancel_armed s)
    (listeners s) (grace_pending s).
Definition set_cancel_armed (v : bool) (s : Request) : Request :=
  mkRequest (finished s) (handlerBound s) (subscribed s) (intervalId s)
    (pack_info s) (heap s) (downloads s) (fsops s) (start_armed s) v
    (listeners s) (grace_pending s).
Definition set_listeners (v : bool) (s : Request) : Request :=
  mkRequest (finished s) (handlerBound s) (subscribed s) (intervalId s)
    (pack_info s) (heap s) (downloads s) (fsops s) (start_armed s)
    (cancel_armed s) v (grace_pending s).
Definition set_grace_pending (v : bool) (s : Request) : Request :=
  mkRequest (finished s) (handlerBound s) (subscribed s) (intervalId s)
    (pack_info s) (heap s) (downloads s) (fsops s) (start_armed s)
    (cancel_armed s) (listeners s) v.

(** Reading and writing objects and closures. *)
Definition read_pack (p : nat) (s : Request) : Pack :=
  default empty_object (heap s !! p).
Definition this_pack (s : Request) : Pack := read_pack (pack_info s) s.
Definition write_pack (p : nat) (f : Pack -> Pack) (s : Request) : Request :=
  set_heap (<[p := f (read_pack p s)]> (heap s)) s.
Definition alloc_pack (obj : Pack) (s : Request) : Request :=
  set_pack_info (length (heap s)) (set_heap (heap s ++ [obj]) s).
Definition write_download (d : nat) (dl : Download) (s : Request) : Request :=
  set_downloads (<[d := dl]> (downloads s)) s.
Definition push_download (dl : Download) (s : Request) : Request :=
  set_downloads (downloads s ++ [dl]) s.
Definition push_fsop (o : FsOp) (s : Request) : Request :=
  set_fsops (fsops s ++ [o]) s.
Definition finish_fsop (op : nat) (s : Request) : Request :=
  set_fsops (<[op := OpDone]> (fsops s)) s.

Definition with_counters (r a : jsnum) (dl : Download) : Download :=
  mkDownload (d_pack dl) (d_open dl) r a (d_timer dl) (d_renames dl).
Definition opened (r a : jsnum) (dl : Download) : Download :=
  mkDownload (d_pack dl) true r a (d_timer dl) (d_renames dl).
Definition with_timer (b : bool) (dl : Download) : Download :=
  mkDownload (d_pack dl) (d_open dl) (received dl) (ack dl) b (d_renames dl).
Definition with_renames (n : nat) (dl : Download) : Download :=
  mkDownload (d_pack dl) (d_open dl) (received dl) (ack dl) (d_timer dl) n.

(** *** Handlers: state passing with the list of effects performed *)

Definition M : Type -> Type := Turn Request Action.
Definition emit (e : Event) : M unit := act (Emit e).

Section Handlers.

(** The request's arguments, the nickname of the IRC client
    ([this.client.nick]), and the library function [path.join]. *)
Variable args : Args.
Variable client_nick : string.
Variable path_join : string -> string -> string.

(** [_killRequest()].  [removeListener] is given the unbound method while
    the function registered by [_handleStart] is a [bind] copy, so the
    client keeps calling the handler: [subscribed] is not cleared. *)
Definition _killRequest : M unit :=
  fin ← get finished;
  if fin : bool then done_ else
  put (set_finished true);;
  tid ← get intervalId;
  match tid with
  | Some d =>
      act (ClearInterval d);;
      dls ← get downloads;
      match dls !! d with
      | Some dl => put (write_download d (with_timer false dl))
      | None => done_
      end;;
      put (set_intervalId None)
  | None => done_
  end;;
  hb ← get handlerBound;
  (if hb : bool
   then act ClientRemoveListener;; put (set_handlerBound false)
   else done_);;
  act (SetTimeout 100);;
  put (set_grace_pending true).

(** The callback of that [setTimeout(..., 100)]:
    [removeAllListeners()] and [this.pack_info = {}]. *)
Definition grace_callback : M unit :=
  put (set_listeners false);;
  put (set_start_armed false);;
  put (set_cancel_armed false);;
  put (alloc_pack empty_object).

(** [_handleStart()]. *)
Definition _handleStart : M unit :=
  act (Say (nick args) ("XDCC SEND " +:+ pack args));;
  hb ← get handlerBound;
  if hb : bool then done_
  else act ClientOn;; put (set_subscribed true);; put (set_handlerBound true).

(** [_handleCancel()]. *)
Definition _handleCancel : M unit :=
  fin ← get finished;
  if fin : bool then done_ else
  act (Say (nick args) "XDCC CANCEL");;
  _killRequest.

(** [_download(pack)]: up to the creation of the write stream; the rest
    of the body is the handlers of the stream and of the socket below. *)
Definition _download (p : nat) : M unit :=
  fin ← get finished;
  if fin : bool then done_ else
  pk ← get (read_pack p);
  d ← get (fun s => length (downloads s));
  act (CreateWriteStream d (tmpl_str (location pk) +:+ ".part"));;
  put (push_download (mkDownload p false JUndef JUndef false 0)).

(** [stream.on('open', ...)]: the counters start at [pack.resumepos] and
    the socket is created. *)
Definition on_stream_open (d : nat) (dl : Download) : M unit :=
  pk ← get (read_pack (d_pack dl));
  put (write_download d (opened (resumepos pk) (resumepos pk) dl));;
  act (NetConnect d (port pk) (ip pk));;
  act (ConnSetTimeout d 60000).

(** The callback of [net.connect]. *)
Definition on_connected (d : nat) (dl : Download) : M unit :=
  pk ← get (read_pack (d_pack dl));
  emit (connect pk);;
  act (SetInterval d (progressInterval args * 1000));;
  put (write_download d (with_timer true dl));;
  put (set_intervalId (Some d)).

(** The callback of that [setInterval]. *)
Definition on_tick (d : nat) (dl : Download) : M unit :=
  fin ← get finished;
  if negb fin then
    pk ← get (read_pack (d_pack dl));
    emit (progress pk (received dl))
  else done_.

(** [conn.on('data', ...)]. *)
Definition on_data (d : nat) (dl : Download) (data : Buffer) : M unit :=
  fin ← get finished;
  if fin : bool then done_ else
  let len := Z.of_nat (length data) in
  let received' := js_add (received dl) len in
  let ack' := Wire.ack_loop (js_add (ack dl) len) in
  put (write_download d (with_counters received' ack' dl));;
  match Wire.writeUInt32BE ack' with
  | Some sendBuffer =>
      act (ConnWrite d sendBuffer);;
      act (StreamWrite d data)
  | None => act (Throw "ERR_OUT_OF_RANGE")
  end.

(** [conn.on('end', ...)]. *)
Definition on_end (d : nat) (dl : Download) : M unit :=
  act (StreamEnd d);;
  pk ← get (read_pack (d_pack dl));
  fin ← get finished;
  if js_strict_eq (received dl) (filesize pk) then
    act (FsRename (tmpl_str (location pk) +:+ ".part")
                  (tmpl_str (location pk)));;
    put (write_download d (with_renames (S (d_renames dl)) dl))
  else if negb (js_strict_eq (received dl) (filesize pk)) && negb fin then
    emit (dlerror (Some pk)
            (ErrText "Server unexpectedly closed connection"));;
    act (ConnDestroy d);;
    _killRequest
  else if negb (js_strict_eq (received dl) (filesize pk)) && fin then
    emit (dlerror (Some pk)
            (ErrText "Server closed connection, download canceled"));;
    act (ConnDestroy d);;
    _killRequest
  else done_.

(** The callback of the [fs.rename] issued by the 'end' handler. *)
Definition on_rename_done (d : nat) (dl : Download) (err : option string)
  : M unit :=
  put (write_download d (with_renames (Nat.pred (d_renames dl)) dl));;
  pk ← get (read_pack (d_pack dl));
  match err with
  | Some msg =>
      emit (dlerror (Some pk) (ErrText ("Failed to rename file: " +:+ msg)));;
      act (ConnDestroy d);;
      _killRequest
  | None =>
      emit (complete pk);;
      act (ConnDestroy d);;
      _killRequest
  end.

(** [conn.on('error', ...)]. *)
Definition on_conn_error (d : nat) (dl : Download) (message : string)
  : M unit :=
  fin ← get finished;
  if fin : bool then done_ else
  act (StreamEnd d);;
  pk ← get (read_pack (d_pack dl));
  emit (dlerror (Some pk) (ErrObject message));;
  act (ConnDestroy d);;
  _killRequest.

(** The callback of [conn.setTimeout(60000, ...)]. *)
Definition on_conn_timeout (d : nat) (dl : Download) : M unit :=
  fin ← get finished;
  if fin : bool then done_ else
  act (StreamEnd d);;
  pk ← get (read_pack (d_pack dl));
  emit (dlerror (Some pk) (ErrText "Connection timed out"));;
  act (ConnDestroy d);;
  _killRequest.

(** [stream.on('error', ...)]. *)
Definition on_stream_error (d : nat) (dl : Download) (message : string)
  : M unit :=
  fin ← get finished;
  if fin : bool then done_ else
  act (StreamEnd d);;
  pk ← get (read_pack (d_pack dl));
  emit (dlerror (Some pk) (ErrObject message));;
  _killRequest.

(** [checkForPartialFile()]: the call of [fs.stat]; its callback is
    [on_stat_done]. *)
Definition checkForPartialFile (filePath : string) : M unit :=
  act (FsStat (filePath +:+ ".part"));;
  put (push_fsop (StatPending filePath)).

(** The callback of [fs.stat].  It reads [this.pack_info] when it runs. *)
Definition on_stat_done (filePath : string) (r : StatResult) : M unit :=
  match r with
  | StatOk true size =>
      if resume args then
        pk ← get this_pack;
        act (Ctcp (nick args) "privmsg"
               ("DCC RESUME " +:+ tmpl_str (filename pk) +:+ " "
                +:+ tmpl_num (port pk) +:+ " " +:+ pretty size));;
        p ← get pack_info;
        put (write_pack p (set_resumepos (JNum size)))
      else
        act (FsUnlink (filePath +:+ ".part"));;
        put (push_fsop UnlinkPending)
  | StatOk false _ | StatErr =>
      p ← get pack_info;
      _download p
  end.

(** The callback of [fs.unlink]. *)
Definition on_unlink_done (err : option string) : M unit :=
  match err with
  | Some msg =>
      pk ← get this_pack;
      emit (dlerror (Some pk)
              (ErrText ("Failed to delete partial file: " +:+ msg)))
  | None =>
      p ← get pack_info;
      _download p
  end.

(** [_handleDccSend(filename, ip, port, filesize)]. *)
Definition _handleDccSend (fname ipaddr : string) (prt fsize : Z)
    (fs : SyncFs) : M unit :=
  put (alloc_pack (mkPack (Some "SEND") (Some fname) (Some ipaddr)
                     (JNum prt) (JNum fsize) (JNum 0) None));;
  let downloadDir := Wire.strip_trailing_sep (path args) in
  let filePath := path_join downloadDir fname in
  p ← get pack_info;
  put (write_pack p (set_location (Some filePath)));;
  (* createDirectory() *)
  if negb (dir_exists fs) then
    act (MkdirSync downloadDir);;
    match mkdir_error fs with
    | None => checkForPartialFile filePath
    | Some msg =>
        pk ← get this_pack;
        emit (dlerror (Some pk)
                (ErrText ("Failed to create directory: " +:+ msg)))
    end
  else checkForPartialFile filePath.

(** [_handleDccAccept(filename, port, resumepos)]; the third argument is
    [parseInt(params[5], 10)], [NaN] when the group is absent. *)
Definition _handleDccAccept (fname : string) (prt : Z) (rpos : jsnum)
  : M unit :=
  pk ← get this_pack;
  if js_str_eq (filename pk) fname
     && js_strict_eq (port pk) (JNum prt)
     && js_strict_eq (resumepos pk) rpos
  then
    p ← get pack_info;
    put (write_pack p (set_command (Some "ACCEPT")));;
    _download p
  else
    emit (dlerror (Some pk) (ErrText "DCC ACCEPT parameters mismatch")).

(** [_dccDownloadHandler(sender, target, message)]. *)
Definition _dccDownloadHandler (sender target message : string)
    (fs : SyncFs) : M unit :=
  fin ← get finished;
  if fin : bool then done_ else
  if negb (String.eqb sender (nick args))
     || negb (String.eqb target client_nick)
     || negb (String.prefix "DCC " message)
  then done_ else
  match dcc_match message with
  | None =>
      emit (dlerror None
              (ErrText ("Invalid DCC message format: " +:+ message)))
  | Some params =>
      let cmd := p_command params in
      let fname := p_filename params in
      let ipaddr := Wire._intToIP (p_ip params) in
      let prt := p_port params in
      let fsize := match p_size params with Some z => z | None => 0 end in
      if String.eqb cmd "SEND" then
        _handleDccSend fname ipaddr prt fsize fs
      else if String.eqb cmd "ACCEPT" then
        _handleDccAccept fname prt
          (match p_size params with Some z => JNum z | None => JNaN end)
      else
        pk ← get this_pack;
        emit (dlerror (Some pk) (ErrText ("Unknown DCC command: " +:+ cmd)))
  end.

(** Run a handler of the closure [d], if that closure exists. *)
Definition with_download (d : nat) (k : Download -> M unit) : M unit :=
  dls ← get downloads;
  match dls !! d with
  | Some dl => k dl
  | None => done_
  end.

(** One turn of the event loop.  A callback runs only if the code that
    installs it has run: socket events need the socket of an opened
    stream, a tick needs its interval, the callbacks of [fs] calls need
    the call; the request's own 'start', 'cancel' and 'kill' listeners
    are gone after [removeAllListeners]. *)
Definition dispatch (i : Input) : M unit :=
  match i with
  | Start =>
      armed ← get start_armed;
      if armed : bool then put (set_start_armed false);; _handleStart
      else done_
  | Cancel =>
      armed ← get cancel_armed;
      if armed : bool then put (set_cancel_armed false);; _handleCancel
      else done_
  | Kill =>
      l ← get listeners;
      if l : bool then _killRequest else done_
  | CtcpPrivmsg sender target message fs =>
      sub ← get subscribed;
      if sub : bool then _dccDownloadHandler sender target message fs
      else done_
  | StatDone op r =>
      ops ← get fsops;
      match ops !! op with
      | Some (StatPending filePath) =>
          put (finish_fsop op);; on_stat_done filePath r
      | _ => done_
      end
  | UnlinkDone op err =>
      ops ← get fsops;
      match ops !! op with
      | Some UnlinkPending => put (finish_fsop op);; on_unlink_done err
      | _ => done_
      end
  | StreamOpen d =>
      with_download d (fun dl =>
        if d_open dl then done_ else on_stream_open d dl)
  | StreamError d message =>
      with_download d (fun dl => on_stream_error d dl message)
  | Connected d =>
      with_download d (fun dl =>
        if d_open dl then on_connected d dl else done_)
  | Data d data =>
      with_download d (fun dl =>
        if d_open dl then on_data d dl data else done_)
  | End d =>
      with_download d (fun dl =>
        if d_open dl then on_end d dl else done_)
  | RenameDone d err =>
      with_download d (fun dl =>
        match d_renames dl with
        | O => done_
        | S _ => on_rename_done d dl err
        end)
  | ConnError d message =>
      with_download d (fun dl =>
        if d_open dl then on_conn_error d dl message else done_)
  | ConnTimeout d =>
      with_download d (fun dl =>
        if d_open dl then on_conn_timeout d dl else done_)
  | Tick d =>
      with_download d (fun dl =>
        if d_timer dl then on_tick d dl else done_)
  | GraceTimeout =>
      g ← get grace_pending;
      if g : bool then put (set_grace_pending false);; grace_callback
      else done_
  end.

Definition step (s : Request) (i : Input) : Request * list Action :=
  exec (dispatch i) s.

(** A run: the final state and, per input, the effects of its turn. *)
Fixpoint run (s : Request) (inputs : list Input)
  : Request * list (list Action) :=
  match inputs with
  | [] => (s, [])
  | i :: rest =>
      let '(s1, acts) := step s i in
      let '(s2, trace) := run s1 rest in
      (s2, acts :: trace)
  end.

Definition final (s : Request) (inputs : list Input) : Request :=
  fst (run s inputs).
Definition effects (s : Request) (inputs : list Input) : list Action :=
  concat (snd (run s inputs)).

End Handlers.

(** The events among a list of effects. *)
Definition emitted (acts : list Action) : list Event :=
  omap (fun a => match a with Emit e => Some e | _ => None end) acts.

Definition is_terminal (e : Event) : bool :=
  match e with
  | complete _ | dlerror _ _ => true
  | connect _ | progress _ _ => false
  end.

Definition is_progress (e : Event) : bool :=
  match e with
  | progress _ _ => true
  | _ => false
  end.

(** Inputs of the data channel: the socket, the rename it starts, the
    write stream. *)
Definition data_channel_input (i : Input) : bool :=
  match i with
  | End _ | RenameDone _ _ | ConnError _ _ | ConnTimeout _
  | StreamError _ _ => true
  | _ => false
  end.

(** Inputs whose handler starts with [if (this.finished) return]. *)
Definition guarded_input (i : Input) : bool :=
  match i with
  | Cancel | Kill | CtcpPrivmsg _ _ _ _ | Data _ _ | ConnError _ _
  | ConnTimeout _ | StreamError _ _ | Tick _ => true
  | _ => false
  end.

(** Inputs whose handler can emit a terminal event although [finished] is
    set: the close of the connection, the rename callback, and a failed
    [fs.unlink]. *)
Definition late_reporter (i : Input) : bool :=
  match i with
  | End _ | RenameDone _ _ | UnlinkDone _ (Some _) => true
  | _ => false
  end.

(** Effects that rename or delete a file. *)
Definition moves_file (a : Action) : bool :=
  match a with
  | FsRename _ _ | FsUnlink _ => true
  | _ => false
  end.

(** The octets that a list of effects appends to the partial file of
    download [d]. *)
Definition appended (d : nat) (acts : list Action) : Z :=
  foldr (fun a n =>
           match a with
           | StreamWrite d' data =>
               if (d' =? d)%nat then Z.of_nat (length data) + n else n
           | _ => n
           end) 0 acts.

(** Effects on the socket or the stream of download [d]. *)
Definition touches (d : nat) (a : Action) : bool :=
  match a with
  | ConnWrite d' _ | StreamWrite d' _ => (d' =? d)%nat
  | _ => false
  end.

(** The variables of a closure that only its 'open' and 'data' handlers
    assign. *)
Definition counters (dl : Download) : nat * bool * jsnum * jsnum :=
  (d_pack dl, d_open dl, received dl, ack dl).

(** Download [d] has counted [x] octets and holds an acknowledgement
    congruent to [x]: equal to it right after 'open', reduced below 2^32
    from the first chunk on. *)
Definition acked (d : nat) (s : Request) (x : Z) : Prop :=
  exists dl a,
    downloads s !! d = Some dl /\ d_open dl = true
    /\ received dl = JNum x /\ ack dl = JNum a
    /\ 0 <= a /\ a mod 2 ^ 32 = x mod 2 ^ 32.

End Axdcc.

(** ** The API front-end of [server.js] *)

Module Server.

(** A property of the parsed request object. *)
Inductive json : Type :=
| JAbsent
| JNull
| JBool (b : bool)
| JNumber (z : Z)
| JString (s : string).

Definition is_true (v : json) : bool :=
  match v with
  | JBool b => b
  | _ => false
  end.

(** The request of an API client, after [JSON.parse]; the two names are
    strings when present. *)
Record ApiRequest : Type := mkApiRequest {
  bot_name : option string;
  pack_number : option string;
  send_progress : json
}.

(** The objects written to an API socket ([JSON.stringify] of them). *)
Inductive Envelope : Type :=
| Downloading (message pack_number : string)
| Progress (filename : option string) (progress received total : jsnum)
| Success (filename path : option string) (size : jsnum) (pack_number : string)
| Error (message : string) (pack_number : option string).


(** Effects of the server; [Transfer r a] is effect [a] of the request
    object number [r]. *)
Inductive Output : Type :=
| SocketWrite (sock : nat) (data : Envelope)
| SocketEnd (sock : nat)
| SetTimeout (ms : Z)
| LogFile (level message : string)
| ConsoleLog (line : string)
| StdoutWrite (text : string)
| Transfer (r : nat) (a : Axdcc.Action).

(** *** Configuration and logger *)

(** [process.env.NAME || dflt]: an empty string is falsy. *)
Definition env_or (env : gmap string string) (name dflt : string) : string :=
  match env !! name with
  | Some v => if String.eqb v "" then dflt else v
  | None => dflt
  end.

Definition FILE_DESTINATION (env : gmap string string) : string :=
  env_or env "FILE_DESTINATION" "/data".

(** [process.env.DISABLE_PROGRESS_ANSI === 'true' || true]. *)
Definition DISABLE_PROGRESS_ANSI (env : gmap string string) : bool :=
  bool_decide (env !! "DISABLE_PROGRESS_ANSI" = Some "true") || true.

Definition is_digit (c : ascii) : bool :=
  (48 <=? nat_of_ascii c)%nat && (nat_of_ascii c <=? 57)%nat.

(** [parseInt] of a string of digits, most significant first. *)
Definition digits_value (ds : list ascii) : Z :=
  foldl (fun acc c => acc * 10 + (Z.of_nat (nat_of_ascii c) - 48)) 0 ds.

(** The longest prefix of digits, and what follows it. *)
Fixpoint leading_digits (s : string) : list ascii * string :=
  match s with
  | String c rest =>
      if is_digit c
      then let '(ds, tl) := leading_digits rest in (c :: ds, tl)
      else ([], s)
  | EmptyString => ([], s)
  end.

(** [message.match(/^(\d+)%/)] followed by [parseInt(match[1], 10)]. *)
Definition match_percent (message : string) : option Z :=
  match leading_digits message with
  | (c :: ds, String p _) =>
      if Ascii.eqb p "%"%char then Some (digits_value (c :: ds)) else None
  | _ => None
  end.

(** ["\r\x1b[K"]: carriage return, then the escape sequence that clears
    the line. *)
Definition clear_line : string :=
  String (ascii_of_nat 13) (String (ascii_of_nat 27) "[K").

(** [logger.progress(message)]; [_writeToLog] is the line appended to the
    log file (its time stamp left out). *)
Definition logger_progress (env : gmap string string) (message : string)
  : list Output :=
  match match_percent message with
  | Some percent =>
      if (percent mod 10 =? 0) || (percent =? 100)
      then [LogFile "PROGRESS" message]
      else []
  | None => []
  end
  ++
  (if DISABLE_PROGRESS_ANSI env
   then [ConsoleLog ("[PROGRESS] " +:+ message)]
   else [StdoutWrite clear_line; StdoutWrite ("[PROGRESS] " +:+ message)]).

(** *** State *)

Record SocketState : Type := mkSocket {
  destroyed : bool;
  writable : bool;
  close_handler : bool
}.

(** An entry of [activeDownloads]. *)
Record Tracker : Type := mkTracker {
  socket : option nat;
  packNumber : string;
  sendProgress : bool;
  startTime : Z;
  request : nat
}.

(** The closure of [xdccRequest.once("connect", ...)]. *)
Record Listener : Type := mkListener {
  l_socket : nat;
  l_pack_number : string;
  l_send_progress : json;
  connect_armed : bool
}.

(** A request object created by the server, with its arguments. *)
Record TransferCtx : Type := mkTransfer {
  t_args : Axdcc.Args;
  t_state : Axdcc.Request;
  t_listener : Listener
}.

(** Code of a terminal handler that has yet to run: the callback of the
    socket write, then the 200 ms timer it starts.  Both closures hold the
    tracker object and the download id. *)
Inductive Pending : Type :=
| WriteCallback (tracker : nat) (downloadId : string)
| CloseTimer (tracker : nat) (downloadId : string)
| Fired.

(** [activeDownloads] maps a download id to a tracker object; tracker
    objects live in [trackers] because closures keep them after the map
    entry is gone. *)
Record State : Type := mkState {
  activeDownloads : gmap string nat;
  trackers : list Tracker;
  sockets : list SocketState;
  transfers : list TransferCtx;
  pending : list Pending
}.

Definition initial : State := mkState ∅ [] [] [] [].

Definition set_activeDownloads (v : gmap string nat) (s : State) : State :=
  mkState v (trackers s) (sockets s) (transfers s) (pending s).
Definition set_trackers (v : list Tracker) (s : State) : State :=
  mkState (activeDownloads s) v (sockets s) (transfers s) (pending s).
Definition set_sockets (v : list SocketState) (s : State) : State :=
  mkState (activeDownloads s) (trackers s) v (transfers s) (pending s).
Definition set_transfers (v : list TransferCtx) (s : State) : State :=
  mkState (activeDownloads s) (trackers s) (sockets s) v (pending s).
Definition set_pending (v : list Pending) (s : State) : State :=
  mkState (activeDownloads s) (trackers s) (sockets s) (transfers s) v.

(** [activeDownloads.get(id)]. *)
Definition get_tracker (id : string) (s : State) : option (nat * Tracker) :=
  match activeDownloads s !! id with
  | Some t =>
      match trackers s !! t with
      | Some tr => Some (t, tr)
      | None => None
      end
  | None => None
  end.

(** [pack.filename + '|' + pack.port]. *)
Definition download_id (pk : Axdcc.Pack) : string :=
  tmpl_str (Axdcc.filename pk) +:+ "|" +:+ tmpl_num (Axdcc.port pk).

Definition detach (sock : nat) (tr : Tracker) : Tracker :=
  mkTracker None (packNumber tr) (sendProgress tr) (startTime tr) (request tr).

Definition ended (ss : SocketState) : SocketState :=
  mkSocket (destroyed ss) false (close_handler ss).
Definition closed (ss : SocketState) : SocketState :=
  mkSocket true false (close_handler ss).
Definition with_close_handler (ss : SocketState) : SocketState :=
  mkSocket (destroyed ss) (writable ss) true.

Definition disarm (l : Listener) : Listener :=
  mkListener (l_socket l) (l_pack_number l) (l_send_progress l) false.

Section Handlers.

(** The environment, the nickname of the IRC client, the time of the
    current turn ([Date.now()]), and the functions the server takes from
    libraries or computes in floating point:
    [Math.floor((received / filesize) * 100)], [formatSize],
    [JSON.stringify] of an error value and [path.join];
    [PROGRESS_INTERVAL] as the number it is used as. *)
Variable env : gmap string string.
Variable irc_nick : string.
Variable PROGRESS_INTERVAL : Z.
Variable percent_of : jsnum -> jsnum -> jsnum.
Variable formatSize : jsnum -> string.
Variable JSON_stringify : Axdcc.ErrValue -> string.
Variable path_join : string -> string -> string.

Definition M : Type -> Type := Turn State Output.

(** What a terminal handler does once the write has been attempted:
    [setTimeout(..., 200)]. *)
Definition write_callback (t : nat) (id : string) : M unit :=
  act (SetTimeout 200);;
  put (fun s => set_pending (pending s ++ [CloseTimer t id]) s).

(** [safeSocketWrite(socket, data, callback)].  With a usable socket the
    callback (if any) runs when the write completes; otherwise it runs
    at once with an error. *)
Definition safeSocketWrite (sock : option nat) (data : Envelope)
    (callback : option (nat * string)) : M unit :=
  socks ← get sockets;
  match sock with
  | Some k =>
      match socks !! k with
      | Some ss =>
          if negb (destroyed ss) && writable ss then
            act (SocketWrite k data);;
            match callback with
            | Some (t, id) =>
                put (fun s =>
                       set_pending (pending s ++ [WriteCallback t id]) s)
            | None => done_
            end
          else
            match callback with
            | Some (t, id) => write_callback t id
            | None => done_
            end
      | None =>
          match callback with
          | Some (t, id) => write_callback t id
          | None => done_
          end
      end
  | None =>
      match callback with
      | Some (t, id) => write_callback t id
      | None => done_
      end
  end.

(** [safeSocketEnd(socket)]. *)
Definition safeSocketEnd (sock : option nat) : M unit :=
  socks ← get sockets;
  match sock with
  | Some k =>
      match socks !! k with
      | Some ss =>
          if negb (destroyed ss) then
            act (SocketEnd k);;
            put (fun s => set_sockets (<[k := ended ss]> (sockets s)) s)
          else done_
      | None => done_
      end
  | None => done_
  end.

(** The 200 ms timer of a terminal handler. *)
Definition close_timer (t : nat) (id : string) : M unit :=
  trs ← get trackers;
  safeSocketEnd (match trs !! t with
                 | Some tr => socket tr
                 | None => None
                 end);;
  put (fun s => set_activeDownloads (delete id (activeDownloads s)) s).

(** [xdccHandlers.progress(pack, received)]. *)
Definition xdcc_progress (pk : Axdcc.Pack) (received : jsnum) : M unit :=
  let progressPercent := percent_of received (Axdcc.filesize pk) in
  (fun s =>
     (tt, s,
      logger_progress env
        (tmpl_num progressPercent +:+ "% of "
         +:+ tmpl_str (Axdcc.filename pk) +:+ " ("
         +:+ formatSize received +:+ "/"
         +:+ formatSize (Axdcc.filesize pk) +:+ ")")));;
  tr ← get (get_tracker (download_id pk));
  match tr with
  | Some (_, mkTracker (Some sock) _ _ _ _) =>
      safeSocketWrite (Some sock)
        (Progress (Axdcc.filename pk) progressPercent received
           (Axdcc.filesize pk))
        None
  | _ => done_
  end.

(** [xdccHandlers.complete(pack)]. *)
Definition xdcc_complete (pk : Axdcc.Pack) : M unit :=
  let downloadId := download_id pk in
  tr ← get (get_tracker downloadId);
  match tr with
  | Some (t, mkTracker (Some sock) pn _ _ _) =>
      safeSocketWrite (Some sock)
        (Success (Axdcc.filename pk) (Axdcc.location pk)
           (Axdcc.filesize pk) pn)
        (Some (t, downloadId))
  | _ =>
      put (fun s =>
             set_activeDownloads (delete downloadId (activeDownloads s)) s)
  end.

(** [xdccHandlers.error(pack, error)]. *)
Definition xdcc_error (pk : option Axdcc.Pack) (error : Axdcc.ErrValue)
  : M unit :=
  let downloadId :=
    match pk with
    | Some p =>
        if truthy_str (Axdcc.filename p) && truthy_num (Axdcc.port p)
        then download_id p else "unknown"
    | None => "unknown"
    end in
  tr ← get (get_tracker downloadId);
  match tr with
  | Some (t, mkTracker (Some sock) pn _ _ _) =>
      safeSocketWrite (Some sock)
        (Error ("Download failed: " +:+ JSON_stringify error) (Some pn))
        (Some (t, downloadId))
  | _ =>
      if negb (String.eqb downloadId "unknown") then
        put (fun s =>
               set_activeDownloads (delete downloadId (activeDownloads s)) s)
      else done_
  end.

(** The listener of [xdccRequest.once("connect", ...)]: it registers the
    tracker under the download id; [xdccHandlers.connect] only logs. *)
Definition on_connect (now : Z) (r : nat) (pk : Axdcc.Pack) : M unit :=
  ts ← get transfers;
  match ts !! r with
  | Some (mkTransfer a st l) =>
      if connect_armed l then
        put (fun s =>
               set_transfers
                 (<[r := mkTransfer a st (disarm l)]> (transfers s)) s);;
        put (fun s =>
               set_activeDownloads
                 (<[download_id pk := length (trackers s)]>
                    (activeDownloads s))
                 (set_trackers
                    (trackers s ++
                       [mkTracker (Some (l_socket l)) (l_pack_number l)
                          (is_true (l_send_progress l)) now r])
                    s))
      else done_
  | None => done_
  end.

(** The listeners the server attached to request [r], run by its [emit]. *)
Definition on_event (now : Z) (r : nat) (e : Axdcc.Event) : M unit :=
  match e with
  | Axdcc.connect pk => on_connect now r pk
  | Axdcc.progress pk received => xdcc_progress pk received
  | Axdcc.complete pk => xdcc_complete pk
  | Axdcc.dlerror pk error => xdcc_error pk error
  end.

(** The effects of a turn of request [r], in order; an [emit] runs the
    listeners on the spot, unless [removeAllListeners] has removed them. *)
Fixpoint relay (now : Z) (r : nat) (attached : bool)
    (acts : list Axdcc.Action) : M unit :=
  match acts with
  | [] => done_
  | a :: rest =>
      act (Transfer r a);;
      match a with
      | Axdcc.Emit e => if attached then on_event now r e else done_
      | _ => done_
      end;;
      relay now r attached rest
  end.

(** A turn of request [r]. *)
Definition transfer_turn (now : Z) (r : nat) (i : Axdcc.Input) : M unit :=
  ts ← get transfers;
  match ts !! r with
  | Some (mkTransfer a st l) =>
      let '(st', acts) :=
        Axdcc.step a irc_nick path_join st i in
      put (fun s =>
             set_transfers (<[r := mkTransfer a st' l]> (transfers s)) s);;
      relay now r (Axdcc.listeners st) acts
  | None => done_
  end.

(** The 'data' handler of an API socket, from the point where
    [JSON.parse] has produced the request object. *)
Definition on_request (now : Z) (sock : nat) (req : ApiRequest) : M unit :=
  match bot_name req, pack_number req with
  | Some bn, Some pn =>
      if String.eqb bn "" || String.eqb pn "" then
        safeSocketWrite (Some sock)
          (Error ("Invalid request: Invalid request format. "
                  +:+ "Required fields: bot_name, pack_number") None)
          None;;
        safeSocketEnd (Some sock)
      else
        safeSocketWrite (Some sock)
          (Downloading ("Started download request for pack #" +:+ pn
                        +:+ " from " +:+ bn) pn)
          None;;
        r ← get (fun s => length (transfers s));
        put (fun s =>
               set_transfers
                 (transfers s ++
                    [mkTransfer
                       (Axdcc.mkArgs bn ("#" +:+ pn) (FILE_DESTINATION env)
                          true PROGRESS_INTERVAL true)
                       Axdcc.new_request
                       (mkListener sock pn (send_progress req) true)])
                 s);;
        transfer_turn now r Axdcc.Start;;
        put (fun s =>
               set_sockets
                 (match sockets s !! sock with
                  | Some ss => <[sock := with_close_handler ss]> (sockets s)
                  | None => sockets s
                  end) s)
  | _, _ =>
      safeSocketWrite (Some sock)
        (Error ("Invalid request: Invalid request format. "
                +:+ "Required fields: bot_name, pack_number") None)
        None;;
      safeSocketEnd (Some sock)
  end.

(** The 'close' handler of an API socket: every tracker in the map that
    holds this socket loses it. *)
Definition on_socket_close (sock : nat) : M unit :=
  socks ← get sockets;
  match socks !! sock with
  | Some ss =>
      put (fun s => set_sockets (<[sock := closed ss]> (sockets s)) s);;
      if close_handler ss then
        put (fun s =>
               let live := (map_to_list (activeDownloads s)).*2 in
               set_trackers
                 (imap (fun t tr =>
                          if bool_decide (t ∈ live)
                             && bool_decide (socket tr = Some sock)
                          then detach sock tr else tr)
                    (trackers s)) s)
      else done_
  | None => done_
  end.

(** Everything that makes code of the server run. *)
Inductive Input : Type :=
| Connection
| Request (sock : nat) (req : ApiRequest)
| TransferInput (r : nat) (i : Axdcc.Input)
| WriteDone (k : nat)
| TimerFired (k : nat)
| SocketClose (sock : nat)
| SocketTimeout (sock : nat).

Definition dispatch (now : Z) (i : Input) : M unit :=
  match i with
  | Connection =>
      put (fun s => set_sockets (sockets s ++ [mkSocket false true false]) s)
  | Request sock req => on_request now sock req
  | TransferInput r i => transfer_turn now r i
  | WriteDone k =>
      ps ← get pending;
      match ps !! k with
      | Some (WriteCallback t id) =>
          put (fun s => set_pending (<[k := Fired]> (pending s)) s);;
          write_callback t id
      | _ => done_
      end
  | TimerFired k =>
      ps ← get pending;
      match ps !! k with
      | Some (CloseTimer t id) =>
          put (fun s => set_pending (<[k := Fired]> (pending s)) s);;
          close_timer t id
      | _ => done_
      end
  | SocketClose sock => on_socket_close sock
  | SocketTimeout sock => safeSocketEnd (Some sock)
  end.

Definition step (s : State) (ti : Z * Input) : State * list Output :=
  exec (dispatch (fst ti) (snd ti)) s.

Fixpoint run (s : State) (inputs : list (Z * Input))
  : State * list (list Output) :=
  match inputs with
  | [] => (s, [])
  | i :: rest =>
      let '(s1, outs) := step s i in
      let '(s2, trace) := run s1 rest in
      (s2, outs :: trace)
  end.

End Handlers.

(** The envelopes written to socket [sock] among a list of effects. *)
Definition written (sock : nat) (outs : list Output) : list Envelope :=
  omap (fun o => match o with
                 | SocketWrite k e => if (k =? sock)%nat then Some e else None
                 | _ => None
                 end) outs.

End Server.

(** ** A concrete setting

    The request of the README's example against a bot that offers [a.bin]
    on 127.0.0.1:5000. *)

Module Scenario.

Definition bot : string := "Bot|A".
Definition our_nick : string := "ghost_rider".

(** The arguments [server.js] passes for pack 7 with the default
    [FILE_DESTINATION] and [PROGRESS_INTERVAL]. *)
Definition args : Axdcc.Args := Axdcc.mkArgs bot "#7" "/data" true 1 true.

Definition SEND_5 : string := "DCC SEND a.bin 2130706433 5000 5".
Definition SEND_0 : string := "DCC SEND a.bin 2130706433 5000 0".
Definition ACCEPT_3 : string := "DCC ACCEPT a.bin 2130706433 5000 3".
Definition CHAT : string := "DCC CHAT chat 2130706433 5000".

(** [path.join] of a directory and a plain file name. *)
Definition path_join (dir file : string) : string := dir +:+ "/" +:+ file.

(** The download directory exists. *)
Definition fs_ready : Axdcc.SyncFs := Axdcc.mkSyncFs true None.

Definition from_bot (message : string) : Axdcc.Input :=
  Axdcc.CtcpPrivmsg bot our_nick message fs_ready.

Definition step := Axdcc.step args our_nick path_join.
Definition run := Axdcc.run args our_nick path_join.
Definition final := Axdcc.final args our_nick path_join.
Definition effects := Axdcc.effects args our_nick path_join.

(** Stand-ins for the three functions [Server] takes as parameters; they
    fix the text of log lines and the percentage shown, nothing else.  The
    quotient is exact where the double computation is (0 and 100 below). *)
Definition percent_of (received total : jsnum) : jsnum :=
  match received, total with
  | JNum r, JNum t => if t =? 0 then JNaN else JNum (r * 100 / t)
  | _, _ => JNaN
  end.
Definition formatSize (bytes : jsnum) : string := tmpl_num bytes +:+ " Bytes".
Definition JSON_stringify (e : Axdcc.ErrValue) : string :=
  match e with
  | Axdcc.ErrText s =>
      String (ascii_of_nat 34) s +:+ String (ascii_of_nat 34) EmptyString
  | Axdcc.ErrObject _ => "{}"
  end.

Definition server_step :=
  Server.step ∅ our_nick 1 percent_of formatSize JSON_stringify
    path_join.
Definition server_run :=
  Server.run ∅ our_nick 1 percent_of formatSize JSON_stringify
    path_join.

(** The transfer up to the established data connection, for a SEND
    message [send] and no partial file. *)
Definition connected_after (send : string) : list Axdcc.Input :=
  [ Axdcc.Start; from_bot send; Axdcc.StatDone 0 Axdcc.StatErr;
    Axdcc.StreamOpen 0; Axdcc.Connected 0 ].

(** The transfer up to the write stream of a resumed download: a partial
    file of [size] octets, and the bot's ACCEPT message [accept]. *)
Definition resumed_after (send accept : string) (size : Z)
  : list Axdcc.Input :=
  [ Axdcc.Start; from_bot send;
    Axdcc.StatDone 0 (Axdcc.StatOk true size); from_bot accept ].

(** The README's request without [send_progress], on the first API
    connection, and the same transfer seen from the server. *)
Definition quiet_request : Server.ApiRequest :=
  Server.mkApiRequest (Some bot) (Some "7") (Server.JBool false).

Definition api_connected_after (send : string) : list (Z * Server.Input) :=
  [ (0, Server.Connection); (0, Server.Request 0 quiet_request);
    (0, Server.TransferInput 0 (from_bot send));
    (0, Server.TransferInput 0 (Axdcc.StatDone 0 Axdcc.StatErr));
    (0, Server.TransferInput 0 (Axdcc.StreamOpen 0));
    (0, Server.TransferInput 0 (Axdcc.Connected 0)) ].


End Scenario.

(** ** The claims that the code does not satisfy, as stated *)

Module Stated.

Section Claims.

Variable args : Axdcc.Args.
Variable client_nick : string.
Variable path_join : string -> string -> string.

Let final := Axdcc.final args client_nick path_join.
Let effects := Axdcc.effects args client_nick path_join.
Let step := Axdcc.step args client_nick path_join.

(** At most one terminal event over the whole lifetime. *)
Definition at_most_one_terminal_event : Prop :=
  forall inputs : list Axdcc.Input,
    (length (filter (fun e => Axdcc.is_terminal e = true)
               (Axdcc.emitted (effects Axdcc.new_request inputs))) <= 1)%nat.

(** The rename happens only on a close with [received == file_size] and
    [file_size > 0]. *)
Definition rename_needs_positive_size : Prop :=
  forall (inputs : list Axdcc.Input) (i : Axdcc.Input) (from to : string),
    Axdcc.FsRename from to ∈ (step (final Axdcc.new_request inputs) i).2 ->
    exists d dl size,
      i = Axdcc.End d
      /\ Axdcc.downloads (final Axdcc.new_request inputs) !! d = Some dl
      /\ Axdcc.received dl = JNum size
      /\ Axdcc.filesize
           (Axdcc.read_pack (Axdcc.d_pack dl)
              (final Axdcc.new_request inputs)) = JNum size
      /\ 0 < size.

(** Once kill has run, no progress, complete or dlerror is emitted. *)
Definition silent_after_kill : Prop :=
  forall (before after : list Axdcc.Input) (e : Axdcc.Event),
    Axdcc.finished (final Axdcc.new_request before) = true ->
    e ∈ Axdcc.emitted (effects (final Axdcc.new_request before) after) ->
    Axdcc.is_progress e = false /\ Axdcc.is_terminal e = false.

(** [received] never exceeds a positive [file_size]. *)
Definition received_within_file_size : Prop :=
  forall (inputs : list Axdcc.Input) d dl got size,
    Axdcc.downloads (final Axdcc.new_request inputs) !! d = Some dl ->
    Axdcc.received dl = JNum got ->
    Axdcc.filesize
      (Axdcc.read_pack (Axdcc.d_pack dl)
         (final Axdcc.new_request inputs)) = JNum size ->
    0 < size ->
    got <= size.

End Claims.

Section ServerClaims.

Variable env : gmap string string.
Variable irc_nick : string.
Variable PROGRESS_INTERVAL : Z.
Variable percent_of : jsnum -> jsnum -> jsnum.
Variable formatSize : jsnum -> string.
Variable JSON_stringify : Axdcc.ErrValue -> string.
Variable path_join : string -> string -> string.

Let run := Server.run env irc_nick PROGRESS_INTERVAL percent_of formatSize
             JSON_stringify path_join.
Let step := Server.step env irc_nick PROGRESS_INTERVAL percent_of
              formatSize JSON_stringify path_join.

(** A usable socket: the client has not closed it. *)
Definition attached (s : Server.State) (sock : nat) : Prop :=
  exists ss, Server.sockets s !! sock = Some ss
             /\ Server.destroyed ss = false
             /\ Server.writable ss = true.


End ServerClaims.

End Stated.

(** ** Predicates of the further properties

    The shapes of the fields of a DCC message, the state a SEND leaves
    behind, what holds of every state a request reaches, and the sockets
    the front-end may write to. *)

Module Pattern.

Import Axdcc.

(** Every character of [s] is in the class [p]. *)
Fixpoint all_chars (p : ascii -> bool) (s : string) : bool :=
  match s with
  | EmptyString => true
  | String c rest => p c && all_chars p rest
  end.

(** The first character of [s], if any, is not in the class [p]. *)
Definition stops (p : ascii -> bool) (s : string) : bool :=
  match s with
  | EmptyString => true
  | String c _ => negb (p c)
  end.

(** A non-empty run of digits. *)
Definition digit_run (d : string) : bool :=
  negb (String.eqb d "") && all_chars is_digit d.


(** The quotes the pattern allows before and after the file name. *)
Definition lead_quotes : list string :=
  [ ""; String dquote ""; String squote ""; String dquote (String squote "") ].
Definition trail_quotes : list string :=
  [ ""; String squote ""; String dquote ""; String squote (String dquote "") ].


End Pattern.

Module Negotiation.

Import Axdcc.

Section Offer.

Variable args : Args.
Variable path_join : string -> string -> string.

(** The pack object a SEND message creates. *)
Definition pack_of (params : DccParams) : Pack :=
  mkPack (Some "SEND") (Some (p_filename params))
    (Some (Wire._intToIP (p_ip params))) (JNum (p_port params))
    (JNum (match p_size params with Some z => z | None => 0 end))
    (JNum 0)
    (Some (path_join (Wire.strip_trailing_sep (path args))
             (p_filename params))).

(** The partial file of that pack. *)
Definition part_of (params : DccParams) : string :=
  path_join (Wire.strip_trailing_sep (path args)) (p_filename params)
  +:+ ".part".

(** The state after a SEND whose [fs.stat] is under way. *)
Definition offered (params : DccParams) (s : Request) : Request :=
  push_fsop
    (StatPending (path_join (Wire.strip_trailing_sep (path args))
                    (p_filename params)))
    (set_pack_info (length (heap s)) (set_heap (heap s ++ [pack_of params]) s)).

End Offer.

(** The request for the pack, the cancel message, the subscription to CTCP
    messages, and the timer that kill starts. *)
Definition is_request (a : Action) : bool :=
  match a with
  | Say _ text => String.prefix "XDCC SEND " text
  | _ => false
  end.
Definition is_cancel (a : Action) : bool :=
  match a with
  | Say _ text => String.eqb text "XDCC CANCEL"
  | _ => false
  end.
Definition is_subscription (a : Action) : bool :=
  match a with
  | ClientOn => true
  | _ => false
  end.
Definition is_kill_timer (a : Action) : bool :=
  match a with
  | SetTimeout ms => ms =? 100
  | _ => false
  end.

Definition count (p : Action -> bool) (acts : list Action) : nat :=
  length (List.filter p acts).

End Negotiation.

Module Reach.

Import Axdcc.

(** A slot that holds a number that is not negative. *)
Definition nonneg (v : jsnum) : bool :=
  match v with
  | JNum z => 0 <=? z
  | JUndef | JNaN => false
  end.

(** A pack as [_handleDccSend] creates it: every property defined, the
    numbers not negative. *)
Definition proper (pk : Pack) : bool :=
  match filename pk, ip pk, location pk with
  | Some _, Some _, Some _ =>
      nonneg (port pk) && nonneg (filesize pk) && nonneg (resumepos pk)
  | _, _, _ => false
  end.

(** [fs.stat] reports sizes that are not negative. *)
Definition sane (i : Input) : bool :=
  match i with
  | StatDone _ (StatOk _ size) => 0 <=? size
  | _ => true
  end.

(** Effects that would show an undefined or negative value to the
    outside: the RangeError of [writeUInt32BE], a connection to an
    undefined host or port. *)
Definition sound_action (a : Action) : bool :=
  match a with
  | Throw _ => false
  | NetConnect _ p h => nonneg p && bool_decide (h <> None)
  | _ => true
  end.

Definition sound (acts : list Action) : Prop :=
  Forall (fun a => sound_action a = true) acts.

(** A download closure over the heap [h]: its pack is proper, and once
    the stream is open its counters are numbers that are not negative. *)
Definition download_ok (h : list Pack) (dl : Download) : Prop :=
  proper (default empty_object (h !! d_pack dl)) = true
  /\ (d_open dl = true ->
      nonneg (received dl) = true /\ nonneg (ack dl) = true).

Definition downloads_ok (h : list Pack) (dls : list Download) : Prop :=
  forall d dl, dls !! d = Some dl -> download_ok h dl.

(** Every pack object is proper or still the empty object. *)
Definition heap_ok (h : list Pack) : Prop :=
  forall p pk, h !! p = Some pk -> proper pk = true \/ filename pk = None.

(** An [fs.stat] or [fs.unlink] whose callback has yet to run. *)
Definition fs_pending (ops : list FsOp) : Prop :=
  exists op o, ops !! op = Some o /\ o <> OpDone.

(** What holds of every state a request can reach. *)
Definition wf (s : Request) : Prop :=
  downloads_ok (heap s) (downloads s)
  /\ heap_ok (heap s)
  /\ (finished s = false -> fs_pending (fsops s) ->
      proper (default empty_object (heap s !! pack_info s)) = true)
  /\ (grace_pending s = true -> finished s = true).

(** Updates of a pack that keep it as it is for [proper]. *)
Definition keeps_proper (f : Pack -> Pack) : Prop :=
  forall pk, (proper pk = true -> proper (f pk) = true)
             /\ filename (f pk) = filename pk.

End Reach.

Module Front.

Import Server.

(** The test of [safeSocketWrite]: the socket exists, is not destroyed,
    and is writable. *)
Definition usable (s : State) (k : nat) : bool :=
  match sockets s !! k with
  | Some ss => negb (destroyed ss) && writable ss
  | None => false
  end.

(** An effect that is not a write to a socket unusable in [s]. *)
Definition write_ok (s : State) (o : Output) : Prop :=
  match o with
  | SocketWrite k _ => usable s k = true
  | _ => True
  end.

(** A computation that leaves the sockets as they are and writes only to
    usable ones; one that only writes to sockets usable when it starts. *)
Definition keeps_sockets {A} (m : M A) : Prop :=
  forall s, sockets (m s).1.2 = sockets s /\ Forall (write_ok s) (m s).2.
Definition writes_usable {A} (m : M A) : Prop :=
  forall s, Forall (write_ok s) (m s).2.

(** The error envelope for a request without its two fields. *)
Definition invalid_request : Envelope :=
  Error ("Invalid request: Invalid request format. "
         +:+ "Required fields: bot_name, pack_number") None.

(** [!bot_name || !pack_number] on string fields. *)
Definition incomplete (req : ApiRequest) : bool :=
  match bot_name req, pack_number req with
  | Some bn, Some pn => String.eqb bn "" || String.eqb pn ""
  | _, _ => true
  end.

Fixpoint has_char (c : ascii) (s : string) : bool :=
  match s with
  | EmptyString => false
  | String x rest => Ascii.eqb x c || has_char c rest
  end.

(** No tracker is registered under the id the error handler uses for a
    pack without name or port. *)
Definition no_unknown (s : State) : Prop :=
  activeDownloads s !! "unknown" = None.

Definition keeps_unknown {A} (m : M A) : Prop :=
  forall s, no_unknown s -> no_unknown (m s).1.2.


End Front.

(** * Verification *)

(** ** The wire helpers *)

Lemma ack_wrap_mod (a : Z) : 0 <= a -> Wire.ack_wrap a = a mod 2 ^ 32.
Proof.
  funelim (Wire.ack_wrap a); intros Hge; unfold Wire.ACK_MAX in *.
  - rewrite H by lia.
    replace (ack - (4294967295 + 1)) with (ack + (-1) * 2 ^ 32) by lia.
    apply Z.mod_add. lia.
  - symmetry. apply Z.mod_small. lia.
Qed.

Lemma land_255 (x : Z) : Z.land x 255 = x mod 256.
Proof. change 255 with (Z.ones 8). rewrite Z.land_ones by lia. reflexivity. Qed.

(** A value in range is written as four octets that read back as itself. *)
Lemma write_read_UInt32BE (z : Z) :
  0 <= z <= Wire.ACK_MAX ->
  exists b, Wire.writeUInt32BE (JNum z) = Some b
            /\ length b = 4%nat
            /\ Wire.readUInt32BE b = Some z.
Proof.
  intros [Hlo Hhi]. unfold Wire.writeUInt32BE.
  destruct (z <? 0) eqn:E1; [lia |].
  destruct (Wire.ACK_MAX <? z) eqn:E2; [lia |].
  cbn [orb]. eexists; split; [reflexivity |]. split; [reflexivity |].
  unfold Wire.readUInt32BE. f_equal.
  rewrite !land_255, !Z.shiftr_div_pow2 by lia.
  unfold Wire.ACK_MAX in Hhi.
  Z.div_mod_to_equations. lia.
Qed.

Lemma ToInt32_small (x : Z) : - 2 ^ 31 <= x < 2 ^ 31 -> ToInt32 x = x.
Proof.
  intros Hx. unfold ToInt32.
  destruct (Z.leb_spec (2 ^ 31) (x mod 2 ^ 32)) as [H | H];
    Z.div_mod_to_equations; lia.
Qed.

Lemma ToInt32_range (n : Z) : - 2 ^ 31 <= ToInt32 n < 2 ^ 31.
Proof.
  unfold ToInt32. pose proof (Z.mod_pos_bound n (2 ^ 32)).
  destruct (Z.leb_spec (2 ^ 31) (n mod 2 ^ 32)); lia.
Qed.

Lemma js_sar_range (n k : Z) : 0 <= k -> - 2 ^ 31 <= js_sar n k < 2 ^ 31.
Proof.
  intros Hk. unfold js_sar. rewrite Z.shiftr_div_pow2 by assumption.
  pose proof (ToInt32_range n) as Hr.
  assert (0 < 2 ^ k) by (apply Z.pow_pos_nonneg; lia).
  split.
  - apply Z.div_le_lower_bound; nia.
  - apply Z.div_lt_upper_bound; nia.
Qed.

Lemma js_and_255 (x : Z) : - 2 ^ 31 <= x < 2 ^ 31 -> js_and x 255 = x mod 256.
Proof.
  intros Hx. unfold js_and.
  rewrite (ToInt32_small x) by assumption.
  rewrite (ToInt32_small 255) by lia.
  rewrite land_255. apply ToInt32_small.
  pose proof (Z.mod_pos_bound x 256). lia.
Qed.

(** The integer of an address at or above 128.0.0.0 is negative as an
    int32; the sign-propagating shifts and the masks still give the octets. *)
Lemma octets_ip_to_int (a b c d : Z) :
  0 <= a < 256 -> 0 <= b < 256 -> 0 <= c < 256 -> 0 <= d < 256 ->
  Wire.octets (Wire.ip_to_int a b c d) = [a; b; c; d].
Proof.
  intros Ha Hb Hc Hd. unfold Wire.octets.
  assert (Hn : ToInt32 (Wire.ip_to_int a b c d) = Wire.ip_to_int a b c d
            \/ ToInt32 (Wire.ip_to_int a b c d)
               = Wire.ip_to_int a b c d - 2 ^ 32).
  { unfold ToInt32, Wire.ip_to_int.
    rewrite (Z.mod_small (a * 2 ^ 24 + b * 2 ^ 16 + c * 2 ^ 8 + d)) by lia.
    destruct (Z.leb_spec (2 ^ 31) (a * 2 ^ 24 + b * 2 ^ 16 + c * 2 ^ 8 + d));
      auto. }
  assert (Hlast : js_and (Wire.ip_to_int a b c d) 255 = d).
  { unfold js_and. rewrite (ToInt32_small 255) by lia. rewrite land_255.
    rewrite ToInt32_small.
    - destruct Hn as [-> | ->]; unfold Wire.ip_to_int;
        Z.div_mod_to_equations; lia.
    - pose proof (Z.mod_pos_bound (ToInt32 (Wire.ip_to_int a b c d)) 256).
      lia. }
  rewrite Hlast.
  rewrite !js_and_255 by (apply js_sar_range; lia).
  unfold js_sar. rewrite !Z.shiftr_div_pow2 by lia.
  destruct Hn as [-> | ->]; unfold Wire.ip_to_int;
    repeat f_equal; Z.div_mod_to_equations; lia.
Qed.

(** C9. For every IPv4 address a.b.c.d with octets in 0..255, [_intToIP]
    applied to its big-endian 32-bit integer gives back the dotted-decimal
    text a.b.c.d, also when the integer is 2^31 or more. *)
Theorem C9_int_to_ip_inverts_ip_to_int (a b c d : Z) :
  0 <= a < 256 -> 0 <= b < 256 -> 0 <= c < 256 -> 0 <= d < 256 ->
  Wire._intToIP (Wire.ip_to_int a b c d) = Wire.dotted a b c d.
Proof.
  intros Ha Hb Hc Hd. unfold Wire._intToIP.
  rewrite octets_ip_to_int by assumption. reflexivity.
Qed.

Lemma C9_witness :
  Wire._intToIP (Wire.ip_to_int 192 168 0 1) = Wire.dotted 192 168 0 1.
Proof. apply (C9_int_to_ip_inverts_ip_to_int 192 168 0 1); lia. Defined.

Example int_to_ip_192_168_0_1 : Wire._intToIP 3232235521 = "192.168.0.1".
Proof. vm_compute. reflexivity. Qed.

Example ack_wraps_past_4GiB : Wire.ack_wrap (4294967290 + 10) = 4.
Proof. vm_compute. reflexivity. Qed.

(** ** The parser of DCC messages *)

Example match_send :
  Axdcc.dcc_match Scenario.SEND_5
  = Some (Axdcc.mkParams "SEND" "a.bin" 2130706433 5000 (Some 5)).
Proof. vm_compute. reflexivity. Qed.

Example match_accept :
  Axdcc.dcc_match Scenario.ACCEPT_3
  = Some (Axdcc.mkParams "ACCEPT" "a.bin" 2130706433 5000 (Some 3)).
Proof. vm_compute. reflexivity. Qed.

(** The fifth group is optional. *)
Example match_without_size :
  Axdcc.dcc_match Scenario.CHAT
  = Some (Axdcc.mkParams "CHAT" "chat" 2130706433 5000 None).
Proof. vm_compute. reflexivity. Qed.

(** A file name between double quotes, with a space in it. *)
Example match_quoted_name :
  Axdcc.dcc_match
    ("DCC SEND "
     +:+ String Axdcc.dquote
           ("my file.bin" +:+ String Axdcc.dquote " 2130706433 5000 5"))
  = Some (Axdcc.mkParams "SEND" "my file.bin" 2130706433 5000 (Some 5)).
Proof. vm_compute. reflexivity. Qed.

(** A single quote inside a name between single quotes stays in it. *)
Example match_quote_inside_name :
  Axdcc.dcc_match "DCC SEND 'it's.bin' 1 2 3"
  = Some (Axdcc.mkParams "SEND" "it's.bin" 1 2 (Some 3)).
Proof. vm_compute. reflexivity. Qed.

(** The pattern is not anchored at the end: further fields are ignored. *)
Example match_ignores_the_rest :
  Axdcc.dcc_match "DCC SEND a 1 2 3 4 5"
  = Some (Axdcc.mkParams "SEND" "a" 1 2 (Some 3)).
Proof. vm_compute. reflexivity. Qed.

Example match_needs_two_numbers : Axdcc.dcc_match "DCC SEND a.bin 5000" = None.
Proof. vm_compute. reflexivity. Qed.

(** An ACCEPT of three fields (name, port, offset): the port lands in the
    third group and the offset in the fourth, the fifth is absent. *)
Example match_accept_of_three_fields :
  Axdcc.dcc_match "DCC ACCEPT a.bin 5000 3"
  = Some (Axdcc.mkParams "ACCEPT" "a.bin" 5000 3 None).
Proof. vm_compute. reflexivity. Qed.

(** ** The transfer *)

Module AxdccFacts.

Import Axdcc.

(** Unfold one turn down to the tests on the state. *)
Ltac turn :=
  cbv [step exec dispatch with_download
       _killRequest grace_callback _handleStart _handleCancel _download
       on_stream_open on_connected on_tick on_data on_end on_rename_done
       on_conn_error on_conn_timeout on_stream_error checkForPartialFile
       on_stat_done on_unlink_done _handleDccSend _handleDccAccept
       _dccDownloadHandler
       mbind mret Turn_bind Turn_ret get put act emit done_].

(** Split on every test that is left. *)
Ltac crush := repeat (first [ progress simplify_eq/= | case_match ]).

(** Go through the members of an explicit list. *)
Ltac elems H :=
  repeat match type of H with
    | _ ∈ [] => apply elem_of_nil in H; destruct H
    | _ ∈ (_ :: _) =>
        apply elem_of_cons in H; destruct H as [H | H];
        [try discriminate H |]
    | _ ∈ (_ ++ _) => apply elem_of_app in H; destruct H as [H | H]
    end.

(** Resolve lookups in the list of closures after updates of it. *)
Ltac lookups :=
  repeat match goal with
    | |- context [<[?x := _]> (<[?x := _]> _)] =>
        rewrite list_insert_insert_eq
    | H : <[?x := _]> ?l !! ?d = Some _ |- _ =>
        apply list_lookup_insert_Some in H;
        destruct H as [(-> & <- & _) | (? & H)]
    | H : ?l !! ?x = Some _ |- context [<[?x := _]> ?l !! ?d] =>
        destruct (decide (x = d)) as [-> | ?];
        [rewrite (list_lookup_insert_eq l) by (eapply lookup_lt_Some; exact H)
        | rewrite (list_lookup_insert_ne l) by assumption]
    | |- context [<[?x := _]> (<[?y := ?v]> ?l) !! ?d] =>
        destruct (decide (x = d)) as [-> | ?];
        [rewrite (list_lookup_insert_eq (<[y := v]> l))
           by (rewrite length_insert; eapply lookup_lt_Some; eassumption)
        | rewrite (list_lookup_insert_ne (<[y := v]> l)) by assumption]
    | H : ?l !! ?d = Some _ |- context [(?l ++ _) !! ?d] =>
        rewrite (lookup_app_l_Some l _ d _ H)
    end.

Lemma lookup_snoc {A} (l : list A) (x : A) : (l ++ [x]) !! length l = Some x.
Proof. apply list_lookup_middle. reflexivity. Qed.

Lemma insert_snoc {A} (l : list A) (x y : A) :
  <[length l := y]> (l ++ [x]) = l ++ [y].
Proof.
  rewrite insert_app_r_alt by lia. rewrite Nat.sub_diag. reflexivity.
Qed.

Section Turns.

Variable args : Args.
Variable client_nick : string.
Variable path_join : string -> string -> string.

Abbreviation step := (step args client_nick path_join).
Abbreviation run := (run args client_nick path_join).
Abbreviation final := (final args client_nick path_join).

Lemma run_cons s i rest :
  run s (i :: rest)
  = ((run (step s i).1 rest).1, (step s i).2 :: (run (step s i).1 rest).2).
Proof.
  cbn [Axdcc.run]. destruct (step s i) as [s1 acts]. cbn [fst snd].
  destruct (run s1 rest) as [s2 tr]. reflexivity.
Qed.

Lemma final_cons s i rest : final s (i :: rest) = final (step s i).1 rest.
Proof. unfold Axdcc.final. rewrite run_cons. reflexivity. Qed.

(** [finished] is never reset. *)
Lemma finished_step s i : finished s = true -> finished (step s i).1 = true.
Proof. intros Hf. destruct i; turn; rewrite ?Hf; crush; done. Qed.

Lemma kill_when_finished s :
  finished s = true -> _killRequest s = (tt, s, []).
Proof.
  intros Hf. cbv [_killRequest mbind Turn_bind get]. rewrite Hf.
  reflexivity.
Qed.

(** *** The data channel *)

Lemma stream_open_turn s d dl :
  downloads s !! d = Some dl -> d_open dl = false ->
  step s (StreamOpen d) =
    (write_download d
       (opened (resumepos (read_pack (d_pack dl) s))
               (resumepos (read_pack (d_pack dl) s)) dl) s,
     [NetConnect d (port (read_pack (d_pack dl) s))
        (ip (read_pack (d_pack dl) s));
      ConnSetTimeout d 60000]).
Proof. intros Hd Ho. turn. rewrite Hd, Ho. reflexivity. Qed.

(** One chunk: the counters advance, the acknowledgement is reduced
    below 2^32, written as four octets, and the chunk goes to the file. *)
Lemma data_turn s d dl data x a :
  finished s = false -> downloads s !! d = Some dl -> d_open dl = true ->
  received dl = JNum x -> ack dl = JNum a -> 0 <= a ->
  exists frame,
    length frame = 4%nat /\
    Wire.readUInt32BE frame
    = Some ((a + Z.of_nat (length data)) mod 2 ^ 32) /\
    step s (Data d data) =
      (write_download d
         (with_counters (JNum (x + Z.of_nat (length data)))
            (JNum ((a + Z.of_nat (length data)) mod 2 ^ 32)) dl) s,
       [ConnWrite d frame; StreamWrite d data]).
Proof.
  intros Hf Hd Ho Hr Ha Hge.
  assert (Hpos : 0 <= a + Z.of_nat (length data)) by lia.
  destruct (write_read_UInt32BE ((a + Z.of_nat (length data)) mod 2 ^ 32))
    as (frame & Hw & Hlen & Hrd).
  { pose proof (Z.mod_pos_bound (a + Z.of_nat (length data)) (2 ^ 32)).
    unfold Wire.ACK_MAX. lia. }
  exists frame. split; [exact Hlen |]. split; [exact Hrd |].
  turn. rewrite Hd, Ho, Hf, Hr, Ha. cbn [js_add Wire.ack_loop].
  rewrite (ack_wrap_mod _ Hpos), Hw. reflexivity.
Qed.

(** Every other turn leaves the counters of an open download alone and
    writes nothing to its socket or its stream. *)
Lemma other_turns_keep_counters s i d dl :
  downloads s !! d = Some dl -> d_open dl = true ->
  (forall data, i <> Data d data) ->
  (exists dl', downloads (step s i).1 !! d = Some dl'
               /\ counters dl' = counters dl)
  /\ Forall (fun a => touches d a = false) (step s i).2.
Proof.
  intros Hd Ho Hi.
  destruct i; turn; crush; lookups; crush; lookups; crush;
    try congruence;
    try (exfalso; eapply Hi; reflexivity);
    try (split; [eexists; split; [eassumption || reflexivity | reflexivity]
                | repeat constructor; cbn;
                  try (apply Nat.eqb_neq; assumption)]).
Qed.

Lemma appended_app d a b : appended d (a ++ b) = appended d a + appended d b.
Proof.
  induction a as [| x a IH]; [reflexivity |].
  cbn [app appended foldr]. fold (appended d (a ++ b)). fold (appended d a).
  rewrite IH. destruct x; try reflexivity.
  destruct (_ =? _)%nat; lia.
Qed.

Lemma untouched d acts :
  Forall (fun a => touches d a = false) acts ->
  appended d acts = 0 /\ forall frame, ConnWrite d frame ∉ acts.
Proof.
  induction 1 as [| a acts Ha _ [IH1 IH2]]; [split; [reflexivity |] |].
  - intros frame Hin. apply elem_of_nil in Hin. exact Hin.
  - split.
    + cbn [appended foldr]. fold (appended d acts). rewrite IH1.
      destruct a; try reflexivity. cbn in Ha. rewrite Ha. reflexivity.
    + intros frame Hin. apply elem_of_cons in Hin as [Heq | Hin].
      * subst a. cbn in Ha. rewrite Nat.eqb_refl in Ha. discriminate.
      * exact (IH2 frame Hin).
Qed.

(** One turn, whatever the input: the octets counted grow by what the turn
    appends to the file, a frame written in the turn carries the new count
    mod 2^32, and a chunk handled while the request is live is answered by
    one frame and appended. *)
Lemma acked_step d s x i :
  acked d s x ->
  acked d (step s i).1 (x + appended d (step s i).2)
  /\ (forall frame,
        ConnWrite d frame ∈ (step s i).2 ->
        length frame = 4%nat
        /\ Wire.readUInt32BE frame
           = Some ((x + appended d (step s i).2) mod 2 ^ 32))
  /\ (forall chunk,
        i = Data d chunk -> finished s = false ->
        exists frame, (step s i).2 = [ConnWrite d frame; StreamWrite d chunk]).
Proof.
  intros (dl & a & Hd & Ho & Hr & Ha & Hge & Hcong).
  assert (Hcase : (exists data, i = Data d data)
                  \/ (forall data, i <> Data d data)).
  { destruct i as [| | | | | | | | | d0 data0 | | | | | |];
      try (right; intros data; discriminate).
    destruct (decide (d0 = d)) as [-> | Hne]; [left; eauto |].
    right. intros data Heq. injection Heq as Hd0 _. contradiction. }
  destruct Hcase as [[data ->] | Hi].
  - destruct (finished s) eqn:Hf.
    + assert (Hstep : step s (Data d data) = (s, [])).
      { turn. rewrite Hd, Ho, Hf. reflexivity. }
      rewrite Hstep. cbn [fst snd appended foldr]. rewrite Z.add_0_r.
      split; [exists dl, a; repeat split; assumption |]. split.
      * intros frame Hin. apply elem_of_nil in Hin. destruct Hin.
      * intros chunk _ Hfalse. discriminate Hfalse.
    + destruct (data_turn s d dl data x a Hf Hd Ho Hr Ha Hge)
        as (frame & Hlen & Hrd & Hstep).
      rewrite Hstep. cbn [fst snd appended foldr]. rewrite Nat.eqb_refl.
      rewrite Z.add_0_r.
      assert (Hval : (a + Z.of_nat (length data)) mod 2 ^ 32
                     = (x + Z.of_nat (length data)) mod 2 ^ 32).
      { rewrite <- (Zplus_mod_idemp_l a), Hcong, Zplus_mod_idemp_l.
        reflexivity. }
      split; [| split].
      * eexists _, _. split.
        { cbn. apply list_lookup_insert_eq.
          eapply lookup_lt_Some; eassumption. }
        cbn. repeat split; try done.
        -- pose proof (Z.mod_pos_bound (a + Z.of_nat (length data)) (2 ^ 32)).
           lia.
        -- rewrite Z.mod_mod by lia. exact Hval.
      * intros fr Hin. elems Hin. injection Hin as ->.
        split; [exact Hlen |]. rewrite Hrd, Hval. reflexivity.
      * intros chunk Hc _. injection Hc as <-. eauto.
  - destruct (other_turns_keep_counters s i d dl Hd Ho Hi)
      as [(dl' & Hd' & Hc) Hun].
    destruct (untouched d _ Hun) as [Happ Hno].
    rewrite Happ, Z.add_0_r. split; [| split].
    + unfold counters in Hc. injection Hc as Hp Hop Hrc Hak.
      exists dl', a. rewrite Hop, Hrc, Hak. repeat split; assumption.
    + intros frame Hin. destruct (Hno frame Hin).
    + intros chunk ->. destruct (Hi chunk eq_refl).
Qed.

Lemma acked_run d inputs : forall s x,
  acked d s x ->
  acked d (final s inputs) (x + appended d (concat (run s inputs).2))
  /\ forall (k : nat) i acts,
       inputs !! k = Some i -> (run s inputs).2 !! k = Some acts ->
       (forall chunk,
           i = Data d chunk -> finished (final s (take k inputs)) = false ->
           exists frame, acts = [ConnWrite d frame; StreamWrite d chunk])
       /\ (forall frame,
             ConnWrite d frame ∈ acts ->
             length frame = 4%nat
             /\ Wire.readUInt32BE frame
                = Some ((x + appended d (concat (take (S k) (run s inputs).2)))
                        mod 2 ^ 32)).
Proof.
  induction inputs as [| i0 rest IH]; intros s x Hinv.
  - split.
    + cbn. rewrite Z.add_0_r. exact Hinv.
    + intros k i acts Hk. rewrite lookup_nil in Hk. discriminate.
  - destruct (acked_step d s x i0 Hinv) as (Hnext & Hframe & Hchunk).
    destruct (IH _ _ Hnext) as [Hfin Hrest].
    rewrite final_cons, run_cons. cbn [snd concat].
    rewrite appended_app, Z.add_assoc. split; [exact Hfin |].
    intros k i acts Hk Ha. destruct k as [| k]; cbn in Hk, Ha.
    + injection Hk as ->. injection Ha as <-. split.
      * intros chunk Hi Hf. exact (Hchunk chunk Hi Hf).
      * intros frame Hin. cbn [take concat]. rewrite app_nil_r.
        exact (Hframe frame Hin).
    + destruct (Hrest k i acts Hk Ha) as [Hc Hfr]. split.
      * intros chunk Hi Hf. apply (Hc chunk Hi).
        cbn [take] in Hf. rewrite final_cons in Hf. exact Hf.
      * intros frame Hin.
        change (take (S (S k)) (?a :: ?l)) with (a :: take (S k) l).
        cbn [concat]. rewrite appended_app, Z.add_assoc.
        exact (Hfr frame Hin).
Qed.

(** The 'open' handler starts both counters at [pack.resumepos]. *)
Lemma acked_after_open s d dl r :
  downloads s !! d = Some dl -> d_open dl = false ->
  resumepos (read_pack (d_pack dl) s) = JNum r -> 0 <= r ->
  acked d (step s (StreamOpen d)).1 r.
Proof.
  intros Hd Ho Hr Hge. rewrite (stream_open_turn s d dl Hd Ho), Hr.
  exists (opened (JNum r) (JNum r) dl), r. cbn [fst].
  repeat split; try done.
  cbn. apply list_lookup_insert_eq. eapply lookup_lt_Some; eassumption.
Qed.


(** C7, as amended. After any sequence of inputs, [received] is the resume
    offset plus every octet appended to the partial file, that is, every
    octet the peer delivered while the request was live: the code adds the
    length of each chunk and never compares with [file_size], so [received]
    stays within [size] exactly as long as the peer delivers no more than
    [size - r] octets. *)
Theorem C7_received_counts_every_octet s d dl r inputs :
  downloads s !! d = Some dl -> d_open dl = false ->
  resumepos (read_pack (d_pack dl) s) = JNum r -> 0 <= r ->
  exists dl',
    downloads (final (step s (StreamOpen d)).1 inputs) !! d = Some dl'
    /\ received dl'
       = JNum (r + appended d
                     (concat (run (step s (StreamOpen d)).1 inputs).2))
    /\ forall got size : Z,
         received dl' = JNum got ->
         (got <= size
          <-> appended d (concat (run (step s (StreamOpen d)).1 inputs).2)
              <= size - r).
Proof.
  intros Hd Ho Hr Hge.
  destruct (acked_run d inputs _ r (acked_after_open s d dl r Hd Ho Hr Hge))
    as [(dl' & a & Hd' & _ & Hrec & _) _].
  exists dl'. split; [exact Hd' |]. split; [exact Hrec |].
  intros got size Hgot. rewrite Hrec in Hgot. injection Hgot as <-. lia.
Qed.

(** *** Rename *)

Lemma rename_only_from_end s i from to :
  FsRename from to ∈ (step s i).2 ->
  exists d dl,
    i = End d /\ downloads s !! d = Some dl /\ d_open dl = true
    /\ js_strict_eq (received dl) (filesize (read_pack (d_pack dl) s))
       = true
    /\ from = tmpl_str (location (read_pack (d_pack dl) s)) +:+ ".part"
    /\ to = tmpl_str (location (read_pack (d_pack dl) s)).
Proof.
  intros H. destruct i; revert H; turn; intros H; crush; elems H.
  injection H as -> ->. eauto 10.
Qed.

Lemma rename_failure s d dl msg :
  downloads s !! d = Some dl -> d_renames dl <> 0%nat ->
  emitted (step s (RenameDone d (Some msg))).2
    = [dlerror (Some (read_pack (d_pack dl) s))
         (ErrText ("Failed to rename file: " +:+ msg))]
  /\ finished (step s (RenameDone d (Some msg))).1 = true
  /\ Forall (fun a => moves_file a = false)
       (step s (RenameDone d (Some msg))).2.
Proof.
  intros Hd Hn. turn. rewrite Hd.
  destruct (d_renames dl) as [| n] eqn:E; [done |].
  crush; repeat split; try done; repeat constructor.
Qed.

(** C3, as amended. The only turn that renames a file is the close of
    the data connection by the peer, when [received === pack.filesize]
    holds at that moment (a [file_size] of 0 included), and it renames
    [F.part] to [F]; when the rename fails, the turn of its callback
    emits one [dlerror], sets [finished], and neither renames nor
    deletes any file. *)
Theorem C3_rename_only_on_full_receipt s :
  (forall i from to,
      FsRename from to ∈ (step s i).2 ->
      exists d dl,
        i = End d /\ downloads s !! d = Some dl /\ d_open dl = true
        /\ js_strict_eq (received dl)
             (filesize (read_pack (d_pack dl) s)) = true
        /\ from = tmpl_str (location (read_pack (d_pack dl) s)) +:+ ".part"
        /\ to = tmpl_str (location (read_pack (d_pack dl) s)))
  /\ (forall d dl msg,
        downloads s !! d = Some dl -> d_renames dl <> 0%nat ->
        emitted (step s (RenameDone d (Some msg))).2
          = [dlerror (Some (read_pack (d_pack dl) s))
               (ErrText ("Failed to rename file: " +:+ msg))]
        /\ finished (step s (RenameDone d (Some msg))).1 = true
        /\ Forall (fun a => moves_file a = false)
             (step s (RenameDone d (Some msg))).2).
Proof.
  split.
  - apply rename_only_from_end.
  - apply rename_failure.
Qed.

(** *** Terminal events and kill *)

Lemma one_terminal_per_turn s i :
  (length (filter (fun e => is_terminal e = true)
             (emitted (step s i).2)) <= 1)%nat.
Proof. destruct i; turn; crush; cbv; lia. Qed.

Lemma terminal_then_kill s i e :
  e ∈ emitted (step s i).2 -> is_terminal e = true ->
  data_channel_input i = true \/ (exists pk, e = complete pk) ->
  finished (step s i).1 = true.
Proof.
  intros He Ht Hi. destruct i; revert He Hi; turn; intros He Hi; crush;
    try done; elems He; try done;
    try (destruct Hi as [Hi | [pk Hi]]; (done || congruence)).
Qed.

Lemma guarded_when_finished s i :
  finished s = true -> guarded_input i = true -> (step s i).2 = [].
Proof.
  intros Hf Hg. destruct i; try discriminate Hg; turn; rewrite ?Hf; crush;
    try done; rewrite Hf in *; done.
Qed.

(** C2, as amended. A turn emits at most one terminal event.  A
    [complete], and a [dlerror] raised by a handler of the data channel
    (close by the peer, rename callback, socket error, idle timeout,
    stream error), is followed by kill in the same turn: [finished] is
    set.  Once set it stays set, and cancel, kill, CTCP messages, data,
    socket errors, timeouts, stream errors and progress ticks perform no
    effect at all. *)
Theorem C2_terminal_event_then_kill s i :
  (length (filter (fun e => is_terminal e = true)
             (emitted (step s i).2)) <= 1)%nat
  /\ (forall e, e ∈ emitted (step s i).2 -> is_terminal e = true ->
        data_channel_input i = true \/ (exists pk, e = complete pk) ->
        finished (step s i).1 = true)
  /\ (finished s = true ->
        finished (step s i).1 = true
        /\ (guarded_input i = true -> (step s i).2 = [])).
Proof.
  split; [apply one_terminal_per_turn |].
  split; [intros e; apply terminal_then_kill |].
  intros Hf. split; [apply finished_step; exact Hf |].
  apply guarded_when_finished; exact Hf.
Qed.

Lemma emit_after_kill s i e :
  finished s = true -> Emit e ∈ (step s i).2 ->
  is_progress e = false /\ (is_terminal e = true -> late_reporter i = true).
Proof.
  intros Hf He. destruct i; revert He; turn; rewrite ?Hf; intros He; crush;
    elems He; crush; try done; rewrite Hf in *; done.
Qed.

Lemma end_after_kill s d dl :
  finished s = true -> downloads s !! d = Some dl -> d_open dl = true ->
  js_strict_eq (received dl) (filesize (read_pack (d_pack dl) s)) = false ->
  step s (End d) =
    (s, [StreamEnd d;
         Emit (dlerror (Some (read_pack (d_pack dl) s))
                 (ErrText "Server closed connection, download canceled"));
         ConnDestroy d]).
Proof.
  intros Hf Hd Ho Hne. turn. rewrite Hd, Ho, Hf, Hne.
  cbn [negb andb]. rewrite Hf. reflexivity.
Qed.

(** C6, as amended. Once kill has run, [finished] stays set and no
    [progress] is emitted any more; a terminal event can still be
    emitted, but only by the close of the data connection, by the
    callback of a rename that close started, or by the callback of a
    failed unlink.  In particular a close by the peer with
    [received !== pack.filesize] emits the [dlerror] "Server closed
    connection, download canceled" and changes nothing. *)
Theorem C6_after_kill s inputs :
  finished s = true ->
  finished (final s inputs) = true
  /\ (forall (k : nat) i acts e,
        inputs !! k = Some i -> (run s inputs).2 !! k = Some acts ->
        Emit e ∈ acts ->
        is_progress e = false
        /\ (is_terminal e = true -> late_reporter i = true))
  /\ (forall d dl,
        downloads s !! d = Some dl -> d_open dl = true ->
        js_strict_eq (received dl)
          (filesize (read_pack (d_pack dl) s)) = false ->
        step s (End d) =
          (s, [StreamEnd d;
               Emit (dlerror (Some (read_pack (d_pack dl) s))
                       (ErrText
                          "Server closed connection, download canceled"));
               ConnDestroy d])).
Proof.
  intros Hf. split; [| split].
  - revert s Hf. induction inputs as [| i rest IH]; intros s Hf;
      [exact Hf |].
    rewrite final_cons. apply IH. apply finished_step. exact Hf.
  - revert s Hf.
    induction inputs as [| i rest IH]; intros s Hf k j acts e Hk Ha He.
    + rewrite lookup_nil in Hk. discriminate.
    + rewrite run_cons in Ha. destruct k as [| k]; cbn in Hk, Ha.
      * injection Hk as ->. injection Ha as <-.
        eapply emit_after_kill; eassumption.
      * eapply (IH (step s i).1); try eassumption.
        apply finished_step. exact Hf.
  - intros d dl. apply end_after_kill. exact Hf.
Qed.

(** *** Resume negotiation *)





End Turns.

End AxdccFacts.

(** ** The API front-end *)

Module ServerFacts.

Import Server.

Lemma written_app sock (a b : list Output) :
  written sock (a ++ b) = written sock a ++ written sock b.
Proof. unfold written. apply omap_app. Qed.

(** The logger writes to the log and the console, never to a socket. *)
Lemma written_logger sock env message :
  written sock (logger_progress env message) = [].
Proof.
  unfold logger_progress. rewrite written_app.
  destruct (match_percent message) as [p |];
    [destruct ((p mod 10 =? 0) || (p =? 100)) |];
    destruct (DISABLE_PROGRESS_ANSI env); reflexivity.
Qed.

(** C10. Whatever the environment holds for DISABLE_PROGRESS_ANSI (unset,
    'false', anything), the flag evaluates to true; [logger.progress]
    therefore ends every call with one full console line and never
    reaches the branch that rewrites the line through [process.stdout]. *)
Theorem C10_progress_ansi_always_disabled
    (env : gmap string string) (message : string) :
  DISABLE_PROGRESS_ANSI env = true
  /\ (exists log,
        logger_progress env message
        = log ++ [ConsoleLog ("[PROGRESS] " +:+ message)])
  /\ (forall text, StdoutWrite text ∉ logger_progress env message).
Proof.
  assert (H : DISABLE_PROGRESS_ANSI env = true).
  { unfold DISABLE_PROGRESS_ANSI. apply orb_true_r. }
  split; [exact H |]. unfold logger_progress. rewrite H. split.
  - eexists. reflexivity.
  - intros text Hin. apply elem_of_app in Hin as [Hin | Hin].
    + destruct (match_percent message) as [p |];
        [destruct ((p mod 10 =? 0) || (p =? 100)) |];
        repeat (apply elem_of_cons in Hin as [Hin | Hin];
                [discriminate Hin |]);
        apply elem_of_nil in Hin; exact Hin.
    + apply elem_of_cons in Hin as [Hin | Hin]; [discriminate Hin |].
      apply elem_of_nil in Hin. exact Hin.
Qed.

Section Handlers.

Variable env : gmap string string.
Variable percent_of : jsnum -> jsnum -> jsnum.
Variable formatSize : jsnum -> string.
Variable JSON_stringify : Axdcc.ErrValue -> string.

Ltac handler :=
  cbv [exec xdcc_progress xdcc_complete xdcc_error safeSocketWrite
       write_callback
       mbind mret Turn_bind Turn_ret get put act done_].

(** [xdccHandlers.progress] with a registered tracker and a usable socket:
    one progress envelope, whatever [sendProgress] holds. *)
Lemma progress_handler s pk received t tr sock ss :
  get_tracker (download_id pk) s = Some (t, tr) ->
  socket tr = Some sock ->
  sockets s !! sock = Some ss ->
  destroyed ss = false -> writable ss = true ->
  written sock
    (exec (xdcc_progress env percent_of formatSize pk received) s).2
  = [Progress (Axdcc.filename pk)
       (percent_of received (Axdcc.filesize pk))
       received (Axdcc.filesize pk)].
Proof.
  intros Ht Hs Hss Hd Hw. handler. rewrite Ht.
  destruct tr as [so pn sp st rq]. cbn in Hs. subst so.
  rewrite Hss, Hd, Hw. cbn [negb andb snd].
  rewrite !written_app, written_logger. cbn.
  rewrite Nat.eqb_refl. reflexivity.
Qed.


End Handlers.

Section Turns.

Variable env : gmap string string.
Variable irc_nick : string.
Variable PROGRESS_INTERVAL : Z.
Variable percent_of : jsnum -> jsnum -> jsnum.
Variable formatSize : jsnum -> string.
Variable JSON_stringify : Axdcc.ErrValue -> string.
Variable path_join : string -> string -> string.

Abbreviation on_event :=
  (on_event env percent_of formatSize JSON_stringify).
Abbreviation relay := (relay env percent_of formatSize JSON_stringify).
Abbreviation step :=
  (step env irc_nick PROGRESS_INTERVAL percent_of formatSize JSON_stringify
     path_join).
Abbreviation transfer_step a :=
  (Axdcc.step a irc_nick path_join).

(** The effects of a request that emits exactly one event [e]: the
    envelopes written are those of the listener of [e]. *)
Lemma relay_single now r sock acts e s :
  Axdcc.emitted acts = [e] ->
  written sock (exec (relay now r true acts) s).2
  = written sock (exec (on_event now r e) s).2.
Proof.
  revert s. induction acts as [| a acts IH]; intros s He; [discriminate |].
  cbn [Server.relay].
  destruct a; cbn in He;
    try (specialize (IH s He);
         cbv [exec mbind Turn_bind act done_ mret Turn_ret] in *;
         destruct (relay now r true acts s) as [[u s'] o];
         cbn in *; exact IH).
  injection He as -> Hnil.
  assert (Hrest : forall s',
             relay now r true acts s' = (tt, s', map (Transfer r) acts)).
  { clear IH. induction acts as [| b acts IHa]; intros s'; [reflexivity |].
    cbn [Server.relay]. destruct b; cbn in Hnil; try discriminate;
      cbv [mbind Turn_bind act done_ mret Turn_ret];
      rewrite (IHa Hnil); reflexivity. }
  cbv [exec mbind Turn_bind act].
  destruct (on_event now r e s) as [[u s'] o]. rewrite Hrest.
  cbn [fst snd]. rewrite !written_app.
  assert (Hw : written sock (map (Transfer r) acts) = []).
  { clear. induction acts; [reflexivity | exact IHacts]. }
  rewrite Hw, app_nil_r. reflexivity.
Qed.

(** A turn of request [r] in the server, when the request emits one event
    and its listeners are attached. *)
Lemma transfer_turn_written s now r i a st l e sock :
  transfers s !! r = Some (mkTransfer a st l) ->
  Axdcc.listeners st = true ->
  Axdcc.emitted (transfer_step a st i).2 = [e] ->
  written sock (step s (now, TransferInput r i)).2
  = written sock
      (exec (on_event now r e)
         (set_transfers
            (<[r := mkTransfer a (transfer_step a st i).1 l]> (transfers s))
            s)).2.
Proof.
  intros Ht Hl He.
  unfold Server.step, dispatch, transfer_turn. cbn [fst snd].
  cbv [exec mbind Turn_bind get]. rewrite Ht.
  destruct (transfer_step a st i) as [st' acts].
  cbn [fst snd] in *. rewrite Hl.
  cbv [mbind Turn_bind put].
  pose proof (relay_single now r sock acts e
                (set_transfers (<[r := mkTransfer a st' l]> (transfers s)) s)
                He) as Hr.
  cbv [exec] in Hr.
  destruct (relay now r true acts _) as [[u1 s1] o1].
  destruct (on_event now r e _) as [[u2 s2] o2].
  cbn in *. exact Hr.
Qed.

(** C5, on the code. When a request emits [progress] and the tracker of its
    pack holds a usable client socket, the turn writes the progress
    envelope to that client although [sendProgress] is false: the flag
    stored by the 'connect' listener is never read. *)
Theorem C5_progress_written_whatever_send_progress
    s now r i a st l pk received t tr sock ss :
  transfers s !! r = Some (mkTransfer a st l) ->
  Axdcc.listeners st = true ->
  Axdcc.emitted (transfer_step a st i).2 = [Axdcc.progress pk received] ->
  get_tracker (download_id pk) s = Some (t, tr) ->
  socket tr = Some sock -> sendProgress tr = false ->
  sockets s !! sock = Some ss ->
  destroyed ss = false -> writable ss = true ->
  written sock (step s (now, TransferInput r i)).2
  = [Progress (Axdcc.filename pk)
       (percent_of received (Axdcc.filesize pk))
       received (Axdcc.filesize pk)].
Proof.
  intros Ht Hl He Htr Hs _ Hss Hd Hw.
  rewrite (transfer_turn_written s now r i a st l _ sock Ht Hl He).
  cbn [Server.on_event].
  eapply progress_handler; eassumption.
Qed.


End Turns.

End ServerFacts.

(** ** The pattern of DCC messages *)

Module PatternFacts.

Import Axdcc Pattern.

Lemma app_nil (s : string) : "" +:+ s = s.
Proof. reflexivity. Qed.
Lemma app_cons c (s t : string) : String c s +:+ t = String c (s +:+ t).
Proof. reflexivity. Qed.
Lemma app_assoc' (a b c : string) : (a +:+ b) +:+ c = a +:+ (b +:+ c).
Proof. induction a as [| x a IH]; [reflexivity |]. rewrite !app_cons, IH. reflexivity. Qed.
Lemma app_nil_r' (a : string) : a +:+ "" = a.
Proof. induction a as [| x a IH]; [reflexivity |]. rewrite app_cons, IH. reflexivity. Qed.


Lemma span_sound p s run tl :
  span p s = (run, tl) ->
  s = run +:+ tl /\ all_chars p run = true /\ stops p tl = true.
Proof.
  revert run tl. induction s as [| c s IH]; intros run tl H; cbn in H.
  - injection H as <- <-. auto.
  - destruct (p c) eqn:Hc.
    + destruct (span p s) as [r t]. injection H as <- <-.
      destruct (IH r t eq_refl) as (-> & Hr & Ht). cbn. rewrite Hc. auto.
    + injection H as <- <-. cbn. rewrite Hc. auto.
Qed.


Lemma strip_sound pre s r : strip pre s = Some r -> s = pre +:+ r.
Proof.
  revert s. induction pre as [| c pre IH]; intros s H; cbn in *.
  - destruct s; injection H as <-; reflexivity.
  - destruct s as [| b s]; [discriminate |].
    destruct (Ascii.eqb_spec c b) as [<- |]; [| discriminate].
    rewrite app_cons. f_equal. apply IH. exact H.
Qed.

(** Decimal digits: what [pretty] prints, [parseInt] reads back. *)
Lemma pretty_N_char_digit x :
  (x < 10)%N ->
  is_digit (pretty_N_char x) = true
  /\ Z.of_nat (nat_of_ascii (pretty_N_char x)) - 48 = Z.of_N x.
Proof.
  intros Hx.
  assert (x = 0 \/ x = 1 \/ x = 2 \/ x = 3 \/ x = 4 \/ x = 5 \/ x = 6
          \/ x = 7 \/ x = 8 \/ x = 9)%N as Hc by lia.
  repeat (destruct Hc as [-> | Hc]; [split; reflexivity |]).
  subst x. split; reflexivity.
Qed.

Lemma parse_digits_app acc a b :
  parse_digits acc (a +:+ b) = parse_digits (parse_digits acc a) b.
Proof.
  revert acc. induction a as [| c a IH]; intros acc; [reflexivity |].
  rewrite app_cons. cbn. apply IH.
Qed.

Lemma all_chars_app p a b :
  all_chars p (a +:+ b) = all_chars p a && all_chars p b.
Proof.
  induction a as [| c a IH]; [reflexivity |].
  rewrite app_cons. cbn. rewrite IH, andb_assoc. reflexivity.
Qed.

Lemma pretty_N_go_digits x : forall s,
  exists ds,
    pretty_N_go x s = ds +:+ s
    /\ all_chars is_digit ds = true
    /\ ((0 < x)%N -> ds <> "")
    /\ forall acc, parse_digits acc ds
                   = acc * 10 ^ Z.of_nat (String.length ds) + Z.of_N x.
Proof.
  induction (N.lt_wf_0 x) as [x _ IH]. intros s.
  destruct (decide (x = 0)%N) as [-> | Hx].
  - exists "". rewrite pretty_N_go_0. repeat split; try done; try lia.
    intros acc. cbn. lia.
  - assert (Hpos : (0 < x)%N) by lia.
    rewrite (pretty_N_go_step x s Hpos).
    destruct (IH (x `div` 10)%N (N.div_lt x 10 Hpos eq_refl)
                (String (pretty_N_char (x `mod` 10)) s))
      as (ds & Heq & Hds & _ & Hparse).
    destruct (pretty_N_char_digit (x `mod` 10)%N) as [Hd Hv].
    { apply N.mod_lt. lia. }
    exists (ds +:+ String (pretty_N_char (x `mod` 10)) "").
    split; [| split; [| split]].
    + rewrite Heq, app_assoc', app_cons, app_nil. reflexivity.
    + rewrite all_chars_app, Hds. cbn. rewrite Hd. reflexivity.
    + intros _. destruct ds; discriminate.
    + intros acc. rewrite parse_digits_app, Hparse. cbn [parse_digits].
      rewrite Hv.
      assert (Hlen : String.length (ds +:+ String (pretty_N_char (x `mod` 10)) "")
                     = S (String.length ds)).
      { clear. induction ds as [| c ds IHd]; [reflexivity |].
        rewrite app_cons. cbn. rewrite IHd. reflexivity. }
      rewrite Hlen, Nat2Z.inj_succ, Z.pow_succ_r by lia.
      pose proof (N.div_mod x 10 ltac:(lia)) as Hdm.
      rewrite N2Z.inj_div, N2Z.inj_mod in *.
      assert (Z.of_N x = 10 * (Z.of_N x / 10) + Z.of_N x mod 10).
      { apply Z.div_mod. lia. }
      change (Z.of_N 10) with 10. lia.
Qed.

Lemma pretty_digits (z : Z) :
  0 <= z ->
  pretty z <> "" /\ all_chars is_digit (pretty z) = true
  /\ parseInt (pretty z) = z.
Proof.
  intros Hz. destruct z as [| p | p]; [repeat split; done | | lia].
  unfold pretty, pretty_Z, pretty, pretty_positive, pretty, pretty_N.
  destruct (decide (N.pos p = 0)%N) as [E | _]; [discriminate E |].
  destruct (pretty_N_go_digits (N.pos p) "") as (ds & Heq & Hds & Hne & Hp).
  rewrite Heq, app_nil_r'. split; [apply Hne; lia |]. split; [exact Hds |].
  unfold parseInt. rewrite Hp. cbn. lia.
Qed.

Lemma digit_run_spec d :
  digit_run d = true <-> d <> "" /\ all_chars is_digit d = true.
Proof.
  unfold digit_run. rewrite andb_true_iff, negb_true_iff.
  split; intros [H1 H2]; (split; [| exact H2]).
  - intros ->. discriminate H1.
  - destruct d; [done | reflexivity].
Qed.


Lemma space_digits_sound s d tl :
  space_digits s = Some (d, tl) ->
  s = " " +:+ d +:+ tl /\ digit_run d = true /\ stops is_digit tl = true.
Proof.
  destruct s as [| c s]; [discriminate |]. cbn [space_digits].
  destruct (Ascii.eqb_spec c " ") as [-> |]; [| discriminate].
  destruct (span is_digit s) as [r t] eqn:E.
  apply span_sound in E as (-> & Hr & Ht).
  destruct r as [| x r]; [discriminate |].
  intros [= <- <-]. split; [reflexivity |]. split; [| exact Ht].
  apply digit_run_spec. split; [discriminate | exact Hr].
Qed.








Lemma stops_app p a b :
  a <> "" -> stops p (a +:+ b) = stops p a.
Proof. destruct a; [done | reflexivity]. Qed.







Ltac member :=
  repeat first [ apply list_elem_of_here | apply list_elem_of_further ].

Lemma parse_digits_nonneg d : forall acc,
  all_chars is_digit d = true -> 0 <= acc -> 0 <= parse_digits acc d.
Proof.
  induction d as [| c d IH]; intros acc Hd Hacc; [exact Hacc |].
  cbn in Hd. apply andb_prop in Hd as [Hc Hd]. cbn [parse_digits].
  apply IH; [exact Hd |].
  unfold is_digit in Hc. apply andb_prop in Hc as [Hlo _].
  apply Nat.leb_le in Hlo. lia.
Qed.

Lemma parseInt_nonneg d : digit_run d = true -> 0 <= parseInt d.
Proof.
  intros [_ Hd]%digit_run_spec. apply parse_digits_nonneg; [exact Hd | lia].
Qed.

Lemma optional_sound c s x :
  x ∈ optional c s -> x = s \/ s = String c x.
Proof.
  destruct s as [| c' s]; cbn [optional].
  - intros ->%list_elem_of_singleton. auto.
  - destruct (Ascii.eqb_spec c' c) as [-> |].
    + intros [-> | ->%list_elem_of_singleton]%elem_of_cons; auto.
    + intros ->%list_elem_of_singleton. auto.
Qed.

Lemma first_success_sound {A B} (f : A -> option B) l y :
  first_success f l = Some y -> exists x, x ∈ l /\ f x = Some y.
Proof.
  induction l as [| x l IH]; [discriminate |]. cbn.
  destruct (f x) as [y' |] eqn:E.
  - intros [= <-]. exists x. split; [apply list_elem_of_here | exact E].
  - intros H. destruct (IH H) as (x' & Hin & Hx').
    exists x'. split; [apply list_elem_of_further, Hin | exact Hx'].
Qed.

Lemma elem_of_concat_map {A B} (f : A -> list B) l x :
  x ∈ concat (map f l) -> exists y, y ∈ l /\ x ∈ f y.
Proof.
  induction l as [| a l IH]; cbn [map concat].
  - intros H. apply elem_of_nil in H. destruct H.
  - intros [H | H]%elem_of_app.
    + exists a. split; [apply list_elem_of_here | exact H].
    + destruct (IH H) as (y & Hy & Hx).
      exists y. split; [apply list_elem_of_further, Hy | exact Hx].
Qed.

(** What [numbers] has matched. *)
Lemma numbers_sound s a b c :
  numbers s = Some (a, b, c) ->
  exists d3 d4 post,
    s = " " +:+ d3 +:+ " " +:+ d4 +:+ post
    /\ digit_run d3 = true /\ digit_run d4 = true
    /\ a = parseInt d3 /\ b = parseInt d4
    /\ match c with
       | Some z =>
           exists d5 post',
             post = " " +:+ d5 +:+ post' /\ digit_run d5 = true
             /\ z = parseInt d5
       | None => space_digits post = None
       end.
Proof.
  unfold numbers.
  destruct (space_digits s) as [[g3 s1] |] eqn:E3; [| discriminate].
  destruct (space_digits s1) as [[g4 s2] |] eqn:E4; [| discriminate].
  apply space_digits_sound in E3 as (-> & H3 & _).
  apply space_digits_sound in E4 as (-> & H4 & _).
  intros [= <- <- <-]. exists g3, g4, s2.
  repeat split; try assumption.
  destruct (space_digits s2) as [[g5 s3] |] eqn:E5; [| reflexivity].
  apply space_digits_sound in E5 as (-> & H5 & _).
  exists g5, s3. auto.
Qed.

Lemma after_name_sound s g :
  after_name s = Some g ->
  exists q2 s', q2 ∈ trail_quotes /\ s = q2 +:+ s' /\ numbers s' = Some g.
Proof.
  unfold after_name. intros H.
  apply first_success_sound in H as (x & Hin & Hx).
  apply elem_of_concat_map in Hin as (y & Hy & Hxl).
  apply optional_sound in Hxl as [E1 | E1];
    apply optional_sound in Hy as [E2 | E2]; subst.
  - exists "", s. split; [unfold trail_quotes; member | auto].
  - exists (String squote ""), y.
    split; [unfold trail_quotes; member | auto].
  - exists (String dquote ""), x.
    split; [unfold trail_quotes; member | auto].
  - exists (String squote (String dquote "")), x.
    split; [unfold trail_quotes; member | auto].
Qed.

Lemma lazy_name_sound s : forall acc name g,
  lazy_name acc s = Some (name, g) ->
  exists n rest,
    n <> "" /\ all_chars is_dot n = true /\ name = acc +:+ n
    /\ s = n +:+ rest /\ after_name rest = Some g.
Proof.
  induction s as [| c s IH]; intros acc name g H; [discriminate |].
  cbn [lazy_name] in H. destruct (is_dot c) eqn:Hc; [| discriminate].
  destruct (after_name s) as [g' |] eqn:E.
  - injection H as <- <-. exists (String c ""), s.
    repeat split; try done. cbn. rewrite Hc. reflexivity.
  - apply IH in H as (n & rest & Hn & Hd & -> & -> & Ha).
    exists (String c n), rest. repeat split; try done.
    + cbn. rewrite Hc. exact Hd.
    + rewrite app_assoc'. reflexivity.
Qed.

Lemma match_here_sound s p :
  match_here s = Some p ->
  exists q1 q2 rest,
    s = "DCC " +:+ p_command p +:+ " " +:+ q1 +:+ p_filename p +:+ q2 +:+ rest
    /\ p_command p <> "" /\ all_chars is_word (p_command p) = true
    /\ q1 ∈ lead_quotes /\ q2 ∈ trail_quotes
    /\ p_filename p <> "" /\ all_chars is_dot (p_filename p) = true
    /\ numbers rest = Some (p_ip p, p_port p, p_size p).
Proof.
  unfold match_here.
  destruct (strip "DCC " s) as [s1 |] eqn:E1; [| discriminate].
  apply strip_sound in E1 as ->.
  destruct (span is_word s1) as [cmd s2] eqn:E2.
  apply span_sound in E2 as (-> & Hw & _).
  destruct cmd as [| c0 cmd]; [discriminate |].
  destruct (strip " " s2) as [s3 |] eqn:E3; [| discriminate].
  apply strip_sound in E3 as ->.
  intros H. apply first_success_sound in H as (x & Hin & Hx).
  destruct (lazy_name "" x) as [[name [[g3 g4] g5]] |] eqn:El; [| discriminate].
  injection Hx as <-. cbn [p_command p_filename p_ip p_port p_size].
  apply lazy_name_sound in El as (n & rest & Hn & Hd & -> & -> & Ha).
  apply after_name_sound in Ha as (q2 & s' & Hq2 & -> & Hnum).
  rewrite app_nil.
  assert (Hlead : exists q1, q1 ∈ lead_quotes
                             /\ s3 = q1 +:+ n +:+ q2 +:+ s').
  { apply elem_of_concat_map in Hin as (y & Hy & Hxl).
    apply optional_sound in Hxl as [E1 | E1];
      apply optional_sound in Hy as [E2 | E2]; subst.
    - exists "". split; [unfold lead_quotes; member | auto].
    - exists (String dquote "").
      split; [unfold lead_quotes; member | auto].
    - exists (String squote "").
      split; [unfold lead_quotes; member | auto].
    - exists (String dquote (String squote "")).
      split; [unfold lead_quotes; member | auto]. }
  destruct Hlead as (q1 & Hq1 & ->).
  exists q1, q2, s'. repeat split; done.
Qed.

Lemma dcc_match_position m : forall p,
  dcc_match m = Some p ->
  exists skipped body, m = skipped +:+ body /\ match_here body = Some p.
Proof.
  induction m as [| c m IH]; intros p H.
  - unfold dcc_match in H. destruct (match_here "") eqn:E; [| discriminate].
    injection H as <-. exists "", "". auto.
  - unfold dcc_match in H; fold dcc_match in H.
    destruct (match_here (String c m)) eqn:E.
    + injection H as <-. exists "", (String c m). auto.
    + apply IH in H as (sk & body & -> & Hb).
      exists (String c sk), body. auto.
Qed.


Lemma dcc_match_nonneg m p :
  dcc_match m = Some p ->
  0 <= p_ip p /\ 0 <= p_port p /\ forall z, p_size p = Some z -> 0 <= z.
Proof.
  intros H. apply dcc_match_position in H as (sk & body & -> & Hb).
  apply match_here_sound in Hb
    as (q1 & q2 & rest & -> & Hc & Hw & Hq1 & Hq2 & Hn & Hd & Hnum).
  apply numbers_sound in Hnum as (d3 & d4 & post & -> & H3 & H4 & E3 & E4 & H5).
  rewrite E3, E4. split; [apply parseInt_nonneg, H3 |].
  split; [apply parseInt_nonneg, H4 |].
  intros z Hz. rewrite Hz in H5. destruct H5 as (d5 & post' & _ & H5 & ->).
  apply parseInt_nonneg, H5.
Qed.

End PatternFacts.

(** ** The wire helpers, on every integer *)

Module WireFacts.

Import Axdcc PatternFacts.

(** X3. The download directory loses one trailing separator, slash or
    backslash, and no more: a path that ends in any other character is
    kept as it is, and of two trailing separators the first one stays. *)
Theorem X3_strip_trailing_sep_last s c :
  Wire.strip_trailing_sep (s +:+ String c "")
  = if Ascii.eqb c "/" || Ascii.eqb c "\" then s else s +:+ String c "".
Proof.
  induction s as [| x s IH].
  - rewrite app_nil. cbn. destruct (_ || _); reflexivity.
  - rewrite app_cons. cbn [Wire.strip_trailing_sep].
    destruct (s +:+ String c "") as [| y t] eqn:E.
    { destruct s; discriminate E. }
    rewrite IH. destruct (_ || _); reflexivity.
Qed.

Lemma ToInt32_periodic n : ToInt32 (n + 2 ^ 32) = ToInt32 n.
Proof.
  unfold ToInt32.
  replace (n + 2 ^ 32) with (n + 1 * 2 ^ 32) by lia.
  rewrite Z.mod_add by lia. reflexivity.
Qed.

Lemma js_and_255_range x : 0 <= js_and x 255 < 256.
Proof.
  unfold js_and. rewrite (ToInt32_small 255) by lia. rewrite land_255.
  pose proof (Z.mod_pos_bound (ToInt32 x) 256 ltac:(lia)) as Hb.
  rewrite ToInt32_small by lia. exact Hb.
Qed.

(** X4. For every integer, negative or beyond 32 bits, each of the four
    octets [_intToIP] prints lies between 0 and 255, and the address
    depends on the integer modulo 2^32 only. *)
Theorem X4_octets_any_integer n :
  Forall (fun o => 0 <= o < 256) (Wire.octets n)
  /\ Wire.octets (n + 2 ^ 32) = Wire.octets n
  /\ Wire._intToIP (n + 2 ^ 32) = Wire._intToIP n.
Proof.
  assert (H : Wire.octets (n + 2 ^ 32) = Wire.octets n).
  { unfold Wire.octets, js_sar, js_and. rewrite !ToInt32_periodic.
    reflexivity. }
  split; [| split; [exact H | unfold Wire._intToIP; rewrite H; reflexivity]].
  unfold Wire.octets. repeat constructor; apply js_and_255_range.
Qed.


End WireFacts.

(** ** The negotiation over CTCP *)

Module NegotiationFacts.

Import Axdcc AxdccFacts Pattern PatternFacts.
Import Negotiation.

Lemma count_app p a b : count p (a ++ b) = (count p a + count p b)%nat.
Proof. unfold count. rewrite List.filter_app, length_app. reflexivity. Qed.

Section Turns.

Variable args : Args.
Variable client_nick : string.
Variable path_join : string -> string -> string.

Abbreviation step := (Axdcc.step args client_nick path_join).
Abbreviation run := (Axdcc.run args client_nick path_join).
Abbreviation final := (Axdcc.final args client_nick path_join).
Abbreviation effects := (Axdcc.effects args client_nick path_join).
Abbreviation pack_of := (Negotiation.pack_of args path_join).
Abbreviation part_of := (Negotiation.part_of args path_join).
Abbreviation offered := (Negotiation.offered args path_join).

(** A CTCP message either passes the filter of the handler or has no
    effect. *)
Lemma ctcp_cases s sender target message fs :
  step s (CtcpPrivmsg sender target message fs) = (s, [])
  \/ (subscribed s = true /\ finished s = false /\ sender = nick args
      /\ target = client_nick /\ String.prefix "DCC " message = true).
Proof.
  destruct (subscribed s) eqn:Hsub; [| left; turn; rewrite Hsub; reflexivity].
  destruct (finished s) eqn:Hf;
    [left; turn; rewrite Hsub, Hf; reflexivity |].
  destruct (String.eqb_spec sender (nick args)) as [-> | Hs].
  - destruct (String.eqb_spec target client_nick) as [-> | Ht].
    + destruct (String.prefix "DCC " message) eqn:Hpre; [right; auto |].
      left. turn. rewrite Hsub, Hf, !String.eqb_refl, Hpre. reflexivity.
    + left. turn. apply String.eqb_neq in Ht.
      rewrite Hsub, Hf, String.eqb_refl, Ht. reflexivity.
  - left. turn. apply String.eqb_neq in Hs. rewrite Hsub, Hf, Hs. reflexivity.
Qed.

Lemma ctcp_malformed s message fs :
  finished s = false -> subscribed s = true ->
  String.prefix "DCC " message = true -> dcc_match message = None ->
  step s (CtcpPrivmsg (nick args) client_nick message fs)
  = (s, [Emit (dlerror None
                 (ErrText ("Invalid DCC message format: " +:+ message)))]).
Proof.
  intros Hf Hsub Hpre Hm. turn.
  rewrite Hsub, Hf, !String.eqb_refl, Hpre, Hm. reflexivity.
Qed.

Lemma ctcp_unknown s message fs params :
  finished s = false -> subscribed s = true ->
  String.prefix "DCC " message = true -> dcc_match message = Some params ->
  p_command params <> "SEND" -> p_command params <> "ACCEPT" ->
  step s (CtcpPrivmsg (nick args) client_nick message fs)
  = (s, [Emit (dlerror (Some (this_pack s))
                 (ErrText ("Unknown DCC command: " +:+ p_command params)))]).
Proof.
  intros Hf Hsub Hpre Hm Hs Ha. turn.
  rewrite Hsub, Hf, !String.eqb_refl, Hpre, Hm.
  apply String.eqb_neq in Hs, Ha. rewrite Hs, Ha. reflexivity.
Qed.

(** X5. A CTCP message has no effect at all, and leaves the request as it
    is, when the request has not started or is finished, when the
    message does not come from the bot, is not addressed to the client's
    nickname, or does not begin with DCC and a space. *)
Theorem X5_foreign_messages_ignored s sender target message fs :
  subscribed s = false \/ finished s = true
  \/ sender <> nick args \/ target <> client_nick
  \/ String.prefix "DCC " message = false ->
  step s (CtcpPrivmsg sender target message fs) = (s, []).
Proof.
  intros H. turn.
  destruct (subscribed s) eqn:Hsub; [| reflexivity].
  destruct (finished s) eqn:Hf; [reflexivity |].
  destruct H as [H | [H | [H | [H | H]]]]; try discriminate H.
  - apply String.eqb_neq in H. rewrite H. reflexivity.
  - apply String.eqb_neq in H. rewrite H, orb_true_r. reflexivity.
  - rewrite H, !orb_true_r. reflexivity.
Qed.

(** X6. A message of the bot that begins with DCC but does not match the
    pattern is answered with a [dlerror] that carries no pack and the
    text of the message; one that matches with a command other than SEND
    and ACCEPT with a [dlerror] for the current pack.  In both cases the
    request stays as it is: it is not killed and goes on listening. *)
Theorem X6_malformed_or_unknown_command s message fs :
  finished s = false -> subscribed s = true ->
  String.prefix "DCC " message = true ->
  (dcc_match message = None ->
   step s (CtcpPrivmsg (nick args) client_nick message fs)
   = (s, [Emit (dlerror None
                  (ErrText ("Invalid DCC message format: " +:+ message)))]))
  /\ (forall params,
        dcc_match message = Some params ->
        p_command params <> "SEND" -> p_command params <> "ACCEPT" ->
        step s (CtcpPrivmsg (nick args) client_nick message fs)
        = (s, [Emit (dlerror (Some (this_pack s))
                       (ErrText ("Unknown DCC command: "
                                 +:+ p_command params)))])).
Proof.
  intros Hf Hsub Hpre. split.
  - intros Hm. turn. rewrite Hsub, Hf, !String.eqb_refl, Hpre, Hm. reflexivity.
  - intros params Hm Hs Ha. turn.
    rewrite Hsub, Hf, !String.eqb_refl, Hpre, Hm.
    apply String.eqb_neq in Hs, Ha. rewrite Hs, Ha. reflexivity.
Qed.

Lemma send_turn_mkdir s params fs send_msg :
  finished s = false -> subscribed s = true ->
  String.prefix "DCC " send_msg = true ->
  dcc_match send_msg = Some params -> p_command params = "SEND" ->
  step s (CtcpPrivmsg (nick args) client_nick send_msg fs) =
    if dir_exists fs then
      (offered params s, [FsStat (part_of params)])
    else
      match mkdir_error fs with
      | None =>
          (offered params s,
           [MkdirSync (Wire.strip_trailing_sep (path args));
            FsStat (part_of params)])
      | Some msg =>
          (set_pack_info (length (heap s))
             (set_heap (heap s ++ [pack_of params]) s),
           [MkdirSync (Wire.strip_trailing_sep (path args));
            Emit (dlerror (Some (pack_of params))
                    (ErrText ("Failed to create directory: " +:+ msg)))])
      end.
Proof.
  intros Hf Hsub Hpre Hm Hc.
  turn. rewrite Hsub, Hf, !String.eqb_refl, Hpre, Hm, Hc.
  cbn [negb orb String.eqb Ascii.eqb Bool.eqb andb].
  unfold offered, part_of, pack_of, push_fsop, write_pack, alloc_pack,
    this_pack, read_pack.
  destruct (dir_exists fs); [| destruct (mkdir_error fs)]; cbn;
    rewrite ?lookup_snoc, ?insert_snoc; cbn;
    rewrite ?lookup_snoc, ?insert_snoc; reflexivity.
Qed.

Lemma offered_facts s params :
  fsops (offered params s) !! length (fsops s)
  = Some (StatPending (path_join (Wire.strip_trailing_sep (path args))
                         (p_filename params)))
  /\ pack_info (offered params s) = length (heap s)
  /\ heap (offered params s) !! length (heap s) = Some (pack_of params)
  /\ downloads (offered params s) = downloads s
  /\ finished (offered params s) = finished s
  /\ subscribed (offered params s) = subscribed s.
Proof.
  unfold offered. cbn. rewrite !lookup_snoc. repeat split; reflexivity.
Qed.


(** The same callback on an existing partial file, resume disabled: the
    file is unlinked first. *)
Lemma stat_turn_unlink s params size :
  resume args = false ->
  step (offered params s) (StatDone (length (fsops s)) (StatOk true size)) =
    (push_fsop UnlinkPending (finish_fsop (length (fsops s)) (offered params s)),
     [FsUnlink (part_of params)]).
Proof.
  intros Hres.
  destruct (offered_facts s params) as (Hop & _).
  turn. rewrite Hop, Hres. reflexivity.
Qed.

Lemma run_two s i j :
  (run s [i; j]).2 = [(step s i).2; (step (step s i).1 j).2]
  /\ final s [i; j] = (step (step s i).1 j).1.
Proof.
  unfold Axdcc.final. rewrite !run_cons. cbn [Axdcc.run fst snd]. auto.
Qed.



(** X9. With [resume] off, a SEND that finds a partial file unlinks it
    and opens nothing yet.  The write stream is created in the callback
    of a successful unlink; a failed unlink is reported as a [dlerror]
    with the pack, and no stream is created. *)
Theorem X9_no_resume_unlinks_first s params fs send_msg size :
  resume args = false ->
  finished s = false -> subscribed s = true -> dir_exists fs = true ->
  String.prefix "DCC " send_msg = true ->
  dcc_match send_msg = Some params -> p_command params = "SEND" ->
  let inputs :=
    [CtcpPrivmsg (nick args) client_nick send_msg fs;
     StatDone (length (fsops s)) (StatOk true size)] in
  let op := S (length (fsops s)) in
  (run s inputs).2 = [[FsStat (part_of params)]; [FsUnlink (part_of params)]]
  /\ downloads (final s inputs) = downloads s
  /\ (step (final s inputs) (UnlinkDone op None)).2
     = [CreateWriteStream (length (downloads s)) (part_of params)]
  /\ forall msg,
       step (final s inputs) (UnlinkDone op (Some msg))
       = (finish_fsop op (final s inputs),
          [Emit (dlerror (Some (pack_of params))
                   (ErrText ("Failed to delete partial file: " +:+ msg)))]).
Proof.
  intros Hres Hf Hsub Hdir Hpre Hm Hc inputs op.
  pose proof (send_turn_mkdir s params fs send_msg Hf Hsub Hpre Hm Hc) as H1.
  rewrite Hdir in H1.
  pose proof (stat_turn_unlink s params size Hres) as H2.
  destruct (run_two s (CtcpPrivmsg (nick args) client_nick send_msg fs)
              (StatDone (length (fsops s)) (StatOk true size))) as [Hrun Hfin].
  subst inputs. rewrite Hrun, Hfin, H1. cbn [fst snd]. rewrite H2.
  cbn [fst snd]. split; [reflexivity |]. split; [reflexivity |].
  set (s2 := push_fsop _ _).
  assert (Hop : fsops s2 !! op = Some UnlinkPending).
  { subst s2 op. unfold offered. cbn.
    rewrite insert_snoc.
    replace (S (length (fsops s))) with (length (fsops s ++ [OpDone]))
      by (rewrite length_app; cbn; lia).
    apply lookup_snoc. }
  assert (Hpk : this_pack s2 = pack_of params).
  { subst s2. unfold this_pack, read_pack, offered. cbn.
    rewrite lookup_snoc. reflexivity. }
  assert (Hf2 : finished s2 = false) by exact Hf.
  assert (Hpk' : read_pack (pack_info s2) (finish_fsop op s2)
                 = pack_of params) by exact Hpk.
  split.
  - turn. rewrite Hop. cbn [app fst snd pack_info finish_fsop set_fsops].
    change (finished (finish_fsop op s2)) with (finished s).
    rewrite Hf. cbn [app snd]. rewrite Hpk'. reflexivity.
  - intros msg. turn. rewrite Hop.
    change (this_pack (finish_fsop op s2)) with (this_pack s2).
    rewrite Hpk. reflexivity.
Qed.

(** X7. When the download directory does not exist, a SEND creates it
    before it looks for a partial file.  When the creation fails, the
    only other effect is a [dlerror] with the pack and the reason: no
    file system call is started, no download is opened, and the request
    is not killed. *)
Theorem X7_missing_directory_is_created s params fs send_msg :
  finished s = false -> subscribed s = true -> dir_exists fs = false ->
  String.prefix "DCC " send_msg = true ->
  dcc_match send_msg = Some params -> p_command params = "SEND" ->
  let turn := step s (CtcpPrivmsg (nick args) client_nick send_msg fs) in
  match mkdir_error fs with
  | None =>
      turn.2 = [MkdirSync (Wire.strip_trailing_sep (path args));
                FsStat (part_of params)]
  | Some msg =>
      turn.2 = [MkdirSync (Wire.strip_trailing_sep (path args));
                Emit (dlerror (Some (pack_of params))
                        (ErrText ("Failed to create directory: " +:+ msg)))]
      /\ fsops turn.1 = fsops s /\ downloads turn.1 = downloads s
      /\ finished turn.1 = false
  end.
Proof.
  intros Hf Hsub Hdir Hpre Hm Hc.
  pose proof (send_turn_mkdir s params fs send_msg Hf Hsub Hpre Hm Hc) as H1.
  rewrite Hdir in H1. cbv zeta. rewrite H1.
  destruct (mkdir_error fs) as [msg |]; [| reflexivity].
  cbn. auto.
Qed.

(** An ACCEPT, whatever the state: the three comparisons decide. *)
Lemma accept_step s reply fs accept_msg :
  finished s = false -> subscribed s = true ->
  String.prefix "DCC " accept_msg = true ->
  dcc_match accept_msg = Some reply -> p_command reply = "ACCEPT" ->
  step s (CtcpPrivmsg (nick args) client_nick accept_msg fs) =
    if js_str_eq (filename (this_pack s)) (p_filename reply)
       && js_strict_eq (port (this_pack s)) (JNum (p_port reply))
       && js_strict_eq (resumepos (this_pack s))
            (match p_size reply with Some z => JNum z | None => JNaN end)
    then
      (push_download (mkDownload (pack_info s) false JUndef JUndef false 0)
         (write_pack (pack_info s) (set_command (Some "ACCEPT")) s),
       [CreateWriteStream (length (downloads s))
          (tmpl_str (location (this_pack s)) +:+ ".part")])
    else
      (s, [Emit (dlerror (Some (this_pack s))
                   (ErrText "DCC ACCEPT parameters mismatch"))]).
Proof.
  intros Hf Hsub Hpre Hm Hc.
  turn. rewrite Hsub, Hf, !String.eqb_refl, Hpre, Hm, Hc.
  cbn [negb orb String.eqb Ascii.eqb Bool.eqb andb].
  destruct (js_str_eq _ _ && _ && _) eqn:E; [| reflexivity].
  cbn. rewrite Hf. cbn. f_equal. f_equal. f_equal. f_equal.
  apply andb_prop in E as [E _]. apply andb_prop in E as [E _].
  unfold this_pack, read_pack in *. cbn.
  destruct (heap s !! pack_info s) as [pk |] eqn:Hpk; [| discriminate E].
  rewrite list_lookup_insert_eq by (eapply lookup_lt_Some; exact Hpk).
  unfold read_pack. rewrite Hpk. reflexivity.
Qed.




Lemma effects_cons s i rest :
  effects s (i :: rest) = (step s i).2 ++ effects (step s i).1 rest.
Proof. unfold Axdcc.effects. rewrite run_cons. reflexivity. Qed.

Lemma request_text p : String.prefix "XDCC SEND " ("XDCC SEND " +:+ p) = true.
Proof. rewrite !app_cons, app_nil. destruct p; reflexivity. Qed.
Lemma request_not_cancel p :
  String.eqb ("XDCC SEND " +:+ p) "XDCC CANCEL" = false.
Proof. rewrite !app_cons, app_nil. reflexivity. Qed.

(** What one turn spends of each budget. *)
Lemma once_step s i :
  (count is_request (step s i).2 + Nat.b2n (start_armed (step s i).1)
   <= Nat.b2n (start_armed s))%nat
  /\ (count is_subscription (step s i).2 + Nat.b2n (start_armed (step s i).1)
      <= Nat.b2n (start_armed s))%nat
  /\ (count is_cancel (step s i).2 + Nat.b2n (cancel_armed (step s i).1)
      <= Nat.b2n (cancel_armed s))%nat
  /\ (count is_kill_timer (step s i).2
      + Nat.b2n (negb (finished (step s i).1))
      <= Nat.b2n (negb (finished s)))%nat.
Proof.
  destruct i; turn; crush; unfold count; cbn;
    rewrite ?request_not_cancel, ?request_text; cbn;
    repeat match goal with
      | H : ?x = _ |- context [?x] => rewrite H
      end; cbn; repeat split; lia.
Qed.

(** Over a run: what is spent never exceeds the budget at the start. *)
Lemma once_run inputs : forall s,
  (count is_request (effects s inputs) <= Nat.b2n (start_armed s))%nat
  /\ (count is_subscription (effects s inputs)
      <= Nat.b2n (start_armed s))%nat
  /\ (count is_cancel (effects s inputs) <= Nat.b2n (cancel_armed s))%nat
  /\ (count is_kill_timer (effects s inputs)
      <= Nat.b2n (negb (finished s)))%nat.
Proof.
  induction inputs as [| i rest IH]; intros s.
  - unfold Axdcc.effects, count. cbn. repeat split; lia.
  - rewrite effects_cons, !count_app.
    destruct (once_step s i) as (H1 & H2 & H3 & H4).
    destruct (IH (step s i).1) as (I1 & I2 & I3 & I4).
    repeat split; lia.
Qed.

(** X11. Whatever happens to a request, and in whatever order, it asks
    the bot for the pack at most once, subscribes to CTCP messages at
    most once, sends XDCC CANCEL at most once, and starts the timer of
    kill at most once. *)
Theorem X11_asked_subscribed_cancelled_killed_once inputs :
  (count is_request (effects new_request inputs) <= 1)%nat
  /\ (count is_subscription (effects new_request inputs) <= 1)%nat
  /\ (count is_cancel (effects new_request inputs) <= 1)%nat
  /\ (count is_kill_timer (effects new_request inputs) <= 1)%nat.
Proof.
  destruct (once_run inputs new_request) as (H1 & H2 & H3 & H4).
  cbn in *. auto.
Qed.


End Turns.

End NegotiationFacts.

(** ** What every reachable state satisfies *)

Module ReachFacts.

Import Axdcc AxdccFacts Pattern PatternFacts.
Import Negotiation NegotiationFacts Reach.

Lemma wf_new : wf new_request.
Proof.
  repeat split.
  - destruct d; discriminate H.
  - destruct d; discriminate H.
  - destruct d; discriminate H.
  - intros p pk H. destruct p as [| p]; cbn in H; [| destruct p; discriminate H].
    injection H as <-. right. reflexivity.
  - intros _ (op & o & H & _). destruct op; discriminate H.
  - discriminate.
Qed.

Lemma keeps_set_command v : keeps_proper (set_command v).
Proof. intros pk. split; [| reflexivity]. unfold proper. cbn. auto. Qed.

Lemma keeps_set_resumepos z : 0 <= z -> keeps_proper (set_resumepos (JNum z)).
Proof.
  intros Hz pk. split; [| reflexivity]. unfold proper. cbn.
  destruct (filename pk), (ip pk), (location pk); try done.
  intros H. apply andb_prop in H as [H _]. rewrite H. cbn.
  apply Z.leb_le. exact Hz.
Qed.

(** Reading a pack after the heap grew or a pack was updated in place. *)
Lemma read_after_append (h : list Pack) x (q : nat) :
  proper (default empty_object (h !! q)) = true ->
  default empty_object ((h ++ [x]) !! q) = default empty_object (h !! q).
Proof.
  destruct (h !! q) as [pk |] eqn:E; [| discriminate].
  intros _. rewrite (lookup_app_l_Some _ _ _ _ E). reflexivity.
Qed.

Lemma proper_after_insert (h : list Pack) (p : nat) f (q : nat) :
  keeps_proper f ->
  proper (default empty_object (h !! q)) = true ->
  proper (default empty_object
            (<[p := f (default empty_object (h !! p))]> h !! q)) = true.
Proof.
  intros Hf Hq.
  destruct (h !! q) as [pk |] eqn:E; [| discriminate].
  destruct (decide (p = q)) as [-> | Hne].
  - rewrite list_lookup_insert_eq by (eapply lookup_lt_Some; exact E).
    rewrite E. cbn in *. apply Hf. exact Hq.
  - rewrite list_lookup_insert_ne by assumption. rewrite E. exact Hq.
Qed.

Lemma downloads_ok_insert h dls (d : nat) dl' :
  downloads_ok h dls -> download_ok h dl' ->
  downloads_ok h (<[d := dl']> dls).
Proof.
  intros Hall Hnew d0 x Hx.
  apply list_lookup_insert_Some in Hx as [(_ & <- & _) | (_ & Hx)];
    [exact Hnew | exact (Hall d0 x Hx)].
Qed.

Lemma downloads_ok_push h dls dl' :
  downloads_ok h dls -> download_ok h dl' -> downloads_ok h (dls ++ [dl']).
Proof.
  intros Hall Hnew d0 x Hx.
  apply lookup_app_Some in Hx as [Hx | [_ Hx]]; [exact (Hall d0 x Hx) |].
  apply list_lookup_singleton_Some in Hx as [_ <-]. exact Hnew.
Qed.

Lemma download_ok_append h x dl :
  download_ok h dl -> download_ok (h ++ [x]) dl.
Proof.
  intros [Hp Hc]. split; [| exact Hc].
  rewrite read_after_append; assumption.
Qed.

Lemma downloads_ok_append h x dls :
  downloads_ok h dls -> downloads_ok (h ++ [x]) dls.
Proof. intros H d dl Hd. apply download_ok_append. exact (H d dl Hd). Qed.

Lemma download_ok_update h (p : nat) f dl :
  keeps_proper f -> download_ok h dl ->
  download_ok (<[p := f (default empty_object (h !! p))]> h) dl.
Proof.
  intros Hf [Hp Hc]. split; [| exact Hc].
  apply proper_after_insert; assumption.
Qed.

Lemma downloads_ok_update h (p : nat) f dls :
  keeps_proper f -> downloads_ok h dls ->
  downloads_ok (<[p := f (default empty_object (h !! p))]> h) dls.
Proof.
  intros Hf H d dl Hd. apply download_ok_update; [exact Hf |].
  exact (H d dl Hd).
Qed.

Lemma heap_ok_append h x :
  heap_ok h -> proper x = true \/ filename x = None -> heap_ok (h ++ [x]).
Proof.
  intros H Hx p pk Hp.
  apply lookup_app_Some in Hp as [Hp | [_ Hp]]; [exact (H p pk Hp) |].
  apply list_lookup_singleton_Some in Hp as [_ <-]. exact Hx.
Qed.

Lemma heap_ok_update h (p : nat) f :
  keeps_proper f -> heap_ok h ->
  heap_ok (<[p := f (default empty_object (h !! p))]> h).
Proof.
  intros Hf H q pk Hq.
  apply list_lookup_insert_Some in Hq as [(-> & <- & Hlt) | (_ & Hq)];
    [| exact (H q pk Hq)].
  destruct (lookup_lt_is_Some_2 h q Hlt) as [old Hold].
  rewrite Hold. cbn. destruct (Hf old) as [Hk Hn].
  destruct (H q old Hold) as [Hp | Hnone]; [left; auto |].
  right. rewrite Hn. exact Hnone.
Qed.

Lemma fs_pending_finish ops (op : nat) :
  fs_pending (<[op := OpDone]> ops) -> fs_pending ops.
Proof.
  intros (k & o & Hk & Ho).
  apply list_lookup_insert_Some in Hk as [(_ & <- & _) | (_ & Hk)];
    [done | exists k, o; auto].
Qed.

Lemma fs_pending_here ops (op : nat) o :
  ops !! op = Some o -> o <> OpDone -> fs_pending ops.
Proof. intros H Ho. exists op, o. auto. Qed.

Lemma download_ok_same h dl dl' :
  download_ok h dl -> d_pack dl' = d_pack dl ->
  (d_open dl' = true ->
   d_open dl = true /\ received dl' = received dl /\ ack dl' = ack dl) ->
  download_ok h dl'.
Proof.
  intros [Hp Hc] Hpk Hsame. split; [rewrite Hpk; exact Hp |].
  intros Ho. destruct (Hsame Ho) as (Ho' & -> & ->). exact (Hc Ho').
Qed.

Lemma proper_fields pk :
  proper pk = true ->
  nonneg (port pk) = true /\ nonneg (filesize pk) = true
  /\ nonneg (resumepos pk) = true
  /\ filename pk <> None /\ ip pk <> None /\ location pk <> None.
Proof.
  unfold proper.
  destruct (filename pk), (ip pk), (location pk); try discriminate.
  intros H. apply andb_prop in H as [H Hr]. apply andb_prop in H as [Hpt Hsz].
  repeat split; done.
Qed.

Lemma nonneg_add v n : nonneg v = true -> 0 <= n -> nonneg (js_add v n) = true.
Proof.
  destruct v as [| | z]; try discriminate. cbn. intros Hz%Z.leb_le Hn.
  apply Z.leb_le. lia.
Qed.

Lemma ack_in_range v n :
  nonneg v = true -> 0 <= n ->
  nonneg (Wire.ack_loop (js_add v n)) = true
  /\ exists b, Wire.writeUInt32BE (Wire.ack_loop (js_add v n)) = Some b.
Proof.
  destruct v as [| | z]; try discriminate. cbn [nonneg js_add Wire.ack_loop].
  intros Hz%Z.leb_le Hn.
  rewrite ack_wrap_mod by lia.
  pose proof (Z.mod_pos_bound (z + n) (2 ^ 32) ltac:(lia)) as Hb.
  split; [apply Z.leb_le; lia |].
  destruct (write_read_UInt32BE ((z + n) mod 2 ^ 32)) as (b & Hw & _).
  { unfold Wire.ACK_MAX. lia. }
  exists b. exact Hw.
Qed.

Ltac keeps :=
  first [ apply keeps_set_command
        | apply keeps_set_resumepos; lia ].

Ltac dls_solve :=
  first
    [ assumption
    | apply downloads_ok_append; dls_solve
    | apply downloads_ok_update; [keeps | dls_solve]
    | apply downloads_ok_insert; [dls_solve | dl_solve]
    | apply downloads_ok_push; [dls_solve | dl_solve] ]
with dl_solve :=
  match goal with
  | H : ?l !! ?d = Some ?dl |- download_ok ?h _ =>
      apply (download_ok_same h dl); [| reflexivity | cbn; solve [auto]];
      let Hall := fresh in
      assert (Hall : downloads_ok h l) by dls_solve; exact (Hall d dl H)
  end.

Ltac heap_solve :=
  repeat first
    [ assumption
    | apply heap_ok_update; [keeps |]
    | apply heap_ok_append;
      [| try (left; reflexivity); try (right; reflexivity)] ].

Ltac parts :=
  unfold wf;
  cbn [finished grace_pending pack_info heap downloads fsops
       set_finished set_handlerBound set_subscribed set_intervalId
       set_pack_info set_heap set_downloads set_fsops set_start_armed
       set_cancel_armed set_listeners set_grace_pending
       write_download push_download alloc_pack write_pack push_fsop
       finish_fsop read_pack this_pack].

Ltac wf_parts :=
  parts; (split; [| split; [| split]]);
  [ try solve [dls_solve]
  | try solve [heap_solve]
  | try solve [assumption | discriminate | auto | intros; congruence]
  | try solve [assumption | discriminate | auto | intros; congruence] ].

(** The pack that the callback of a pending [fs] call will read. *)
Ltac proper_now :=
  match goal with
  | Hp : _ -> fs_pending (fsops ?s) -> proper _ = true,
    H : fsops ?s !! ?op = Some ?o
    |- proper (default empty_object (heap ?s !! pack_info ?s)) = true =>
      apply Hp;
      [ first [reflexivity | assumption]
      | exact (fs_pending_here _ op o H ltac:(discriminate)) ]
  end.

Ltac fs_finish :=
  first
    [ intros ? _; proper_now
    | intros ? _; apply proper_after_insert; [keeps | proper_now]
    | match goal with
      | Hg : grace_pending _ = true -> _ |- grace_pending _ = true -> _ =>
          let Hx := fresh in intros Hx; specialize (Hg Hx); congruence
      end
    | apply downloads_ok_push;
      [assumption
      | split; cbn [d_pack d_open]; [proper_now | intros; discriminate]] ].

Section Turns.

Variable args : Args.
Variable client_nick : string.
Variable path_join : string -> string -> string.

Abbreviation step := (Axdcc.step args client_nick path_join).
Abbreviation run := (Axdcc.run args client_nick path_join).
Abbreviation final := (Axdcc.final args client_nick path_join).
Abbreviation effects := (Axdcc.effects args client_nick path_join).

Lemma fs_callbacks_ok s op r err :
  wf s -> sane (StatDone op r) = true ->
  (wf (step s (StatDone op r)).1 /\ sound (step s (StatDone op r)).2)
  /\ (wf (step s (UnlinkDone op err)).1
      /\ sound (step s (UnlinkDone op err)).2).
Proof.
  intros (Hd & Hh & Hp & Hg) Hi. split.
  - turn; crush; (split; [wf_parts | repeat constructor]); fs_finish.
  - turn; crush; (split; [wf_parts | repeat constructor]); fs_finish.
Qed.

Lemma open_download s d dl :
  downloads_ok (heap s) (downloads s) -> downloads s !! d = Some dl ->
  proper (read_pack (d_pack dl) s) = true
  /\ (d_open dl = true ->
      nonneg (received dl) = true /\ nonneg (ack dl) = true).
Proof. intros Hd H. exact (Hd d dl H). Qed.

Lemma channel_ok s i :
  wf s ->
  match i with
  | Start | Cancel | Kill | StreamOpen _ | StreamError _ _ | Connected _
  | Data _ _ | End _ | RenameDone _ _ | ConnError _ _ | ConnTimeout _
  | Tick _ | GraceTimeout => True
  | _ => False
  end ->
  wf (step s i).1 /\ sound (step s i).2.
Proof.
  intros (Hd & Hh & Hp & Hg) Hi.
  destruct i; try (destruct Hi);
    turn; crush; (split; [wf_parts | repeat constructor]);
    try match goal with
      | Hg : grace_pending _ = true -> _ |- grace_pending _ = true -> _ =>
          let Hx := fresh in intros Hx; specialize (Hg Hx); congruence
      | Hg : true = true -> finished ?s = true |- finished ?s = false -> _ =>
          let Hx := fresh in
          intros Hx; rewrite (Hg eq_refl) in Hx; discriminate
      end;
    match goal with
    | H : downloads s !! _ = Some _ |- _ =>
        destruct (open_download s _ _ Hd H) as [Hpk Hc];
        destruct (proper_fields _ Hpk) as (Hport & _ & Hres & _ & Hip & _)
    end.
  - apply downloads_ok_insert; [assumption |].
    split; [exact Hpk | intros _; cbn; auto].
  - cbn. rewrite Hport. cbn. apply bool_decide_eq_true. exact Hip.
  - apply downloads_ok_insert; [assumption |].
    destruct (Hc ltac:(assumption)) as [Hr Ha].
    split; [exact Hpk | intros _; cbn].
    split; [apply nonneg_add; [exact Hr | lia] |].
    apply ack_in_range; [exact Ha | lia].
  - apply downloads_ok_insert; [assumption |].
    destruct (Hc ltac:(assumption)) as [Hr Ha].
    split; [exact Hpk | intros _; cbn].
    split; [apply nonneg_add; [exact Hr | lia] |].
    apply ack_in_range; [exact Ha | lia].
  - destruct (Hc ltac:(assumption)) as [Hr Ha].
    destruct (ack_in_range (ack d0) (Z.of_nat (length data)) Ha ltac:(lia))
      as [_ [b Hb]].
    congruence.
Qed.

Lemma proper_pack_of params :
  0 <= p_port params ->
  (forall z, p_size params = Some z -> 0 <= z) ->
  proper (pack_of args path_join params) = true.
Proof.
  intros Hport Hsize. unfold proper, pack_of. cbn.
  rewrite andb_true_r. apply andb_true_intro. split; apply Z.leb_le.
  - exact Hport.
  - destruct (p_size params) as [z |]; [apply Hsize; reflexivity | lia].
Qed.

Lemma ctcp_ok s sender target message fs :
  wf s ->
  wf (step s (CtcpPrivmsg sender target message fs)).1
  /\ sound (step s (CtcpPrivmsg sender target message fs)).2.
Proof.
  intros Hwf.
  destruct (ctcp_cases args client_nick path_join s sender target message fs)
    as [Hnone | (Hsub & Hf & -> & -> & Hpre)];
    [rewrite Hnone; split; [exact Hwf | constructor] |].
  destruct (dcc_match message) as [params |] eqn:Hm;
    [| rewrite (ctcp_malformed args client_nick path_join s message fs
                  Hf Hsub Hpre Hm);
       split; [exact Hwf | repeat constructor]].
  destruct (String.eqb_spec (p_command params) "SEND") as [Hc | Hns].
  - (* SEND *)
    destruct (dcc_match_nonneg _ _ Hm) as (_ & Hport & Hsz).
    assert (Hproper : proper (pack_of args path_join params) = true)
      by (apply proper_pack_of; assumption).
    rewrite (send_turn_mkdir args client_nick path_join s params fs message
               Hf Hsub Hpre Hm Hc).
    destruct Hwf as (Hd & Hh & Hp & Hg).
    destruct (dir_exists fs); [| destruct (mkdir_error fs)]; cbn [fst snd];
      (split; [| repeat constructor]); unfold offered;
      parts; (split; [| split; [| split]]);
      try solve [dls_solve];
      try (apply heap_ok_append; [assumption | left; exact Hproper]);
      try (intros _ _; rewrite lookup_snoc; exact Hproper);
      try (intros Hx; specialize (Hg Hx); congruence).
  - destruct (String.eqb_spec (p_command params) "ACCEPT") as [Hc | Hna];
      [| rewrite (ctcp_unknown args client_nick path_join s message fs params
                    Hf Hsub Hpre Hm Hns Hna);
         split; [exact Hwf | repeat constructor]].
    rewrite (accept_step args client_nick path_join s params fs message
               Hf Hsub Hpre Hm Hc).
    destruct (js_str_eq _ _ && _ && _) eqn:E;
      [| split; [exact Hwf | repeat constructor]].
    destruct Hwf as (Hd & Hh & Hp & Hg).
    apply andb_prop in E as [E _]. apply andb_prop in E as [E _].
    assert (Hproper : proper (default empty_object (heap s !! pack_info s))
                      = true).
    { unfold this_pack, read_pack in E.
      destruct (heap s !! pack_info s) as [pk |] eqn:Hpk; [| discriminate E].
      destruct (Hh _ _ Hpk) as [Hok | Hnone]; [exact Hok |].
      cbn in E. rewrite Hnone in E. discriminate E. }
    cbn [fst snd]. split; [| repeat constructor].
    parts. split; [| split; [| split]].
    + apply downloads_ok_push; [dls_solve |].
      split; cbn [d_pack d_open]; [| intros; discriminate].
      apply proper_after_insert; [keeps | exact Hproper].
    + heap_solve.
    + intros _ _. apply proper_after_insert; [keeps | exact Hproper].
    + exact Hg.
Qed.

(** One turn keeps the invariant and shows nothing undefined. *)
Lemma step_ok s i :
  wf s -> sane i = true -> wf (step s i).1 /\ sound (step s i).2.
Proof.
  intros Hwf Hi. destruct i;
    try (apply channel_ok; [exact Hwf | exact I]).
  - apply ctcp_ok. exact Hwf.
  - apply (fs_callbacks_ok s op r None Hwf Hi).
  - apply (fs_callbacks_ok s op StatErr err Hwf eq_refl).
Qed.

Lemma run_ok inputs : forall s,
  wf s -> Forall (fun i => sane i = true) inputs ->
  wf (final s inputs) /\ sound (effects s inputs).
Proof.
  induction inputs as [| i rest IH]; intros s Hwf Hsane.
  - split; [exact Hwf | constructor].
  - apply Forall_cons in Hsane as [Hi Hrest].
    destruct (step_ok s i Hwf Hi) as [Hwf1 Hs1].
    destruct (IH _ Hwf1 Hrest) as [Hwf2 Hs2].
    rewrite final_cons, (effects_cons args client_nick path_join).
    split; [exact Hwf2 | apply Forall_app; split; assumption].
Qed.

Lemma nonneg_number v : nonneg v = true -> exists z, v = JNum z /\ 0 <= z.
Proof.
  destruct v as [| | z]; try discriminate. intros H%Z.leb_le. eauto.
Qed.


(** X14. In every state a request reaches, a rename happens only at the
    close of a data connection whose count of received octets is a
    number equal to the announced size, and it moves the partial file of
    a defined location onto that location: never a file of an undefined
    name. *)
Theorem X14_rename_when_sizes_agree inputs i from to :
  Forall (fun i => sane i = true) inputs ->
  FsRename from to ∈ (step (final new_request inputs) i).2 ->
  exists d dl n loc,
    i = End d
    /\ downloads (final new_request inputs) !! d = Some dl
    /\ received dl = JNum n
    /\ filesize (read_pack (d_pack dl) (final new_request inputs)) = JNum n
    /\ location (read_pack (d_pack dl) (final new_request inputs)) = Some loc
    /\ from = loc +:+ ".part" /\ to = loc.
Proof.
  intros Hsane Hin.
  destruct (run_ok inputs new_request wf_new Hsane) as [(Hd & _) _].
  apply rename_only_from_end in Hin
    as (d & dl & -> & Hdl & Ho & Heq & -> & ->).
  destruct (Hd d dl Hdl) as [Hpk Hc]. destruct (Hc Ho) as [Hr _].
  apply nonneg_number in Hr as (n & Hr & _).
  apply proper_fields in Hpk as (_ & Hsz & _ & _ & _ & Hloc).
  apply nonneg_number in Hsz as (m & Hsz & _).
  unfold read_pack in *.
  rewrite Hr, Hsz in Heq. cbn in Heq. apply Z.eqb_eq in Heq as ->.
  destruct (location _) as [loc |] eqn:El; [| done].
  exists d, dl, m, loc. repeat split; try done.
Qed.

End Turns.

End ReachFacts.

(** ** The front-end: sockets, requests and trackers *)

Module FrontFacts.

Import Server ServerFacts Pattern PatternFacts Front.

Lemma write_ok_same s s' o :
  sockets s' = sockets s -> write_ok s' o -> write_ok s o.
Proof. intros H. destruct o; cbn; auto. unfold usable. rewrite H. auto. Qed.

Lemma ks_wu {A} (m : M A) : keeps_sockets m -> writes_usable m.
Proof. intros H s. apply H. Qed.

Lemma ks_bind {A B} (m : M A) (f : A -> M B) :
  keeps_sockets m -> (forall x, keeps_sockets (f x)) ->
  keeps_sockets (m ≫= f).
Proof.
  intros Hm Hf s. unfold mbind, Turn_bind.
  destruct (Hm s) as [Hs1 Ho1]. destruct (m s) as [[x s1] a1]. cbn in *.
  destruct (Hf x s1) as [Hs2 Ho2]. destruct (f x s1) as [[y s2] a2]. cbn in *.
  split; [congruence |]. apply Forall_app. split; [exact Ho1 |].
  eapply Forall_impl; [exact Ho2 |]. intros o. apply write_ok_same, Hs1.
Qed.

Lemma wu_bind {A B} (m : M A) (f : A -> M B) :
  keeps_sockets m -> (forall x, writes_usable (f x)) ->
  writes_usable (m ≫= f).
Proof.
  intros Hm Hf s. unfold mbind, Turn_bind.
  destruct (Hm s) as [Hs1 Ho1]. destruct (m s) as [[x s1] a1]. cbn in *.
  specialize (Hf x s1). destruct (f x s1) as [[y s2] a2]. cbn in *.
  apply Forall_app. split; [exact Ho1 |].
  eapply Forall_impl; [exact Hf |]. intros o. apply write_ok_same, Hs1.
Qed.

Lemma ks_ret {A} (x : A) : keeps_sockets (mret x : M A).
Proof. intros s. split; [reflexivity | constructor]. Qed.

Lemma ks_done : keeps_sockets (done_ : M unit).
Proof. apply ks_ret. Qed.

Lemma ks_get {A} (f : State -> A) : keeps_sockets (get f : M A).
Proof. intros s. split; [reflexivity | constructor]. Qed.

Lemma ks_put (f : State -> State) :
  (forall s, sockets (f s) = sockets s) -> keeps_sockets (put f : M unit).
Proof. intros H s. split; [apply H | constructor]. Qed.

Lemma wu_put (f : State -> State) : writes_usable (put f : M unit).
Proof. intros s. constructor. Qed.

Lemma ks_act (o : Output) :
  (forall k e, o <> SocketWrite k e) -> keeps_sockets (act o : M unit).
Proof.
  intros H s. split; [reflexivity |]. repeat constructor.
  destruct o; cbn; auto. destruct (H sock data eq_refl).
Qed.

Lemma ks_outputs (outs : list Output) :
  (forall k e, SocketWrite k e ∉ outs) ->
  keeps_sockets ((fun s => (tt, s, outs)) : M unit).
Proof.
  intros H s. split; [reflexivity |]. cbn. apply Forall_forall.
  intros o Ho. destruct o; cbn; auto. destruct (H _ _ Ho).
Qed.

Section Sockets.

Variable env : gmap string string.
Variable irc_nick : string.
Variable PROGRESS_INTERVAL : Z.
Variable percent_of : jsnum -> jsnum -> jsnum.
Variable formatSize : jsnum -> string.
Variable JSON_stringify : Axdcc.ErrValue -> string.
Variable path_join : string -> string -> string.

Lemma ks_write_callback t id : keeps_sockets (write_callback t id).
Proof.
  unfold write_callback. apply ks_bind; [apply ks_act; discriminate |].
  intros _. apply ks_put. reflexivity.
Qed.

Lemma ks_safeSocketWrite sock data cb :
  keeps_sockets (safeSocketWrite sock data cb).
Proof.
  unfold safeSocketWrite. intros s.
  unfold mbind, Turn_bind, get.
  destruct sock as [k |]; [destruct (sockets s !! k) as [ss |] eqn:Hk |];
    [destruct (negb (destroyed ss) && writable ss) eqn:Hu |..];
    try (destruct cb as [[t id] |];
         [apply (ks_bind (get sockets) (fun _ => write_callback t id));
          [apply ks_get | intros; apply ks_write_callback]
         | split; [reflexivity | constructor]]).
  destruct cb as [[t id] |]; cbn; (split; [reflexivity |]);
    repeat constructor; cbn; unfold usable; rewrite Hk; exact Hu.
Qed.

Lemma ks_xdcc_progress pk received :
  keeps_sockets (xdcc_progress env percent_of formatSize pk received).
Proof.
  unfold xdcc_progress. apply ks_bind.
  - apply ks_outputs. intros k e Hin.
    assert (H : written k (logger_progress env
                  (tmpl_num (percent_of received (Axdcc.filesize pk))
                   +:+ "% of " +:+ tmpl_str (Axdcc.filename pk) +:+ " ("
                   +:+ formatSize received +:+ "/"
                   +:+ formatSize (Axdcc.filesize pk) +:+ ")")) = [])
      by apply written_logger.
    apply list_elem_of_split in Hin as (l1 & l2 & Hl). rewrite Hl in H.
    rewrite written_app in H. cbn in H. rewrite Nat.eqb_refl in H.
    destruct (written k l1); discriminate H.
  - intros _. apply ks_bind; [apply ks_get |].
    intros [[t [[sock |] pn sp st rq]] |]; try apply ks_done.
    apply ks_safeSocketWrite.
Qed.

Lemma ks_xdcc_complete pk : keeps_sockets (xdcc_complete pk).
Proof.
  unfold xdcc_complete. apply ks_bind; [apply ks_get |].
  intros [[t [[sock |] pn sp st rq]] |];
    try (apply ks_put; reflexivity).
  apply ks_safeSocketWrite.
Qed.

Lemma ks_xdcc_error pk err :
  keeps_sockets (xdcc_error JSON_stringify pk err).
Proof.
  unfold xdcc_error. apply ks_bind; [apply ks_get |].
  intros [[t [[sock |] pn sp st rq]] |];
    try (destruct (negb _); [apply ks_put; reflexivity | apply ks_done]).
  apply ks_safeSocketWrite.
Qed.

Lemma ks_on_connect now r pk : keeps_sockets (on_connect now r pk).
Proof.
  unfold on_connect. apply ks_bind; [apply ks_get |].
  intros ts. destruct (ts !! r) as [[a st l] |]; [| apply ks_done].
  destruct (connect_armed l); [| apply ks_done].
  apply ks_bind; [apply ks_put; reflexivity |].
  intros _. apply ks_put. reflexivity.
Qed.

Lemma ks_on_event now r e :
  keeps_sockets (on_event env percent_of formatSize JSON_stringify now r e).
Proof.
  destruct e; cbn [on_event].
  - apply ks_on_connect.
  - apply ks_xdcc_progress.
  - apply ks_xdcc_complete.
  - apply ks_xdcc_error.
Qed.

Lemma ks_relay now r attached acts :
  keeps_sockets
    (relay env percent_of formatSize JSON_stringify now r attached acts).
Proof.
  induction acts as [| a acts IH]; cbn [relay]; [apply ks_done |].
  apply ks_bind; [apply ks_act; discriminate |]. intros _.
  apply ks_bind; [| intros _; exact IH].
  destruct a; try apply ks_done.
  destruct attached; [apply ks_on_event | apply ks_done].
Qed.

Lemma ks_transfer_turn now r i :
  keeps_sockets
    (transfer_turn env irc_nick percent_of formatSize JSON_stringify
       path_join now r i).
Proof.
  unfold transfer_turn. apply ks_bind; [apply ks_get |].
  intros ts. destruct (ts !! r) as [[a st l] |]; [| apply ks_done].
  destruct (Axdcc.step a irc_nick path_join st i) as [st' acts].
  apply ks_bind; [apply ks_put; reflexivity |].
  intros _. apply ks_relay.
Qed.

Lemma wu_safeSocketEnd sock : writes_usable (safeSocketEnd sock).
Proof.
  unfold safeSocketEnd. intros s. unfold mbind, Turn_bind, get.
  destruct sock as [k |]; [destruct (sockets s !! k) as [ss |] |];
    [destruct (negb (destroyed ss)) |..]; cbn; repeat constructor.
Qed.

Lemma wu_on_request now sock req :
  writes_usable
    (on_request env irc_nick PROGRESS_INTERVAL percent_of formatSize
       JSON_stringify path_join now sock req).
Proof.
  unfold on_request.
  destruct (bot_name req) as [bn |], (pack_number req) as [pn |];
    try (apply wu_bind; [apply ks_safeSocketWrite |];
         intros _; apply wu_safeSocketEnd).
  destruct (String.eqb bn "" || String.eqb pn "").
  - apply wu_bind; [apply ks_safeSocketWrite |].
    intros _. apply wu_safeSocketEnd.
  - apply wu_bind; [apply ks_safeSocketWrite |]. intros _.
    apply wu_bind; [apply ks_get |]. intros r.
    apply wu_bind; [apply ks_put; reflexivity |]. intros _.
    apply wu_bind; [apply ks_transfer_turn |]. intros _.
    apply wu_put.
Qed.

Abbreviation step :=
  (Server.step env irc_nick PROGRESS_INTERVAL percent_of formatSize
     JSON_stringify path_join).

(** X15. Whatever the input of a turn, the server writes an envelope only
    to a socket that exists, is not destroyed and is writable when the
    turn begins. *)
Theorem X15_writes_only_to_usable_sockets s ti k e :
  SocketWrite k e ∈ (step s ti).2 -> usable s k = true.
Proof.
  intros Hin.
  assert (Hall : Forall (write_ok s) (step s ti).2).
  { destruct ti as [now i]. unfold Server.step, exec. cbn [fst snd].
    assert (Hwu : writes_usable
                    (dispatch env irc_nick PROGRESS_INTERVAL percent_of
                       formatSize JSON_stringify path_join now i)).
    { destruct i; cbn [dispatch].
      - apply wu_put.
      - apply wu_on_request.
      - apply ks_wu, ks_transfer_turn.
      - apply wu_bind; [apply ks_get |]. intros ps.
        destruct (ps !! k0) as [[t id | t id |] |];
          try apply ks_wu, ks_done.
        apply wu_bind; [apply ks_put; reflexivity |].
        intros _. apply ks_wu, ks_write_callback.
      - apply wu_bind; [apply ks_get |]. intros ps.
        destruct (ps !! k0) as [[t id | t id |] |];
          try apply ks_wu, ks_done.
        apply wu_bind; [apply ks_put; reflexivity |]. intros _.
        unfold close_timer. apply wu_bind; [apply ks_get |]. intros trs.
        intros s0. unfold mbind, Turn_bind.
        pose proof (wu_safeSocketEnd
                      (match trs !! t with
                       | Some tr => socket tr
                       | None => None
                       end) s0) as Hend.
        destruct (safeSocketEnd _ s0) as [[u s1] o1]. cbn in *.
        rewrite app_nil_r. exact Hend.
      - unfold on_socket_close. apply wu_bind; [apply ks_get |]. intros socks.
        destruct (socks !! sock) as [ss |]; [| apply ks_wu, ks_done].
        intros s0. unfold mbind, Turn_bind, put.
        destruct (close_handler ss); cbn; constructor.
      - apply wu_safeSocketEnd. }
    specialize (Hwu s).
    destruct (dispatch _ _ _ _ _ _ _ now i s) as [[u s'] outs]. exact Hwu. }
  rewrite Forall_forall in Hall. exact (Hall _ Hin).
Qed.

End Sockets.

Lemma has_char_app c a b : has_char c (a +:+ String c b) = true.
Proof.
  induction a as [| x a IH]; [rewrite app_nil; cbn; rewrite Ascii.eqb_refl; reflexivity |].
  rewrite app_cons. cbn. rewrite IH. apply orb_true_r.
Qed.

(** A download id is never the string the error handler uses for a pack
    without name or port: it holds a vertical bar. *)
Lemma download_id_known pk : download_id pk <> "unknown".
Proof.
  intros E. pose proof (has_char_app "|" (tmpl_str (Axdcc.filename pk))
                          (tmpl_num (Axdcc.port pk))) as H.
  change (tmpl_str (Axdcc.filename pk) +:+ String "|" (tmpl_num (Axdcc.port pk)))
    with (download_id pk) in H.
  rewrite E in H. discriminate H.
Qed.

Section Requests.

Variable env : gmap string string.
Variable irc_nick : string.
Variable PROGRESS_INTERVAL : Z.
Variable percent_of : jsnum -> jsnum -> jsnum.
Variable formatSize : jsnum -> string.
Variable JSON_stringify : Axdcc.ErrValue -> string.
Variable path_join : string -> string -> string.

Abbreviation step :=
  (Server.step env irc_nick PROGRESS_INTERVAL percent_of formatSize
     JSON_stringify path_join).
Abbreviation run :=
  (Server.run env irc_nick PROGRESS_INTERVAL percent_of formatSize
     JSON_stringify path_join).

Ltac server_turn :=
  cbv [Server.step dispatch on_request transfer_turn exec safeSocketWrite
       safeSocketEnd write_callback close_timer on_socket_close
       mbind mret Turn_bind Turn_ret get put act done_ fst snd].

(** X16. A request without [bot_name] or [pack_number], or with one of
    them empty, gets the error envelope that names the required fields,
    and the socket is ended; no request object is created. *)
Theorem X16_incomplete_request_is_refused s now sock req ss :
  sockets s !! sock = Some ss -> destroyed ss = false -> writable ss = true ->
  incomplete req = true ->
  step s (now, Request sock req)
  = (set_sockets (<[sock := ended ss]> (sockets s)) s,
     [SocketWrite sock invalid_request; SocketEnd sock]).
Proof.
  intros Hs Hd Hw Hinc. unfold incomplete in Hinc. server_turn.
  destruct (bot_name req) as [bn |], (pack_number req) as [pn |];
    try rewrite Hinc; cbn; rewrite Hs, Hd, Hw; cbn; rewrite Hs, Hd; cbn;
    reflexivity.
Qed.

(** The first turn of a new request object: the 'start' event. *)
Lemma first_turn a :
  Axdcc.step a irc_nick path_join Axdcc.new_request Axdcc.Start
  = (Axdcc.set_handlerBound true
       (Axdcc.set_subscribed true
          (Axdcc.set_start_armed false Axdcc.new_request)),
     [Axdcc.Say (Axdcc.nick a) ("XDCC SEND " +:+ Axdcc.pack a);
      Axdcc.ClientOn]).
Proof. reflexivity. Qed.

(** X17. A request with both fields is acknowledged with one
    [downloading] envelope; a request object is created for pack
    [#pack_number] of the bot, with the configured directory and resume
    on, and started at once: it asks the bot for the pack and subscribes
    to CTCP messages.  No tracker is registered yet. *)
Theorem X17_complete_request_starts_transfer s now sock req bn pn ss :
  sockets s !! sock = Some ss -> destroyed ss = false -> writable ss = true ->
  bot_name req = Some bn -> pack_number req = Some pn ->
  bn <> "" -> pn <> "" ->
  let r := length (transfers s) in
  let turn := step s (now, Request sock req) in
  turn.2 =
    [SocketWrite sock
       (Downloading ("Started download request for pack #" +:+ pn
                     +:+ " from " +:+ bn) pn);
     Transfer r (Axdcc.Say bn ("XDCC SEND #" +:+ pn));
     Transfer r Axdcc.ClientOn]
  /\ (exists st,
        transfers turn.1 !! r
        = Some (mkTransfer
                  (Axdcc.mkArgs bn ("#" +:+ pn) (FILE_DESTINATION env) true
                     PROGRESS_INTERVAL true)
                  st (mkListener sock pn (send_progress req) true))
        /\ Axdcc.subscribed st = true /\ Axdcc.finished st = false)
  /\ activeDownloads turn.1 = activeDownloads s.
Proof.
  intros Hs Hd Hw Hb Hp Hbn Hpn r turn. subst turn r. server_turn.
  rewrite Hb, Hp.
  apply String.eqb_neq in Hbn, Hpn. rewrite Hbn, Hpn. cbn [orb].
  rewrite Hs, Hd, Hw. cbn [negb andb sockets transfers set_transfers app].
  rewrite AxdccFacts.lookup_snoc.
  rewrite first_turn.
  cbv [relay mbind mret Turn_bind Turn_ret get put act done_].
  cbn. rewrite AxdccFacts.insert_snoc, AxdccFacts.lookup_snoc.
  split; [| split; [| reflexivity]].
  - change ("XDCC SEND " +:+ "#" +:+ pn) with ("XDCC SEND #" +:+ pn).
    reflexivity.
  - eexists. split; [reflexivity |]. split; reflexivity.
Qed.

Abbreviation on_event :=
  (Server.on_event env percent_of formatSize JSON_stringify).
Abbreviation relay := (Server.relay env percent_of formatSize JSON_stringify).
Abbreviation transfer_step a := (Axdcc.step a irc_nick path_join).

Lemma relay_silent now r att acts s :
  Axdcc.emitted acts = [] ->
  relay now r att acts s = (tt, s, map (Transfer r) acts).
Proof.
  revert s. induction acts as [| a acts IH]; intros s He; [reflexivity |].
  cbn [Server.relay map]. destruct a; cbn in He; try discriminate;
    cbv [mbind Turn_bind act done_ mret Turn_ret];
    rewrite (IH s He); reflexivity.
Qed.

(** The state after the effects of a request that emits exactly one
    event: the state its listener leaves. *)
Lemma relay_single_state now r acts e s :
  Axdcc.emitted acts = [e] ->
  (exec (relay now r true acts) s).1 = (exec (on_event now r e) s).1.
Proof.
  revert s. induction acts as [| a acts IH]; intros s He; [discriminate |].
  cbn [Server.relay].
  destruct a; cbn in He;
    try (specialize (IH s He);
         cbv [exec mbind Turn_bind act done_ mret Turn_ret] in *;
         destruct (relay now r true acts s) as [[u s'] o];
         cbn in *; exact IH).
  injection He as -> Hnil.
  cbv [exec mbind Turn_bind act].
  destruct (on_event now r e s) as [[u s'] o].
  rewrite (relay_silent now r true acts s' Hnil). reflexivity.
Qed.

Lemma transfer_turn_state s now r i a st l e :
  transfers s !! r = Some (mkTransfer a st l) ->
  Axdcc.listeners st = true ->
  Axdcc.emitted (transfer_step a st i).2 = [e] ->
  (step s (now, TransferInput r i)).1
  = (exec (on_event now r e)
       (set_transfers
          (<[r := mkTransfer a (transfer_step a st i).1 l]> (transfers s))
          s)).1.
Proof.
  intros Ht Hl He.
  unfold Server.step, dispatch, transfer_turn. cbn [fst snd].
  cbv [exec mbind Turn_bind get]. rewrite Ht.
  destruct (transfer_step a st i) as [st' acts].
  cbn [fst snd] in *. rewrite Hl.
  cbv [mbind Turn_bind put].
  pose proof (relay_single_state now r acts e
                (set_transfers (<[r := mkTransfer a st' l]> (transfers s)) s)
                He) as Hr.
  cbv [exec] in Hr.
  destruct (relay now r true acts _) as [[u1 s1] o1].
  destruct (on_event now r e _) as [[u2 s2] o2].
  cbn in *. exact Hr.
Qed.

(** X18. The first 'connect' of a request registers, under the id made of
    file name and port, a tracker with the client's socket, its pack
    number, the flag [send_progress === true] and the time of the turn;
    no other id changes, and the listener is disarmed. *)
Theorem X18_connect_registers_tracker s now r i a st l pk :
  transfers s !! r = Some (mkTransfer a st l) ->
  Axdcc.listeners st = true -> connect_armed l = true ->
  Axdcc.emitted (transfer_step a st i).2 = [Axdcc.connect pk] ->
  let s' := (step s (now, TransferInput r i)).1 in
  get_tracker (download_id pk) s'
  = Some (length (trackers s),
          mkTracker (Some (l_socket l)) (l_pack_number l)
            (is_true (l_send_progress l)) now r)
  /\ (forall id, id <> download_id pk ->
        activeDownloads s' !! id = activeDownloads s !! id)
  /\ (exists st', transfers s' !! r = Some (mkTransfer a st' (disarm l))).
Proof.
  intros Ht Hl Harmed He s'. subst s'.
  rewrite (transfer_turn_state s now r i a st l _ Ht Hl He).
  cbn [Server.on_event]. unfold on_connect.
  cbv [exec mbind Turn_bind get put mret Turn_ret done_].
  cbn [transfers set_transfers].
  rewrite list_lookup_insert_eq by (eapply lookup_lt_Some; exact Ht).
  rewrite Harmed. cbn [fst snd].
  unfold get_tracker. cbn [activeDownloads trackers set_activeDownloads
                           set_trackers set_transfers transfers].
  split; [| split].
  - rewrite lookup_insert_eq. rewrite AxdccFacts.lookup_snoc. reflexivity.
  - intros id Hid. rewrite lookup_insert_ne by congruence. reflexivity.
  - eexists. rewrite list_insert_insert_eq.
    apply list_lookup_insert_eq. eapply lookup_lt_Some. exact Ht.
Qed.



(** X20. When a client closes its socket, nothing is written and no
    tracker is removed: every registered tracker of that socket stays
    in [activeDownloads] with its socket set to null, and the trackers of
    other sockets are as before. *)
Theorem X20_close_detaches_trackers s now sock ss :
  sockets s !! sock = Some ss -> close_handler ss = true ->
  let turn := step s (now, SocketClose sock) in
  turn.2 = []
  /\ activeDownloads turn.1 = activeDownloads s
  /\ forall id t tr,
       get_tracker id s = Some (t, tr) ->
       get_tracker id turn.1
       = Some (t, if bool_decide (socket tr = Some sock)
                  then detach sock tr else tr).
Proof.
  intros Hs Hc turn. subst turn. server_turn. rewrite Hs, Hc.
  cbn [fst snd app]. split; [reflexivity |]. split; [reflexivity |].
  intros id t tr Hg. unfold get_tracker in *.
  cbn [activeDownloads trackers set_trackers set_sockets].
  destruct (activeDownloads s !! id) as [t0 |] eqn:Ha; [| discriminate].
  destruct (trackers s !! t0) as [tr0 |] eqn:Et; [| discriminate].
  injection Hg as -> ->.
  rewrite list_lookup_imap, Et. cbn [fmap option_fmap option_map].
  assert (Hlive : t ∈ (map_to_list (activeDownloads s)).*2).
  { apply list_elem_of_fmap. exists (id, t). split; [reflexivity |].
    apply elem_of_map_to_list. exact Ha. }
  rewrite (bool_decide_eq_true_2 _ Hlive). reflexivity.
Qed.

(** X21. The terminal event of a download whose client has gone (the
    tracker holds no socket) writes to no socket at all, and removes the
    tracker in the same turn. *)
Theorem X21_terminal_without_client s now r i a st l pk t tr :
  transfers s !! r = Some (mkTransfer a st l) ->
  Axdcc.listeners st = true ->
  get_tracker (download_id pk) s = Some (t, tr) -> socket tr = None ->
  Axdcc.emitted (transfer_step a st i).2 = [Axdcc.complete pk]
  \/ (exists err,
        Axdcc.emitted (transfer_step a st i).2
        = [Axdcc.dlerror (Some pk) err]
        /\ truthy_str (Axdcc.filename pk) = true
        /\ truthy_num (Axdcc.port pk) = true) ->
  let turn := step s (now, TransferInput r i) in
  (forall k, written k turn.2 = [])
  /\ activeDownloads turn.1 = delete (download_id pk) (activeDownloads s).
Proof.
  intros Ht Hl Htr Hs He turn. subst turn.
  destruct tr as [so pn sp stt rq]. cbn in Hs. subst so.
  destruct He as [He | (err & He & Hf & Hp)].
  - split.
    + intros k.
      rewrite (transfer_turn_written env irc_nick PROGRESS_INTERVAL percent_of
                 formatSize JSON_stringify path_join
                 s now r i a st l _ k Ht Hl He).
      cbn [Server.on_event].
      cbv [exec xdcc_complete mbind Turn_bind get put].
      change (get_tracker (download_id pk) (set_transfers _ s))
        with (get_tracker (download_id pk) s).
      rewrite Htr. reflexivity.
    + rewrite (transfer_turn_state s now r i a st l _ Ht Hl He).
      cbn [Server.on_event].
      cbv [exec xdcc_complete mbind Turn_bind get put].
      change (get_tracker (download_id pk) (set_transfers _ s))
        with (get_tracker (download_id pk) s).
      rewrite Htr. reflexivity.
  - split.
    + intros k.
      rewrite (transfer_turn_written env irc_nick PROGRESS_INTERVAL percent_of
                 formatSize JSON_stringify path_join
                 s now r i a st l _ k Ht Hl He).
      cbn [Server.on_event].
      cbv [exec xdcc_error mbind Turn_bind get put]. rewrite Hf, Hp.
      cbn [andb].
      change (get_tracker (download_id pk) (set_transfers _ s))
        with (get_tracker (download_id pk) s).
      rewrite Htr. destruct (negb _); reflexivity.
    + rewrite (transfer_turn_state s now r i a st l _ Ht Hl He).
      cbn [Server.on_event].
      cbv [exec xdcc_error mbind Turn_bind get put]. rewrite Hf, Hp.
      cbn [andb].
      change (get_tracker (download_id pk) (set_transfers _ s))
        with (get_tracker (download_id pk) s).
      rewrite Htr.
      destruct (String.eqb_spec (download_id pk) "unknown") as [E | _];
        [| reflexivity].
      destruct (download_id_known pk E).
Qed.

End Requests.

Lemma ku_bind {A B} (m : M A) (f : A -> M B) :
  keeps_unknown m -> (forall x, keeps_unknown (f x)) ->
  keeps_unknown (m ≫= f).
Proof.
  intros Hm Hf s Hs. unfold mbind, Turn_bind.
  specialize (Hm s Hs). destruct (m s) as [[x s1] a1]. cbn in *.
  specialize (Hf x s1 Hm). destruct (f x s1) as [[y s2] a2]. exact Hf.
Qed.

Lemma ku_same {A} (m : M A) :
  (forall s, activeDownloads (m s).1.2 = activeDownloads s) ->
  keeps_unknown m.
Proof. intros H s Hs. unfold no_unknown. rewrite H. exact Hs. Qed.

Lemma ku_delete id :
  keeps_unknown
    (put (fun s => set_activeDownloads (delete id (activeDownloads s)) s)
     : M unit).
Proof.
  intros s Hs. unfold no_unknown in *. cbn.
  apply lookup_delete_None. right. exact Hs.
Qed.

Section Unknown.

Variable env : gmap string string.
Variable irc_nick : string.
Variable PROGRESS_INTERVAL : Z.
Variable percent_of : jsnum -> jsnum -> jsnum.
Variable formatSize : jsnum -> string.
Variable JSON_stringify : Axdcc.ErrValue -> string.
Variable path_join : string -> string -> string.

Abbreviation step :=
  (Server.step env irc_nick PROGRESS_INTERVAL percent_of formatSize
     JSON_stringify path_join).
Abbreviation run :=
  (Server.run env irc_nick PROGRESS_INTERVAL percent_of formatSize
     JSON_stringify path_join).
Abbreviation on_event :=
  (Server.on_event env percent_of formatSize JSON_stringify).
Abbreviation relay := (Server.relay env percent_of formatSize JSON_stringify).
Abbreviation transfer_step a := (Axdcc.step a irc_nick path_join).

Lemma ku_safeSocketWrite sock data cb :
  keeps_unknown (safeSocketWrite sock data cb).
Proof.
  apply ku_same. intros s.
  cbv [safeSocketWrite write_callback mbind mret Turn_bind Turn_ret get put
       act done_].
  destruct sock as [k |]; [destruct (sockets s !! k) as [ss |] |];
    [destruct (negb (destroyed ss) && writable ss) |..];
    destruct cb as [[t id] |]; reflexivity.
Qed.

Lemma ku_safeSocketEnd sock : keeps_unknown (safeSocketEnd sock).
Proof.
  apply ku_same. intros s.
  cbv [safeSocketEnd mbind mret Turn_bind Turn_ret get put act done_].
  destruct sock as [k |]; [destruct (sockets s !! k) as [ss |] |];
    [destruct (negb (destroyed ss)) |..]; reflexivity.
Qed.

Lemma ku_on_event now r e : keeps_unknown (on_event now r e).
Proof.
  destruct e; cbn [Server.on_event].
  - intros s Hs. unfold on_connect.
    cbv [mbind mret Turn_bind Turn_ret get put done_].
    destruct (transfers s !! r) as [[a st l] |]; [| exact Hs].
    destruct (connect_armed l); [| exact Hs].
    unfold no_unknown in *. cbn.
    rewrite lookup_insert_ne by apply download_id_known. exact Hs.
  - apply ku_same. intros s.
    cbv [xdcc_progress safeSocketWrite mbind mret Turn_bind Turn_ret get put
         act done_].
    destruct (get_tracker (download_id pk) s)
      as [[t [[sock |] pn sp st rq]] |]; try reflexivity.
    destruct (sockets s !! sock) as [ss |];
      [destruct (negb (destroyed ss) && writable ss) |]; reflexivity.
  - unfold xdcc_complete. apply ku_bind; [apply ku_same; reflexivity |].
    intros [[t [[sock |] pn sp st rq]] |]; try apply ku_delete.
    apply ku_safeSocketWrite.
  - unfold xdcc_error. apply ku_bind; [apply ku_same; reflexivity |].
    intros [[t [[sock |] pn sp st rq]] |];
      try (destruct (negb _); [apply ku_delete | apply ku_same; reflexivity]).
    apply ku_safeSocketWrite.
Qed.

Lemma ku_relay now r attached acts : keeps_unknown (relay now r attached acts).
Proof.
  induction acts as [| a acts IH]; cbn [Server.relay];
    [apply ku_same; reflexivity |].
  apply ku_bind; [apply ku_same; reflexivity |]. intros _.
  apply ku_bind; [| intros _; exact IH].
  destruct a; try (apply ku_same; reflexivity).
  destruct attached; [apply ku_on_event | apply ku_same; reflexivity].
Qed.

Lemma ku_transfer_turn now r i :
  keeps_unknown
    (transfer_turn env irc_nick percent_of formatSize JSON_stringify
       path_join now r i).
Proof.
  unfold transfer_turn. apply ku_bind; [apply ku_same; reflexivity |].
  intros ts. destruct (ts !! r) as [[a st l] |];
    [| apply ku_same; reflexivity].
  destruct (Axdcc.step a irc_nick path_join st i) as [st' acts].
  apply ku_bind; [apply ku_same; reflexivity |].
  intros _. apply ku_relay.
Qed.

Lemma step_no_unknown s ti : no_unknown s -> no_unknown (step s ti).1.
Proof.
  destruct ti as [now i]. unfold Server.step, exec. cbn [fst snd].
  assert (Hku : keeps_unknown
                  (dispatch env irc_nick PROGRESS_INTERVAL percent_of
                     formatSize JSON_stringify path_join now i)).
  { destruct i; cbn [dispatch].
    - apply ku_same. reflexivity.
    - unfold on_request.
      destruct (bot_name req) as [bn |], (pack_number req) as [pn |];
        try (apply ku_bind; [apply ku_safeSocketWrite |];
             intros _; apply ku_safeSocketEnd).
      destruct (String.eqb bn "" || String.eqb pn "").
      + apply ku_bind; [apply ku_safeSocketWrite |].
        intros _. apply ku_safeSocketEnd.
      + apply ku_bind; [apply ku_safeSocketWrite |]. intros _.
        apply ku_bind; [apply ku_same; reflexivity |]. intros r.
        apply ku_bind; [apply ku_same; reflexivity |]. intros _.
        apply ku_bind; [apply ku_transfer_turn |]. intros _.
        apply ku_same. reflexivity.
    - apply ku_transfer_turn.
    - apply ku_bind; [apply ku_same; reflexivity |]. intros ps.
      destruct (ps !! k) as [[t id | t id |] |];
        try (apply ku_same; reflexivity).
    - apply ku_bind; [apply ku_same; reflexivity |]. intros ps.
      destruct (ps !! k) as [[t id | t id |] |];
        try (apply ku_same; reflexivity).
      apply ku_bind; [apply ku_same; reflexivity |]. intros _.
      unfold close_timer. apply ku_bind; [apply ku_same; reflexivity |].
      intros trs. apply ku_bind; [apply ku_safeSocketEnd |].
      intros _. apply ku_delete.
    - apply ku_same. intros s0.
      cbv [on_socket_close mbind mret Turn_bind Turn_ret get put done_].
      destruct (sockets s0 !! sock) as [ss |]; [| reflexivity].
      destruct (close_handler ss); reflexivity.
    - apply ku_safeSocketEnd. }
  intros Hs. specialize (Hku s Hs).
  destruct (dispatch _ _ _ _ _ _ _ now i s) as [[u s'] outs]. exact Hku.
Qed.

Lemma run_no_unknown inputs : forall s,
  no_unknown s -> no_unknown (run s inputs).1.
Proof.
  induction inputs as [| ti rest IH]; intros s Hs; [exact Hs |].
  cbn [Server.run].
  pose proof (step_no_unknown s ti Hs) as H1.
  destruct (step s ti) as [s1 outs]. cbn [fst] in H1.
  specialize (IH s1 H1). destruct (run s1 rest) as [s2 tr]. exact IH.
Qed.

(** X22. In every state the server reaches, a message of the bot that
    begins with DCC but does not match the pattern is answered to no
    client: the [dlerror] without pack finds no tracker, nothing is
    written to any socket, no tracker is removed, and the request goes
    on as before. *)
Theorem X22_malformed_message_never_answered inputs now r a st l msg fs :
  let s := (run initial inputs).1 in
  transfers s !! r = Some (mkTransfer a st l) ->
  Axdcc.finished st = false -> Axdcc.subscribed st = true ->
  String.prefix "DCC " msg = true -> Axdcc.dcc_match msg = None ->
  let turn :=
    step s (now, TransferInput r
                   (Axdcc.CtcpPrivmsg (Axdcc.nick a) irc_nick msg fs)) in
  (forall sock, written sock turn.2 = [])
  /\ activeDownloads turn.1 = activeDownloads s
  /\ transfers turn.1 !! r = Some (mkTransfer a st l).
Proof.
  intros s Ht Hf Hsub Hpre Hm turn.
  assert (Hunk : get_tracker "unknown" s = None).
  { assert (Hnu : no_unknown s).
    { apply run_no_unknown. unfold no_unknown. cbn. apply lookup_empty. }
    unfold get_tracker. rewrite Hnu. reflexivity. }
  pose proof (NegotiationFacts.ctcp_malformed a irc_nick path_join st msg fs
                Hf Hsub Hpre Hm) as Hbad.
  subst turn. unfold Server.step, dispatch, transfer_turn. cbn [fst snd].
  cbv [exec mbind Turn_bind get]. rewrite Ht. rewrite Hbad.
  cbv [mbind Turn_bind put Server.relay act done_ mret Turn_ret].
  cbn [Server.on_event]. 
  destruct (Axdcc.listeners st).
  - cbv [xdcc_error mbind Turn_bind get put done_ mret Turn_ret].
    change (get_tracker "unknown" (set_transfers _ s))
      with (get_tracker "unknown" s).
    rewrite Hunk. cbn.
    split; [reflexivity |]. split; [reflexivity |].
    apply list_lookup_insert_eq. eapply lookup_lt_Some. exact Ht.
  - cbn. split; [reflexivity |]. split; [reflexivity |].
    apply list_lookup_insert_eq. eapply lookup_lt_Some. exact Ht.
Qed.

End Unknown.

Lemma digits_value_parse (ds : string) : forall acc,
  foldl (fun acc c => acc * 10 + (Z.of_nat (nat_of_ascii c) - 48)) acc
    (String.list_ascii_of_string ds)
  = Axdcc.parse_digits acc ds.
Proof.
  induction ds as [| c ds IH]; intros acc; [reflexivity |].
  cbn. apply IH.
Qed.

Lemma leading_digits_run (d : string) c tl :
  all_chars Axdcc.is_digit d = true -> Axdcc.is_digit c = false ->
  leading_digits (d +:+ String c tl)
  = (String.list_ascii_of_string d, String c tl).
Proof.
  intros Hd Hc. induction d as [| x d IH].
  - rewrite app_nil. cbn. change (is_digit c) with (Axdcc.is_digit c).
    rewrite Hc. reflexivity.
  - cbn in Hd. apply andb_prop in Hd as [Hx Hd].
    rewrite app_cons. cbn. change (is_digit x) with (Axdcc.is_digit x).
    rewrite Hx, (IH Hd). reflexivity.
Qed.

Lemma match_percent_number (z : Z) rest :
  match_percent (pretty z +:+ "%" +:+ rest)
  = if 0 <=? z then Some z else None.
Proof.
  destruct (Z.leb_spec 0 z) as [Hz | Hz].
  - destruct (pretty_digits z Hz) as (Hne & Hall & Hval).
    unfold match_percent.
    change ("%" +:+ rest) with (String "%" rest).
    rewrite (leading_digits_run (pretty z) "%" rest Hall eq_refl).
    destruct (pretty z) as [| c d] eqn:E; [contradiction Hne; reflexivity |].
    cbn [String.list_ascii_of_string Ascii.eqb Bool.eqb].
    unfold digits_value. rewrite <- Hval.
    change (c :: String.list_ascii_of_string d)
      with (String.list_ascii_of_string (String c d)).
    rewrite digits_value_parse. reflexivity.
  - destruct z as [| p | p]; try lia.
    reflexivity.
Qed.

(** X23. A progress line goes to the log file only when its percentage
    is a multiple of ten (0 included); a percentage that is NaN,
    undefined or negative is never logged to the file.  The console
    gets every line. *)
Theorem X23_progress_file_log_every_tenth env (v : jsnum) rest :
  let message := tmpl_num v +:+ "%" +:+ rest in
  logger_progress env message
  = (if match v with
        | JNum z => (0 <=? z) && (z mod 10 =? 0)
        | _ => false
        end
     then [LogFile "PROGRESS" message] else [])
    ++ [ConsoleLog ("[PROGRESS] " +:+ message)].
Proof.
  intros message. subst message. unfold logger_progress.
  assert (Hflag : DISABLE_PROGRESS_ANSI env = true).
  { unfold DISABLE_PROGRESS_ANSI. apply orb_true_r. }
  rewrite Hflag. f_equal.
  destruct v as [| | z]; cbn [tmpl_num]; [reflexivity | reflexivity |].
  rewrite match_percent_number.
  destruct (0 <=? z); [| reflexivity]. cbn [andb].
  destruct (Z.eqb_spec (z mod 10) 0) as [Hm | Hm]; [reflexivity |].
  destruct (Z.eqb_spec z 100) as [-> | _]; [| reflexivity].
  contradiction Hm. reflexivity.
Qed.

End FrontFacts.


(** ** The concrete setting *)

Import Axdcc AxdccFacts ServerFacts.

(** The write stream fails after three of five octets (the handler kills
    the request but has no socket to destroy), then the peer closes: a
    second [dlerror], from the branch of the 'end' handler for a request
    that is already finished. *)
Lemma C2_counterexample :
  ~ Stated.at_most_one_terminal_event
      Scenario.args Scenario.our_nick Scenario.path_join.
Proof.
  intros H.
  specialize (H (Scenario.connected_after Scenario.SEND_5
                 ++ [Data 0 [1; 2; 3]; StreamError 0 "ENOSPC"; End 0])).
  vm_compute in H. lia.
Qed.

(** Two unknown DCC commands in a row: two [dlerror] events as well, and
    the request goes on, because the CTCP handler emits without kill. *)
Example two_unknown_commands :
  Axdcc.emitted
    (Scenario.effects new_request
       [Start; Scenario.from_bot Scenario.CHAT; Scenario.from_bot Scenario.CHAT])
  = [dlerror (Some empty_object) (ErrText "Unknown DCC command: CHAT");
     dlerror (Some empty_object) (ErrText "Unknown DCC command: CHAT")]
  /\ finished
       (Scenario.final new_request
          [Start; Scenario.from_bot Scenario.CHAT;
           Scenario.from_bot Scenario.CHAT]) = false.
Proof. vm_compute. split; reflexivity. Qed.

(** A SEND that announces size 0, and a peer that closes at once: the
    partial file is renamed although [file_size] is 0. *)
Lemma C3_counterexample :
  ~ Stated.rename_needs_positive_size
      Scenario.args Scenario.our_nick Scenario.path_join.
Proof.
  intros H.
  destruct (H (Scenario.connected_after Scenario.SEND_0) (End 0)
              "/data/a.bin.part" "/data/a.bin")
    as (d & dl & size & Hi & Hd & Hr & Hs & Hpos).
  { vm_compute. apply list_elem_of_further, list_elem_of_here. }
  injection Hi as <-. vm_compute in Hd. injection Hd as <-.
  vm_compute in Hr. injection Hr as <-. lia.
Qed.

(** Cancel after three of five octets, then the peer closes: a [dlerror]
    is emitted after kill, while the listeners are still attached. *)
Lemma C6_counterexample :
  ~ Stated.silent_after_kill
      Scenario.args Scenario.our_nick Scenario.path_join.
Proof.
  intros H.
  destruct (H (Scenario.connected_after Scenario.SEND_5
               ++ [Data 0 [1; 2; 3]; Cancel])
              [End 0]
              (dlerror
                 (Some (mkPack (Some "SEND") (Some "a.bin") (Some "127.0.0.1")
                          (JNum 5000) (JNum 5) (JNum 0) (Some "/data/a.bin")))
                 (ErrText "Server closed connection, download canceled")))
    as [_ Hterm].
  - vm_compute. reflexivity.
  - vm_compute. apply list_elem_of_here.
  - discriminate Hterm.
Qed.

(** A file of five octets and a peer that sends six. *)
Lemma C7_counterexample :
  ~ Stated.received_within_file_size
      Scenario.args Scenario.our_nick Scenario.path_join.
Proof.
  intros H.
  assert (Hle : 6 <= 5).
  { apply (H (Scenario.connected_after Scenario.SEND_5
              ++ [Data 0 [1; 2; 3; 4; 5; 6]])
             0%nat (mkDownload 1 true (JNum 6) (JNum 6) true 0) 6 5);
      vm_compute; reflexivity. }
  lia.
Qed.



Lemma C2_witness :
  finished
    (Scenario.step
       (Scenario.final new_request (Scenario.connected_after Scenario.SEND_5))
       (ConnError 0 "ECONNRESET")).1 = true.
Proof.
  apply (proj1 (proj2
           (C2_terminal_event_then_kill Scenario.args Scenario.our_nick
              Scenario.path_join
              (Scenario.final new_request
                 (Scenario.connected_after Scenario.SEND_5))
              (ConnError 0 "ECONNRESET")))
           (dlerror
              (Some (mkPack (Some "SEND") (Some "a.bin") (Some "127.0.0.1")
                       (JNum 5000) (JNum 5) (JNum 0) (Some "/data/a.bin")))
              (ErrObject "ECONNRESET"))).
  - vm_compute. apply list_elem_of_here.
  - reflexivity.
  - left. reflexivity.
Defined.

Lemma C3_witness :
  finished
    (Scenario.step
       (Scenario.final new_request
          (Scenario.connected_after Scenario.SEND_5
           ++ [Data 0 [1; 2; 3; 4; 5]; End 0]))
       (RenameDone 0 (Some "EACCES"))).1 = true.
Proof.
  apply (proj2 (C3_rename_only_on_full_receipt Scenario.args Scenario.our_nick
                  Scenario.path_join
                  (Scenario.final new_request
                     (Scenario.connected_after Scenario.SEND_5
                      ++ [Data 0 [1; 2; 3; 4; 5]; End 0])))
           0%nat (mkDownload 1 true (JNum 5) (JNum 5) true 1) "EACCES");
    vm_compute; (reflexivity || discriminate).
Defined.


(** The reply [DCC ACCEPT a.bin 5000 3] to that offer is refused: the
    handler takes the port from the fourth group and the offset from the
    fifth, which this message does not have. *)
Example accept_of_three_fields_is_refused :
  (Scenario.step
     (Scenario.final new_request
        [Start; Scenario.from_bot Scenario.SEND_5;
         StatDone 0 (StatOk true 3)])
     (Scenario.from_bot "DCC ACCEPT a.bin 5000 3")).2
  = [Emit
       (dlerror
          (Some (mkPack (Some "SEND") (Some "a.bin") (Some "127.0.0.1")
                   (JNum 5000) (JNum 5) (JNum 3) (Some "/data/a.bin")))
          (ErrText "DCC ACCEPT parameters mismatch"))].
Proof. vm_compute. reflexivity. Qed.

(** The README's request with [send_progress] false, and a tick right
    after 'connect': the progress envelope goes to the client. *)
Lemma C5_witness :
  Server.written 0
    (Scenario.server_step
       (Scenario.server_run Server.initial
          (Scenario.api_connected_after Scenario.SEND_5)).1
       (0, Server.TransferInput 0 (Tick 0))).2
  = [Server.Progress (Some "a.bin") (JNum 0) (JNum 0) (JNum 5)].
Proof.
  eapply (C5_progress_written_whatever_send_progress ∅ Scenario.our_nick 1
            Scenario.percent_of Scenario.formatSize Scenario.JSON_stringify
            Scenario.path_join
            (Scenario.server_run Server.initial
               (Scenario.api_connected_after Scenario.SEND_5)).1
            0 0%nat (Tick 0) _ _ _
            (mkPack (Some "SEND") (Some "a.bin") (Some "127.0.0.1")
               (JNum 5000) (JNum 5) (JNum 0) (Some "/data/a.bin"))
            (JNum 0) 0%nat (Server.mkTracker (Some 0%nat) "7" false 0 0) 0%nat
            (Server.mkSocket false true true));
    vm_compute; reflexivity.
Defined.

Lemma C6_witness :
  finished
    (Scenario.final
       (Scenario.final new_request
          (Scenario.connected_after Scenario.SEND_5 ++ [Cancel]))
       [Data 0 [1; 2]; Tick 0; End 0; GraceTimeout]) = true.
Proof.
  apply (C6_after_kill Scenario.args Scenario.our_nick
           Scenario.path_join
           (Scenario.final new_request
              (Scenario.connected_after Scenario.SEND_5 ++ [Cancel]))
           [Data 0 [1; 2]; Tick 0; End 0; GraceTimeout]).
  vm_compute. reflexivity.
Defined.

Lemma C7_witness :
  exists dl,
    downloads
      (Scenario.final
         (Scenario.step
            (Scenario.final new_request
               (Scenario.resumed_after Scenario.SEND_5 Scenario.ACCEPT_3 3))
            (StreamOpen 0)).1
         [Connected 0; Data 0 [4]; Tick 0; Data 0 [5; 6; 7]]) !! 0%nat
    = Some dl
    /\ received dl = JNum 7
    /\ forall got size : Z,
         received dl = JNum got -> (got <= size <-> 4 <= size - 3).
Proof.
  apply (C7_received_counts_every_octet Scenario.args Scenario.our_nick
           Scenario.path_join
           (Scenario.final new_request
              (Scenario.resumed_after Scenario.SEND_5 Scenario.ACCEPT_3 3))
           0%nat (mkDownload 1 false JUndef JUndef false 0) 3
           [Connected 0; Data 0 [4]; Tick 0; Data 0 [5; 6; 7]]);
    vm_compute; (reflexivity || discriminate).
Defined.


(** ** The further properties, in the concrete setting *)



(** The SEND of the bot, sent by somebody else. *)
Lemma X5_witness :
  Scenario.step (Scenario.final new_request [Start])
    (CtcpPrivmsg "Mallory" Scenario.our_nick Scenario.SEND_5
       Scenario.fs_ready)
  = (Scenario.final new_request [Start], []).
Proof.
  refine (NegotiationFacts.X5_foreign_messages_ignored Scenario.args
            Scenario.our_nick Scenario.path_join
            (Scenario.final new_request [Start])
            "Mallory" Scenario.our_nick Scenario.SEND_5 Scenario.fs_ready _).
  right. right. left. discriminate.
Defined.

(** A SEND without address and port. *)
Lemma X6_witness :
  Scenario.step (Scenario.final new_request [Start])
    (Scenario.from_bot "DCC SEND a.bin")
  = (Scenario.final new_request [Start],
     [Emit (dlerror None
              (ErrText "Invalid DCC message format: DCC SEND a.bin"))]).
Proof.
  refine (proj1 (NegotiationFacts.X6_malformed_or_unknown_command
                   Scenario.args Scenario.our_nick Scenario.path_join
                   (Scenario.final new_request [Start])
                   "DCC SEND a.bin" Scenario.fs_ready _ _ _) _);
    vm_compute; reflexivity.
Defined.

(** The directory is missing and cannot be created. *)
Lemma X7_witness :
  let turn :=
    Scenario.step (Scenario.final new_request [Start])
      (CtcpPrivmsg Scenario.bot Scenario.our_nick Scenario.SEND_5
         (mkSyncFs false (Some "EACCES"))) in
  turn.2
  = [MkdirSync "/data";
     Emit (dlerror
             (Some (mkPack (Some "SEND") (Some "a.bin") (Some "127.0.0.1")
                      (JNum 5000) (JNum 5) (JNum 0) (Some "/data/a.bin")))
             (ErrText "Failed to create directory: EACCES"))]
  /\ fsops turn.1 = [] /\ downloads turn.1 = [] /\ finished turn.1 = false.
Proof.
  refine (NegotiationFacts.X7_missing_directory_is_created
            Scenario.args Scenario.our_nick Scenario.path_join
            (Scenario.final new_request [Start])
            (mkParams "SEND" "a.bin" 2130706433 5000 (Some 5))
            (mkSyncFs false (Some "EACCES")) Scenario.SEND_5 _ _ _ _ _ _);
    vm_compute; reflexivity.
Defined.


(** The same request with [resume] off, and a partial file of 3 octets. *)
Lemma X9_witness :
  let quiet := mkArgs Scenario.bot "#7" "/data" false 1 true in
  let s := Axdcc.final quiet Scenario.our_nick Scenario.path_join
             new_request [Start] in
  let inputs := [Scenario.from_bot Scenario.SEND_5;
                 StatDone 0 (StatOk true 3)] in
  let s' := Axdcc.final quiet Scenario.our_nick Scenario.path_join s inputs in
  (Axdcc.run quiet Scenario.our_nick Scenario.path_join s inputs).2
  = [[FsStat "/data/a.bin.part"]; [FsUnlink "/data/a.bin.part"]]
  /\ downloads s' = []
  /\ (Axdcc.step quiet Scenario.our_nick Scenario.path_join s'
        (UnlinkDone 1 None)).2
     = [CreateWriteStream 0 "/data/a.bin.part"]
  /\ forall msg,
       Axdcc.step quiet Scenario.our_nick Scenario.path_join s'
         (UnlinkDone 1 (Some msg))
       = (finish_fsop 1 s',
          [Emit (dlerror
                   (Some (mkPack (Some "SEND") (Some "a.bin")
                            (Some "127.0.0.1") (JNum 5000) (JNum 5) (JNum 0)
                            (Some "/data/a.bin")))
                   (ErrText ("Failed to delete partial file: " +:+ msg)))]).
Proof.
  refine (NegotiationFacts.X9_no_resume_unlinks_first
            (mkArgs Scenario.bot "#7" "/data" false 1 true)
            Scenario.our_nick Scenario.path_join
            (Axdcc.final (mkArgs Scenario.bot "#7" "/data" false 1 true)
               Scenario.our_nick Scenario.path_join new_request [Start])
            (mkParams "SEND" "a.bin" 2130706433 5000 (Some 5))
            Scenario.fs_ready Scenario.SEND_5 3 _ _ _ _ _ _ _);
    vm_compute; reflexivity.
Defined.




Lemma X14_witness :
  let inputs := Scenario.connected_after Scenario.SEND_5
                ++ [Data 0 [1; 2; 3; 4; 5]] in
  let i := End 0 in
  exists d dl n loc,
    i = End d
    /\ downloads (Scenario.final new_request inputs) !! d = Some dl
    /\ received dl = JNum n
    /\ filesize (read_pack (d_pack dl) (Scenario.final new_request inputs))
       = JNum n
    /\ location (read_pack (d_pack dl) (Scenario.final new_request inputs))
       = Some loc
    /\ "/data/a.bin.part" = loc +:+ ".part" /\ "/data/a.bin" = loc.
Proof.
  refine (ReachFacts.X14_rename_when_sizes_agree
            Scenario.args Scenario.our_nick Scenario.path_join
            (Scenario.connected_after Scenario.SEND_5
             ++ [Data 0 [1; 2; 3; 4; 5]])
            (End 0) "/data/a.bin.part" "/data/a.bin" _ _).
  - vm_compute. repeat constructor.
  - vm_compute. apply list_elem_of_further, list_elem_of_here.
Defined.

(** The progress envelope of C5 goes to a usable socket. *)
Lemma X15_witness :
  Front.usable
    (Scenario.server_run Server.initial
       (Scenario.api_connected_after Scenario.SEND_5)).1 0 = true.
Proof.
  refine (FrontFacts.X15_writes_only_to_usable_sockets
            ∅ Scenario.our_nick 1 Scenario.percent_of Scenario.formatSize
            Scenario.JSON_stringify Scenario.path_join
            (Scenario.server_run Server.initial
               (Scenario.api_connected_after Scenario.SEND_5)).1
            (0, Server.TransferInput 0 (Tick 0)) 0%nat
            (Server.Progress (Some "a.bin") (JNum 0) (JNum 0) (JNum 5)) _).
  vm_compute. PatternFacts.member.
Defined.

(** A request that names the bot and no pack. *)
Lemma X16_witness :
  Scenario.server_step
    (Scenario.server_run Server.initial [(0, Server.Connection)]).1
    (0, Server.Request 0
          (Server.mkApiRequest (Some Scenario.bot) None Server.JAbsent))
  = (Server.mkState ∅ [] [Server.mkSocket false false false] [] [],
     [Server.SocketWrite 0 Front.invalid_request; Server.SocketEnd 0]).
Proof.
  refine (FrontFacts.X16_incomplete_request_is_refused
            ∅ Scenario.our_nick 1 Scenario.percent_of Scenario.formatSize
            Scenario.JSON_stringify Scenario.path_join
            (Scenario.server_run Server.initial [(0, Server.Connection)]).1
            0 0%nat
            (Server.mkApiRequest (Some Scenario.bot) None Server.JAbsent)
            (Server.mkSocket false true false) _ _ _ _);
    vm_compute; reflexivity.
Defined.

(** The README's request. *)
Lemma X17_witness :
  let turn :=
    Scenario.server_step
      (Scenario.server_run Server.initial [(0, Server.Connection)]).1
      (0, Server.Request 0 Scenario.quiet_request) in
  turn.2
  = [Server.SocketWrite 0
       (Server.Downloading
          "Started download request for pack #7 from Bot|A" "7");
     Server.Transfer 0 (Say "Bot|A" "XDCC SEND #7");
     Server.Transfer 0 ClientOn]
  /\ (exists st,
        Server.transfers turn.1 !! 0%nat
        = Some (Server.mkTransfer Scenario.args st
                  (Server.mkListener 0 "7" (Server.JBool false) true))
        /\ subscribed st = true /\ finished st = false)
  /\ Server.activeDownloads turn.1 = ∅.
Proof.
  refine (FrontFacts.X17_complete_request_starts_transfer
            ∅ Scenario.our_nick 1 Scenario.percent_of Scenario.formatSize
            Scenario.JSON_stringify Scenario.path_join
            (Scenario.server_run Server.initial [(0, Server.Connection)]).1
            0 0%nat Scenario.quiet_request Scenario.bot "7"
            (Server.mkSocket false true false) _ _ _ _ _ _ _);
    try (vm_compute; reflexivity); discriminate.
Defined.

(** The data connection of the README's request is established. *)
Lemma X18_witness :
  let s := (Scenario.server_run Server.initial
              [ (0, Server.Connection);
                (0, Server.Request 0 Scenario.quiet_request);
                (0, Server.TransferInput 0
                      (Scenario.from_bot Scenario.SEND_5));
                (0, Server.TransferInput 0 (StatDone 0 StatErr));
                (0, Server.TransferInput 0 (StreamOpen 0)) ]).1 in
  let s' := (Scenario.server_step s
               (42, Server.TransferInput 0 (Connected 0))).1 in
  Server.get_tracker "a.bin|5000" s'
  = Some (0%nat, Server.mkTracker (Some 0%nat) "7" false 42 0)
  /\ (forall id, id <> "a.bin|5000" ->
        Server.activeDownloads s' !! id = Server.activeDownloads s !! id)
  /\ (exists st',
        Server.transfers s' !! 0%nat
        = Some (Server.mkTransfer Scenario.args st'
                  (Server.mkListener 0 "7" (Server.JBool false) false))).
Proof.
  refine (FrontFacts.X18_connect_registers_tracker
            ∅ Scenario.our_nick 1 Scenario.percent_of Scenario.formatSize
            Scenario.JSON_stringify Scenario.path_join
            (Scenario.server_run Server.initial
               [ (0, Server.Connection);
                 (0, Server.Request 0 Scenario.quiet_request);
                 (0, Server.TransferInput 0
                       (Scenario.from_bot Scenario.SEND_5));
                 (0, Server.TransferInput 0 (StatDone 0 StatErr));
                 (0, Server.TransferInput 0 (StreamOpen 0)) ]).1
            42 0%nat (Connected 0) Scenario.args _
            (Server.mkListener 0 "7" (Server.JBool false) true)
            (mkPack (Some "SEND") (Some "a.bin") (Some "127.0.0.1")
               (JNum 5000) (JNum 5) (JNum 0) (Some "/data/a.bin"))
            _ _ _ _);
    vm_compute; reflexivity.
Defined.


(** The client of the README's request hangs up during the transfer. *)
Lemma X20_witness :
  let s := (Scenario.server_run Server.initial
              (Scenario.api_connected_after Scenario.SEND_5)).1 in
  let turn := Scenario.server_step s (0, Server.SocketClose 0) in
  turn.2 = []
  /\ Server.activeDownloads turn.1 = Server.activeDownloads s
  /\ forall id t tr,
       Server.get_tracker id s = Some (t, tr) ->
       Server.get_tracker id turn.1
       = Some (t, if bool_decide (Server.socket tr = Some 0%nat)
                  then Server.detach 0 tr else tr).
Proof.
  refine (FrontFacts.X20_close_detaches_trackers
            ∅ Scenario.our_nick 1 Scenario.percent_of Scenario.formatSize
            Scenario.JSON_stringify Scenario.path_join
            (Scenario.server_run Server.initial
               (Scenario.api_connected_after Scenario.SEND_5)).1
            0 0%nat (Server.mkSocket false true true) _ _);
    vm_compute; reflexivity.
Defined.

(** ... and the download completes afterwards. *)
Lemma X21_witness :
  let s := (Scenario.server_run Server.initial
              (Scenario.api_connected_after Scenario.SEND_5
               ++ [(0, Server.SocketClose 0);
                   (0, Server.TransferInput 0 (Data 0 [1; 2; 3; 4; 5]));
                   (0, Server.TransferInput 0 (End 0))])).1 in
  let turn := Scenario.server_step s
                (0, Server.TransferInput 0 (RenameDone 0 None)) in
  (forall k, Server.written k turn.2 = [])
  /\ Server.activeDownloads turn.1
     = delete "a.bin|5000" (Server.activeDownloads s).
Proof.
  refine (FrontFacts.X21_terminal_without_client
            ∅ Scenario.our_nick 1 Scenario.percent_of Scenario.formatSize
            Scenario.JSON_stringify Scenario.path_join
            (Scenario.server_run Server.initial
               (Scenario.api_connected_after Scenario.SEND_5
                ++ [(0, Server.SocketClose 0);
                    (0, Server.TransferInput 0 (Data 0 [1; 2; 3; 4; 5]));
                    (0, Server.TransferInput 0 (End 0))])).1
            0 0%nat (RenameDone 0 None) Scenario.args _
            (Server.mkListener 0 "7" (Server.JBool false) false)
            (mkPack (Some "SEND") (Some "a.bin") (Some "127.0.0.1")
               (JNum 5000) (JNum 5) (JNum 0) (Some "/data/a.bin"))
            0%nat (Server.mkTracker None "7" false 0 0) _ _ _ _ _);
    try (vm_compute; reflexivity).
  left. vm_compute. reflexivity.
Defined.

(** A SEND without address and port, to the README's request. *)
Lemma X22_witness :
  let s := (Scenario.server_run Server.initial
              [(0, Server.Connection);
               (0, Server.Request 0 Scenario.quiet_request)]).1 in
  let turn := Scenario.server_step s
                (0, Server.TransferInput 0
                      (Scenario.from_bot "DCC SEND a.bin")) in
  (forall sock, Server.written sock turn.2 = [])
  /\ Server.activeDownloads turn.1 = Server.activeDownloads s
  /\ Server.transfers turn.1 !! 0%nat
     = Some (Server.mkTransfer Scenario.args
               (Scenario.final new_request [Start])
               (Server.mkListener 0 "7" (Server.JBool false) true)).
Proof.
  refine (FrontFacts.X22_malformed_message_never_answered
            ∅ Scenario.our_nick 1 Scenario.percent_of Scenario.formatSize
            Scenario.JSON_stringify Scenario.path_join
            [(0, Server.Connection);
             (0, Server.Request 0 Scenario.quiet_request)]
            0 0%nat Scenario.args (Scenario.final new_request [Start])
            (Server.mkListener 0 "7" (Server.JBool false) true)
            "DCC SEND a.bin" Scenario.fs_ready _ _ _ _ _);
    vm_compute; reflexivity.
Defined.
